(** * The CAST built-ins of the expression package

    A shallow embedding of [expression/builtin_cast.go]: the seven
    [castAsXXFunctionClass] dispatchers and the [builtinCastXXAsYYSig]
    evaluation routines, followed by the properties of the conversion
    rules that the specification states about them.

    Conventions of the embedding.
    - A Go [int64] / [uint64] is a [Z]; the conversions [int64(u)] and
      [uint64(i)] are written out with their wrap-around.
    - A Go result triple [(res, isNull, err)] is the Rocq triple
      [(res, isNull, err)] with [err : option error] ([None] is [nil]).
    - The statement context [b.ctx.GetSessionVars().StmtCtx] is threaded
      explicitly: a routine is a function from the context to its result
      and the context after it (the warnings it appended).
    - [errors.Trace] keeps an error as it is and is not written.
    - A Go run-time panic (an index out of range, a nil dereference) is
      the error [ErrPanic] in the place of the result's error.
    - Helpers of the [types], [json] and [strconv] packages whose result
      the properties do not depend on are variables of the section
      [Routines]; the others are modelled by definitions. *)

From Stdlib Require Import ZArith List String Ascii Bool Lia DecimalString.
Import ListNotations.
Local Open Scope string_scope.
Local Open Scope Z_scope.

(** ** Machine integers *)

Definition MaxInt64 : Z := 9223372036854775807.
Definition MinInt64 : Z := -9223372036854775808.
Definition MaxUint64 : Z := 18446744073709551615.

(** [int64(u)] for a [uint64] (or any integer): two's-complement wrap. *)
Definition int64 (z : Z) : Z := (z + 2 ^ 63) mod 2 ^ 64 - 2 ^ 63.

(** [uint64(i)] for an [int64]: the same 64 bits read as unsigned. *)
Definition uint64 (z : Z) : Z := z mod 2 ^ 64.

(** A [float64] is kept as its IEEE-754 bit pattern; every operation on
    it belongs to the helpers taken as variables. *)
Definition float64 : Type := Z.

(** ** Errors ([terror]) *)

Inductive ErrCode : Type :=
| ErrOverflow
| ErrTruncatedWrongVal
| ErrTruncated
| ErrDataTooLong
| ErrMBiggerThanD
| ErrCastNegIntAsUnsigned
| ErrCastAsSignedOverflow
| ErrIncorrectParameterCount
| ErrInvalidTimeFormat
| ErrInvalidJSONText
| ErrUnknown
| ErrPanic.

(** An error value: the code it was generated from and the arguments it
    was generated with ([ErrX.GenByArgs(a, b)]). *)
Record error : Type := GenByArgs { errCode : ErrCode; errArgs : list string }.

(** A bare [types.ErrX] used as a value. *)
Definition Gen (c : ErrCode) : error := GenByArgs c [].

Definition ErrCode_eqb (a b : ErrCode) : bool :=
  match a, b with
  | ErrOverflow, ErrOverflow
  | ErrTruncatedWrongVal, ErrTruncatedWrongVal
  | ErrTruncated, ErrTruncated
  | ErrDataTooLong, ErrDataTooLong
  | ErrMBiggerThanD, ErrMBiggerThanD
  | ErrCastNegIntAsUnsigned, ErrCastNegIntAsUnsigned
  | ErrCastAsSignedOverflow, ErrCastAsSignedOverflow
  | ErrIncorrectParameterCount, ErrIncorrectParameterCount
  | ErrInvalidTimeFormat, ErrInvalidTimeFormat
  | ErrInvalidJSONText, ErrInvalidJSONText
  | ErrUnknown, ErrUnknown
  | ErrPanic, ErrPanic => true
  | _, _ => false
  end.

(** [ErrX.Equal(err)]: same code, whatever the arguments; [nil] equals
    no error code. *)
Definition Equal (c : ErrCode) (err : option error) : bool :=
  match err with
  | Some e => ErrCode_eqb c (errCode e)
  | None => false
  end.

Definition isErr (err : option error) : bool :=
  match err with Some _ => true | None => false end.

(** ** The statement context and the diagnostics it collects *)

(** The flags of [stmtctx.StatementContext] the conversions read, and the
    warnings accumulated so far (oldest first). *)
Record StatementContext : Type := {
  InSelectStmt : bool;
  OverflowAsWarning : bool;
  TruncateAsWarning : bool;
  warnings : list error
}.

(** Code that reads and extends the statement context. *)
Definition Stmt (A : Type) : Type := StatementContext -> A * StatementContext.

Definition ret {A : Type} (a : A) : Stmt A := fun sc => (a, sc).

Definition bind {A B : Type} (m : Stmt A) (k : A -> Stmt B) : Stmt B :=
  fun sc => let (a, sc') := m sc in k a sc'.

Notation "x <- m ;; k" := (bind m (fun x => k))
  (at level 61, m at next level, right associativity).
Notation "' pat <- m ;; k" := (bind m (fun x => match x with pat => k end))
  (at level 61, pat pattern, m at next level, right associativity).

Definition getStmtCtx : Stmt StatementContext := fun sc => (sc, sc).

(** Modelled from the spec: [sc.AppendWarning(w)], the sink's
    append-warning entry. *)
Definition AppendWarning (w : error) : Stmt unit :=
  fun sc =>
    (tt, {| InSelectStmt := InSelectStmt sc;
            OverflowAsWarning := OverflowAsWarning sc;
            TruncateAsWarning := TruncateAsWarning sc;
            warnings := (warnings sc ++ [w])%list |}).

(** Modelled from the spec: [StatementContext.HandleOverflow] (package
    [stmtctx], not part of this file) is the diagnostics sink's
    handle-overflow entry, "recoverable-or-fatal per policy": no error
    stays no error; under the warning policy the warning form of the
    error is appended and the error is dropped; otherwise the error is
    handed back and is fatal. *)
Definition HandleOverflow (err warnErr : option error) : Stmt (option error) :=
  match err with
  | None => ret None
  | Some e =>
      sc <- getStmtCtx ;;
      if OverflowAsWarning sc then
        match warnErr with
        | Some w => _ <- AppendWarning w ;; ret None
        | None => ret None
        end
      else ret (Some e)
  end.

(** Modelled from the spec: [StatementContext.HandleTruncate], the sink's
    handle-truncation entry, "recoverable-or-fatal per policy". *)
Definition HandleTruncate (err : option error) : Stmt (option error) :=
  match err with
  | None => ret None
  | Some e =>
      sc <- getStmtCtx ;;
      if TruncateAsWarning sc then _ <- AppendWarning e ;; ret None
      else ret (Some e)
  end.

(** ** Field types ([types.FieldType]) and the [mysql] constants *)

(** Type tags, with the byte values of the MySQL protocol. *)
Definition TypeDecimal : Z := 0.
Definition TypeTiny : Z := 1.
Definition TypeShort : Z := 2.
Definition TypeLong : Z := 3.
Definition TypeFloat : Z := 4.
Definition TypeDouble : Z := 5.
Definition TypeNull : Z := 6.
Definition TypeTimestamp : Z := 7.
Definition TypeLonglong : Z := 8.
Definition TypeInt24 : Z := 9.
Definition TypeDate : Z := 10.
Definition TypeDuration : Z := 11.
Definition TypeDatetime : Z := 12.
Definition TypeYear : Z := 13.
Definition TypeNewDate : Z := 14.
Definition TypeVarchar : Z := 15.
Definition TypeBit : Z := 16.
Definition TypeJSON : Z := 245.
Definition TypeNewDecimal : Z := 246.
Definition TypeEnum : Z := 247.
Definition TypeSet : Z := 248.
Definition TypeTinyBlob : Z := 249.
Definition TypeMediumBlob : Z := 250.
Definition TypeLongBlob : Z := 251.
Definition TypeBlob : Z := 252.
Definition TypeVarString : Z := 253.
Definition TypeString : Z := 254.
Definition TypeGeometry : Z := 255.

(** Flag bits. *)
Definition UnsignedFlag : Z := Z.shiftl 1 5.
Definition BinaryFlag : Z := Z.shiftl 1 7.
Definition ParseToJSONFlag : Z := Z.shiftl 1 18.
Definition IsBooleanFlag : Z := Z.shiftl 1 19.

Definition UnspecifiedLength : Z := -1.
Definition DefaultFsp : Z := 0.
Definition MaxFsp : Z := 6.

Definition CharsetUTF8 : string := "utf8".
Definition CharsetUTF8MB4 : string := "utf8mb4".
Definition CharsetBin : string := "binary".
Definition CollationUTF8 : string := "utf8_bin".
Definition CollationBin : string := "binary".

Record FieldType : Type := {
  Tp : Z;
  Flag : Z;
  Flen : Z;
  Decimal : Z;
  Charset : string;
  Collate : string
}.

Definition HasUnsignedFlag (flag : Z) : bool := 0 <? Z.land flag UnsignedFlag.
Definition HasIsBooleanFlag (flag : Z) : bool := 0 <? Z.land flag IsBooleanFlag.
Definition HasParseToJSONFlag (flag : Z) : bool := 0 <? Z.land flag ParseToJSONFlag.

(** The evaluation classes ([types.EvalType]). *)
Inductive EvalType : Type :=
| ETInt | ETReal | ETDecimal | ETString
| ETDatetime | ETTimestamp | ETDuration | ETJson.

(** Modelled from the spec: [FieldType.EvalType] (package [types]) maps a
    declared type to its logical evaluation class: the integer tags
    (with BIT and YEAR) to Integer, FLOAT and DOUBLE to Real, the
    fixed-point tag to Decimal, DATE and DATETIME to DateTime, TIMESTAMP
    to its own class, TIME to Duration, JSON to Json, and every other
    tag to String. *)
Definition FieldType_EvalType (ft : FieldType) : EvalType :=
  let t := Tp ft in
  if (t =? TypeTiny) || (t =? TypeShort) || (t =? TypeInt24) || (t =? TypeLong)
     || (t =? TypeLonglong) || (t =? TypeBit) || (t =? TypeYear) then ETInt
  else if (t =? TypeFloat) || (t =? TypeDouble) then ETReal
  else if t =? TypeNewDecimal then ETDecimal
  else if (t =? TypeDate) || (t =? TypeDatetime) then ETDatetime
  else if t =? TypeTimestamp then ETTimestamp
  else if t =? TypeDuration then ETDuration
  else if t =? TypeJSON then ETJson
  else ETString.

(** Modelled from the spec: [FieldType.Hybrid], "a declared type
    presentable under two logical classes depending on consuming context
    (enumerated/bit-like types)": ENUM, SET and BIT. *)
Definition Hybrid (ft : FieldType) : bool :=
  (Tp ft =? TypeEnum) || (Tp ft =? TypeBit) || (Tp ft =? TypeSet).

(** ** Strings and the [strconv] package *)

Definition len (s : string) : Z := Z.of_nat (String.length s).

Definition asciiCode (c : ascii) : Z := Z.of_nat (nat_of_ascii c).

Definition isDigit (c : ascii) : bool :=
  (48 <=? asciiCode c) && (asciiCode c <=? 57).

Definition digitVal (c : ascii) : Z := asciiCode c - 48.

(** The ASCII white space of [unicode.IsSpace]: tab, line feed, vertical
    tab, form feed, carriage return and space. *)
Definition isSpace (c : ascii) : bool :=
  ((9 <=? asciiCode c) && (asciiCode c <=? 13)) || (asciiCode c =? 32).

(** The white space of [unicode.IsSpace] outside ASCII, as the bytes of
    its UTF-8 encoding.  Two bytes: U+0085 (C2 85) and U+00A0 (C2 A0).
    Three bytes: U+1680 (E1 9A 80), U+2000 to U+200A (E2 80 80 to
    E2 80 8A), U+2028 and U+2029 (E2 80 A8, E2 80 A9), U+202F
    (E2 80 AF), U+205F (E2 81 9F) and U+3000 (E3 80 80). *)
Definition isSpace2 (b1 b2 : ascii) : bool :=
  (asciiCode b1 =? 194) && ((asciiCode b2 =? 133) || (asciiCode b2 =? 160)).

Definition isSpace3 (b1 b2 b3 : ascii) : bool :=
  ((asciiCode b1 =? 225) && (asciiCode b2 =? 154) && (asciiCode b3 =? 128))
  || ((asciiCode b1 =? 226) && (asciiCode b2 =? 128)
      && (((128 <=? asciiCode b3) && (asciiCode b3 <=? 138))
          || (asciiCode b3 =? 168) || (asciiCode b3 =? 169)
          || (asciiCode b3 =? 175)))
  || ((asciiCode b1 =? 226) && (asciiCode b2 =? 129) && (asciiCode b3 =? 159))
  || ((asciiCode b1 =? 227) && (asciiCode b2 =? 128) && (asciiCode b3 =? 128)).

(** The white-space characters at the head of the text are dropped, one
    character (of one, two or three bytes) at a time. *)
Fixpoint dropSpace (l : list ascii) : list ascii :=
  match l with
  | c1 :: r1 =>
      if isSpace c1 then dropSpace r1
      else
        match r1 with
        | c2 :: r2 =>
            if isSpace2 c1 c2 then dropSpace r2
            else
              match r2 with
              | c3 :: r3 => if isSpace3 c1 c2 c3 then dropSpace r3 else l
              | [] => l
              end
        | [] => l
        end
  | [] => []
  end.

(** The same from the end of the text: [l] is the text reversed, so the
    bytes of a character come last byte first. *)
Fixpoint dropSpaceBack (l : list ascii) : list ascii :=
  match l with
  | c1 :: r1 =>
      if isSpace c1 then dropSpaceBack r1
      else
        match r1 with
        | c2 :: r2 =>
            if isSpace2 c2 c1 then dropSpaceBack r2
            else
              match r2 with
              | c3 :: r3 => if isSpace3 c3 c2 c1 then dropSpaceBack r3 else l
              | [] => l
              end
        | [] => l
        end
  | [] => []
  end.

(** [strings.TrimSpace]: the leading and the trailing white space, as
    defined by Unicode, is removed. *)
Definition TrimSpace (s : string) : string :=
  string_of_list_ascii
    (rev (dropSpaceBack (rev (dropSpace (list_ascii_of_string s))))).

(** [strconv.FormatInt(v, 10)] and [strconv.FormatUint(v, 10)]. *)
Definition FormatInt (v : Z) : string := NilZero.string_of_int (Z.to_int v).
Definition FormatUint (v : Z) : string := NilZero.string_of_int (Z.to_int v).

Inductive NumError : Type := ErrSyntax | ErrRange.

Fixpoint digitsValue (acc : Z) (l : list ascii) : option Z :=
  match l with
  | [] => Some acc
  | c :: r => if isDigit c then digitsValue (acc * 10 + digitVal c) r else None
  end.

(** [strconv.ParseUint(s, 10, 64)]: digits only; the value saturates at
    [MaxUint64] with a range error. *)
Definition ParseUint (s : string) : Z * option NumError :=
  match list_ascii_of_string s with
  | [] => (0, Some ErrSyntax)
  | l =>
      match digitsValue 0 l with
      | None => (0, Some ErrSyntax)
      | Some v => if MaxUint64 <? v then (MaxUint64, Some ErrRange) else (v, None)
      end
  end.

(** [strconv.ParseInt(s, 10, 64)]: an optional sign, then digits; the
    value saturates at the signed endpoints with a range error. *)
Definition ParseInt (s : string) : Z * option NumError :=
  match list_ascii_of_string s with
  | [] => (0, Some ErrSyntax)
  | c :: r =>
      let neg := asciiCode c =? 45 in
      let body := if neg || (asciiCode c =? 43) then r else c :: r in
      match body with
      | [] => (0, Some ErrSyntax)
      | _ =>
          match digitsValue 0 body with
          | None => (0, Some ErrSyntax)
          | Some un =>
              if negb neg && (MaxInt64 <? un) then (MaxInt64, Some ErrRange)
              else if neg && (MaxInt64 + 1 <? un) then (MinInt64, Some ErrRange)
              else (if neg then - un else un, None)
          end
      end
  end.

Fixpoint takeDigits (l : list ascii) : list ascii :=
  match l with
  | c :: r => if isDigit c then c :: takeDigits r else []
  | [] => []
  end.

(** Modelled from the spec: [getValidIntPrefix] of package [types],
    "string-to-number parsing that tolerates leading/trailing noise": the
    valid prefix is an optional sign followed by the longest run of
    decimal digits, ["0"] when there is no digit; noise left over is a
    truncation reported to the diagnostics sink. *)
Definition getValidIntPrefix (str : string) : Stmt (string * option error) :=
  let l := list_ascii_of_string str in
  let '(sign, rest) :=
    match l with
    | c :: r =>
        if (asciiCode c =? 45) || (asciiCode c =? 43) then ([c], r) else ([], l)
    | [] => ([], [])
    end in
  let ds := takeDigits rest in
  match ds with
  | [] =>
      err <- HandleTruncate (Some (Gen ErrTruncated)) ;;
      ret ("0", err)
  | _ =>
      let valid := string_of_list_ascii (sign ++ ds)%list in
      if len valid =? len str then ret (valid, None)
      else
        err <- HandleTruncate (Some (Gen ErrTruncated)) ;;
        ret (valid, err)
  end.

(** Modelled from the spec: [types.StrToInt], the best-effort signed
    parse: white space is trimmed, the valid prefix is parsed, and a
    value outside the signed 64-bit range comes back saturated together
    with the overflow error. *)
Definition StrToInt (str : string) : Stmt (Z * option error) :=
  let str := TrimSpace str in
  '(validPrefix, err) <- getValidIntPrefix str ;;
  let '(iVal, err1) := ParseInt validPrefix in
  match err1 with
  | Some _ => ret (iVal, Some (GenByArgs ErrOverflow ["BIGINT"; validPrefix]))
  | None => ret (iVal, err)
  end.

(** Modelled from the spec: [types.StrToUint], the best-effort unsigned
    parse; a leading [+] of the valid prefix is dropped before parsing. *)
Definition StrToUint (str : string) : Stmt (Z * option error) :=
  let str := TrimSpace str in
  '(validPrefix, err) <- getValidIntPrefix str ;;
  let validPrefix :=
    match validPrefix with
    | String c r => if asciiCode c =? 43 then r else validPrefix
    | EmptyString => validPrefix
    end in
  let '(uVal, err1) := ParseUint validPrefix in
  match err1 with
  | Some _ =>
      ret (uVal, Some (GenByArgs ErrOverflow ["BIGINT UNSIGNED"; validPrefix]))
  | None => ret (uVal, err)
  end.

(** [types.UnsignedUpperBound[mysql.TypeLonglong]]. *)
Definition UnsignedUpperBound_Longlong : Z := MaxUint64.

(** Modelled from the spec: [types.ConvertIntToUint], the unsigned-safe
    reading of an integer: the 64 bits read as unsigned, saturated at the
    upper bound with an overflow error. *)
Definition ConvertIntToUint (val upperBound tp : Z) : Z * option error :=
  if upperBound <? uint64 val then
    (upperBound, Some (GenByArgs ErrOverflow [FormatInt val; FormatInt tp]))
  else (uint64 val, None).

(** ** Display length of strings *)

Definition truncateStr (s : string) (n : Z) : string :=
  substring 0 (Z.to_nat n) s.

Definition padding (n : Z) : string :=
  string_of_list_ascii (repeat Ascii.zero (Z.to_nat n)).

(** Modelled from the spec: [types.IsBinaryStr] on a CHAR field, the
    binary collation. *)
Definition IsBinaryStr (tp : FieldType) : bool :=
  String.eqb (Collate tp) CollationBin.

(** Modelled from the spec: [types.ProduceStrWithSpecifiedTp], "the
    result is truncated/padded to the declared display length": with a
    declared length, a longer text is cut to that length and the cut is
    reported as a truncation to the diagnostics sink; a shorter text of
    a binary CHAR field is padded with zero bytes to that length.  A
    character is one byte here. *)
Definition ProduceStrWithSpecifiedTp (s : string) (tp : FieldType)
  : Stmt (string * option error) :=
  let flen := Flen tp in
  let '(s', err) :=
    if 0 <=? flen then
      if String.eqb (Charset tp) CharsetUTF8
         || String.eqb (Charset tp) CharsetUTF8MB4 then
        if flen <? len s then
          (truncateStr s flen,
           Some (GenByArgs ErrDataTooLong [FormatInt flen; FormatInt (len s)]))
        else (s, None)
      else if flen <? len s then
        (truncateStr s flen,
         Some (GenByArgs ErrDataTooLong [FormatInt flen; FormatInt (len s)]))
      else if (Tp tp =? TypeString) && IsBinaryStr tp && (len s <? flen) then
        (s ++ padding (flen - len s), None)
      else (s, None)
    else (s, None) in
  err' <- HandleTruncate err ;;
  ret (s', err').

(** ** Fixed-point decimals ([types.MyDecimal]) *)

(** Modelled from the spec: [types.MyDecimal], the "arbitrary-precision
    fixed point" value.  A decimal is its unscaled signed coefficient
    and its number of fractional digits: the value is
    [coef / 10 ^ frac], so [12.34] is [{| coef := 1234; frac := 2 |}]. *)
Record MyDecimal : Type := { coef : Z; frac : Z }.

Inductive RoundMode : Type := ModeHalfEven | ModeTruncate | modeCeiling.

Definition NewDecFromInt (i : Z) : MyDecimal := {| coef := i; frac := 0 |}.
Definition NewDecFromUint (u : Z) : MyDecimal := {| coef := u; frac := 0 |}.

Definition MyDecimal_IsZero (d : MyDecimal) : bool := coef d =? 0.
Definition MyDecimal_IsNegative (d : MyDecimal) : bool := coef d <? 0.

(** Modelled from the spec: [d.Compare(e)], the sign of the difference
    of the two values. *)
Definition MyDecimal_Compare (d e : MyDecimal) : Z :=
  Z.sgn (coef d * 10 ^ frac e - coef e * 10 ^ frac d).

(** The coefficient [c] divided by the power of ten [p] and rounded in
    magnitude as the mode asks; the sign is put back afterwards. *)
Definition roundQuot (mode : RoundMode) (c p : Z) : Z :=
  let a := Z.abs c in
  let q := a / p in
  let r := a mod p in
  let q' :=
    match mode with
    | ModeTruncate => q
    | ModeHalfEven =>
        if p <? 2 * r then q + 1
        else if 2 * r =? p then (if Z.even q then q else q + 1)
        else q
    | modeCeiling => if 0 <? r then q + 1 else q
    end in
  if c <? 0 then - q' else q'.

(** Modelled from the spec: [MyDecimal.Round(to, frac, mode)] of package
    [types].  The routines of this file call it with [ModeHalfEven],
    which the spec reads as "rounds half-to-even": a value exactly half
    way between two neighbours goes to the one whose last kept digit is
    even.  Asking for more fractional digits than the value has fills
    with zeros. *)
Definition MyDecimal_Round (d : MyDecimal) (fr : Z) (mode : RoundMode)
  : MyDecimal * option error :=
  if fr <? 0 then
    ({| coef := roundQuot mode (coef d) (10 ^ (frac d - fr)) * 10 ^ (- fr);
        frac := 0 |}, None)
  else if frac d <=? fr then
    ({| coef := coef d * 10 ^ (fr - frac d); frac := fr |}, None)
  else
    ({| coef := roundQuot mode (coef d) (10 ^ (frac d - fr)); frac := fr |}, None).

Definition zeros (n : Z) : string :=
  string_of_list_ascii (repeat "0"%char (Z.to_nat n)).

(** Modelled from the spec: [d.ToString()], the "decimal literal text":
    sign, integer digits and, when the value carries fractional digits,
    a point and exactly that many digits. *)
Definition MyDecimal_ToString (d : MyDecimal) : string :=
  let a := Z.abs (coef d) in
  let p := 10 ^ frac d in
  let fs := FormatUint (a mod p) in
  let sign := if coef d <? 0 then "-" else "" in
  let point := if 0 <? frac d then "." ++ zeros (frac d - len fs) ++ fs else "" in
  sign ++ FormatUint (a / p) ++ point.

(** Modelled from the spec: [MyDecimal.ToInt], the integer part of the
    value; a dropped fraction is a truncation, a value outside the
    signed 64-bit range comes back saturated with the overflow error. *)
Definition MyDecimal_ToInt (d : MyDecimal) : Z * option error :=
  let v := Z.quot (coef d) (10 ^ frac d) in
  if v <? MinInt64 then (MinInt64, Some (Gen ErrOverflow))
  else if MaxInt64 <? v then (MaxInt64, Some (Gen ErrOverflow))
  else if Z.rem (coef d) (10 ^ frac d) =? 0 then (v, None)
  else (v, Some (Gen ErrTruncated)).

(** Modelled from the spec: [MyDecimal.ToUint]; a negative value and a
    value above the unsigned 64-bit range are overflows. *)
Definition MyDecimal_ToUint (d : MyDecimal) : Z * option error :=
  let v := Z.quot (coef d) (10 ^ frac d) in
  if coef d <? 0 then (0, Some (Gen ErrOverflow))
  else if MaxUint64 <? v then (MaxUint64, Some (Gen ErrOverflow))
  else if Z.rem (coef d) (10 ^ frac d) =? 0 then (v, None)
  else (v, Some (Gen ErrTruncated)).

(** Modelled from the spec: [d.PrecisionAndFrac()], the total digits
    and the scale: the digits of the integer part (none for a zero
    integer part) plus the fractional digits, at least one. *)
Definition MyDecimal_PrecisionAndFrac (d : MyDecimal) : Z * Z :=
  let ip := Z.abs (coef d) / 10 ^ frac d in
  let digitsInt := if ip =? 0 then 0 else len (FormatUint ip) in
  let precision := digitsInt + frac d in
  (if precision =? 0 then 1 else precision, frac d).

(** Modelled from the spec: [NewMaxOrMinDec(negative, prec, frac)], the
    largest magnitude with that many digits. *)
Definition NewMaxOrMinDec (negative : bool) (prec fr : Z) : MyDecimal :=
  {| coef := (if negative then -1 else 1) * (10 ^ prec - 1); frac := fr |}.

(** Modelled from the spec: [types.ProduceDecWithSpecifiedTp], the
    "precision-adjustment step that rounds/truncates to the target's
    declared total digits and scale, warning if digits were dropped".
    With both total digits and scale declared: a value with too many
    integer digits becomes the largest value of the declared shape
    together with the overflow error; otherwise a value of another scale
    is rounded to the declared scale, and digits dropped by that are a
    truncation reported to the diagnostics sink. *)
Definition ProduceDecWithSpecifiedTp (dec : MyDecimal) (tp : FieldType)
  : Stmt (option MyDecimal * option error) :=
  let flen := Flen tp in
  let decimal := Decimal tp in
  if (flen =? UnspecifiedLength) || (decimal =? UnspecifiedLength) then
    ret (Some dec, None)
  else if flen <? decimal then ret (None, Some (Gen ErrMBiggerThanD))
  else
    let '(prec, fr) := MyDecimal_PrecisionAndFrac dec in
    if negb (MyDecimal_IsZero dec) && (flen - decimal <? prec - fr) then
      ret (Some (NewMaxOrMinDec (MyDecimal_IsNegative dec) flen decimal),
           Some (GenByArgs ErrOverflow
                   ["DECIMAL"; FormatInt flen; FormatInt decimal]))
    else if negb (fr =? decimal) then
      let '(r, err) := MyDecimal_Round dec decimal ModeHalfEven in
      match err with
      | Some e => ret (None, Some e)
      | None =>
          if negb (MyDecimal_IsZero r) && (decimal <? fr)
             && negb (MyDecimal_Compare r dec =? 0) then
            err' <- HandleTruncate (Some (Gen ErrTruncated)) ;;
            ret (Some r, err')
          else ret (Some r, None)
      end
    else ret (Some dec, None).

(** ** Temporal values ([types.Time], [types.Duration]) *)

(** The calendar fields of a [types.Time]; [types.FromDate] builds them. *)
Record TimeInternal : Type := FromDate {
  Year : Z; Month : Z; Day : Z;
  Hour : Z; Minute : Z; Second : Z; Microsecond : Z
}.

Record Time : Type := {
  Time_Time : TimeInternal;
  Time_Type : Z;
  Time_Fsp : Z
}.

(** [types.Time{}]. *)
Definition zeroTime : Time :=
  {| Time_Time := FromDate 0 0 0 0 0 0 0; Time_Type := 0; Time_Fsp := 0 |}.

(** A duration: signed nanoseconds and the fractional-second precision. *)
Record Duration : Type := { Duration_Duration : Z; Duration_Fsp : Z }.

Definition ZeroDuration : Duration :=
  {| Duration_Duration := 0; Duration_Fsp := DefaultFsp |}.

(** [types.Duration{}]. *)
Definition zeroDurationValue : Duration :=
  {| Duration_Duration := 0; Duration_Fsp := 0 |}.

(** [d == e] on the two fields of the struct. *)
Definition Duration_eqb (d e : Duration) : bool :=
  (Duration_Duration d =? Duration_Duration e)
  && (Duration_Fsp d =? Duration_Fsp e).

(** The truncation the routines apply for a DATE target:
    [res.Time = types.FromDate(res.Time.Year(), res.Time.Month(),
    res.Time.Day(), 0, 0, 0, 0)]. *)
Definition truncateToDate (res : Time) : Time :=
  {| Time_Time := FromDate (Year (Time_Time res)) (Month (Time_Time res))
                           (Day (Time_Time res)) 0 0 0 0;
     Time_Type := Time_Type res;
     Time_Fsp := Time_Fsp res |}.

(** ** Expressions and built-in function bases *)

Section Routines.

(** A row of input ([types.Row]) and a binary JSON value
    ([json.BinaryJSON]) are left abstract. *)
Context {Row : Type} {BinaryJSON : Type}.

(** [json.BinaryJSON{}]. *)
Variable zeroJSON : BinaryJSON.

(** The part of the [Expression] interface the conversions use: the
    declared type, whether the expression is a binary literal
    ([IsBinaryLiteral(expr)]) and one evaluation accessor per class. *)
Record Expression : Type := {
  GetType : FieldType;
  IsBinaryLiteral : bool;
  EvalInt : Row -> Stmt (Z * bool * option error);
  EvalReal : Row -> Stmt (float64 * bool * option error);
  EvalDecimal : Row -> Stmt (option MyDecimal * bool * option error);
  EvalString : Row -> Stmt (string * bool * option error);
  EvalTime : Row -> Stmt (Time * bool * option error);
  EvalDuration : Row -> Stmt (Duration * bool * option error);
  EvalJSON : Row -> Stmt (BinaryJSON * bool * option error)
}.

(** [baseBuiltinFunc]: the arguments and the target type [tp]. *)
Record baseBuiltinFunc : Type := newBaseBuiltinFunc {
  args : list Expression;
  tp : FieldType
}.

(** Runs [k] on [b.args[0]]. *)
Definition onArg0 {A : Type} (b : baseBuiltinFunc) (zero : A)
    (k : Expression -> Stmt (A * bool * option error))
  : Stmt (A * bool * option error) :=
  match args b with
  | arg0 :: _ => k arg0
  | [] => ret (zero, false, Some (Gen ErrPanic))
  end.

(** Dereferences a [*types.MyDecimal]. *)
Definition onDec {A : Type} (val : option MyDecimal) (zero : A)
    (k : MyDecimal -> Stmt (A * bool * option error))
  : Stmt (A * bool * option error) :=
  match val with
  | Some d => k d
  | None => ret (zero, false, Some (Gen ErrPanic))
  end.

(** *** Helpers of other packages taken as they are *)

(** Floating point: [float64(i)], [float64(u)],
    [strconv.FormatFloat(f, 'f', -1, 64)] and the [types] conversions. *)
Variable float64_of_int64 : Z -> float64.
Variable float64_of_uint64 : Z -> float64.
Variable FormatFloat : float64 -> string.
Variable ConvertFloatToInt : float64 -> Z -> Z -> Z -> Z * option error.
Variable ConvertFloatToUint : float64 -> Z -> Z -> Z * option error.
Variable StrToFloat : string -> Stmt (float64 * option error).
Variable ProduceFloatWithSpecifiedTp :
  float64 -> FieldType -> Stmt (float64 * option error).
Variable MyDecimal_FromFloat64 : float64 -> MyDecimal * option error.
Variable MyDecimal_ToFloat64 : MyDecimal -> float64 * option error.
Variable MyDecimal_FromString : string -> MyDecimal * option error.

(** Temporal values: parsing, conversion between the temporal types,
    rounding to a fractional-second precision, numeric encoding, text. *)
Variable ParseTime : string -> Z -> Z -> Stmt (Time * option error).
Variable ParseTimeFromNum : Z -> Z -> Z -> Stmt (Time * option error).
Variable ParseDuration : string -> Z -> Duration * option error.
Variable NumberToDuration : Z -> Z -> Duration * option error.
Variable Time_Convert : Time -> Z -> Stmt (Time * option error).
Variable Time_RoundFrac : Time -> Z -> Stmt (Time * option error).
Variable Duration_RoundFrac : Duration -> Z -> Duration * option error.
Variable Time_ToNumber : Time -> MyDecimal.
Variable Duration_ToNumber : Duration -> MyDecimal.
Variable Time_String : Time -> string.
Variable Duration_String : Duration -> string.
Variable Time_ConvertToDuration : Time -> Duration * option error.
Variable Duration_ConvertToTime : Duration -> Z -> Stmt (Time * option error).

(** JSON: [json.CreateBinary] at each Go type it is called with, parsing,
    serialisation, unquoting and the JSON-to-number coercions. *)
Variable CreateBinary_bool : bool -> BinaryJSON.
Variable CreateBinary_int64 : Z -> BinaryJSON.
Variable CreateBinary_uint64 : Z -> BinaryJSON.
Variable CreateBinary_float64 : float64 -> BinaryJSON.
Variable CreateBinary_string : string -> BinaryJSON.
Variable ParseBinaryFromString : string -> BinaryJSON * option error.
Variable BinaryJSON_String : BinaryJSON -> string.
Variable BinaryJSON_Unquote : BinaryJSON -> string * option error.
Variable ConvertJSONToInt : BinaryJSON -> bool -> Stmt (Z * option error).
Variable ConvertJSONToFloat : BinaryJSON -> Stmt (float64 * option error).

(** [types.SignedLowerBound] and [types.SignedUpperBound] at
    [mysql.TypeLonglong]. *)
Definition SignedLowerBound_Longlong : Z := MinInt64.
Definition SignedUpperBound_Longlong : Z := MaxInt64.

(** ** Integer sources *)

Definition builtinCastIntAsIntSig_evalInt (b : baseBuiltinFunc) (row : Row)
  : Stmt (Z * bool * option error) :=
  onArg0 b 0 (fun arg0 => EvalInt arg0 row).

Definition builtinCastIntAsRealSig_evalReal (b : baseBuiltinFunc) (row : Row)
  : Stmt (float64 * bool * option error) :=
  onArg0 b 0 (fun arg0 =>
    '(val, isNull, err) <- EvalInt arg0 row ;;
    if isNull || isErr err then ret (0, isNull, err)
    else if negb (HasUnsignedFlag (Flag (GetType arg0))) then
      ret (float64_of_int64 val, false, err)
    else
      let '(uVal, err) :=
        ConvertIntToUint val UnsignedUpperBound_Longlong TypeLonglong in
      ret (float64_of_uint64 uVal, false, err)).

Definition builtinCastIntAsDecimalSig_evalDecimal (b : baseBuiltinFunc)
    (row : Row) : Stmt (option MyDecimal * bool * option error) :=
  onArg0 b None (fun arg0 =>
    '(val, isNull, err) <- EvalInt arg0 row ;;
    if isNull || isErr err then ret (None, isNull, err)
    else if negb (HasUnsignedFlag (Flag (GetType arg0))) then
      '(res, err) <- ProduceDecWithSpecifiedTp (NewDecFromInt val) (tp b) ;;
      ret (res, isNull, err)
    else
      let '(uVal, err) :=
        ConvertIntToUint val UnsignedUpperBound_Longlong TypeLonglong in
      if isErr err then ret (None, false, err)
      else
        '(res, err) <- ProduceDecWithSpecifiedTp (NewDecFromUint uVal) (tp b) ;;
        ret (res, isNull, err)).

Definition builtinCastIntAsStringSig_evalString (b : baseBuiltinFunc)
    (row : Row) : Stmt (string * bool * option error) :=
  onArg0 b "" (fun arg0 =>
    '(val, isNull, err) <- EvalInt arg0 row ;;
    if isNull || isErr err then ret ("", isNull, err)
    else if negb (HasUnsignedFlag (Flag (GetType arg0))) then
      '(res, err) <- ProduceStrWithSpecifiedTp (FormatInt val) (tp b) ;;
      ret (res, false, err)
    else
      let '(uVal, err) :=
        ConvertIntToUint val UnsignedUpperBound_Longlong TypeLonglong in
      if isErr err then ret ("", false, err)
      else
        '(res, err) <- ProduceStrWithSpecifiedTp (FormatUint uVal) (tp b) ;;
        ret (res, false, err)).

Definition builtinCastIntAsTimeSig_evalTime (b : baseBuiltinFunc) (row : Row)
  : Stmt (Time * bool * option error) :=
  onArg0 b zeroTime (fun arg0 =>
    '(val, isNull, err) <- EvalInt arg0 row ;;
    if isNull || isErr err then ret (zeroTime, isNull, err)
    else
      '(res, err) <- ParseTimeFromNum val (Tp (tp b)) (Decimal (tp b)) ;;
      if isErr err then ret (res, true, err)
      else if Tp (tp b) =? TypeDate then ret (truncateToDate res, false, None)
      else ret (res, false, None)).

Definition builtinCastIntAsDurationSig_evalDuration (b : baseBuiltinFunc)
    (row : Row) : Stmt (Duration * bool * option error) :=
  onArg0 b zeroDurationValue (fun arg0 =>
    '(val, isNull, err) <- EvalInt arg0 row ;;
    if isNull || isErr err then ret (zeroDurationValue, isNull, err)
    else
      let '(dur, err) := NumberToDuration val (Decimal (tp b)) in
      if isErr err then
        if Equal ErrOverflow err then
          err <- HandleOverflow err err ;;
          ret (zeroDurationValue, true, err)
        else ret (zeroDurationValue, true, err)
      else ret (dur, false, err)).

Definition builtinCastIntAsJSONSig_evalJSON (b : baseBuiltinFunc) (row : Row)
  : Stmt (BinaryJSON * bool * option error) :=
  onArg0 b zeroJSON (fun arg0 =>
    '(val, isNull, err) <- EvalInt arg0 row ;;
    if isNull || isErr err then ret (zeroJSON, isNull, err)
    else if HasIsBooleanFlag (Flag (GetType arg0)) then
      ret (CreateBinary_bool (negb (val =? 0)), false, None)
    else if HasUnsignedFlag (Flag (GetType arg0)) then
      ret (CreateBinary_uint64 (uint64 val), false, None)
    else ret (CreateBinary_int64 val, false, None)).

(** ** Real and decimal sources cast to JSON *)

Definition builtinCastRealAsJSONSig_evalJSON (b : baseBuiltinFunc) (row : Row)
  : Stmt (BinaryJSON * bool * option error) :=
  onArg0 b zeroJSON (fun arg0 =>
    '(val, isNull, err) <- EvalReal arg0 row ;;
    ret (CreateBinary_float64 val, isNull, err)).

Definition builtinCastDecimalAsJSONSig_evalJSON (b : baseBuiltinFunc)
    (row : Row) : Stmt (BinaryJSON * bool * option error) :=
  onArg0 b zeroJSON (fun arg0 =>
    '(val, isNull, err) <- EvalDecimal arg0 row ;;
    if isNull || isErr err then ret (zeroJSON, true, err)
    else onDec val zeroJSON (fun val =>
      let '(f64, err) := MyDecimal_ToFloat64 val in
      if isErr err then ret (zeroJSON, true, err)
      else ret (CreateBinary_float64 f64, isNull, err))).

Definition builtinCastStringAsJSONSig_evalJSON (b : baseBuiltinFunc)
    (row : Row) : Stmt (BinaryJSON * bool * option error) :=
  onArg0 b zeroJSON (fun arg0 =>
    '(val, isNull, err) <- EvalString arg0 row ;;
    if isNull || isErr err then ret (zeroJSON, isNull, err)
    else if HasParseToJSONFlag (Flag (tp b)) then
      let '(res, err) := ParseBinaryFromString val in
      ret (res, false, err)
    else ret (CreateBinary_string val, false, err)).

(** [val.Fsp = types.MaxFsp]. *)
Definition Duration_withFsp (d : Duration) (fsp : Z) : Duration :=
  {| Duration_Duration := Duration_Duration d; Duration_Fsp := fsp |}.

Definition Time_withFsp (t : Time) (fsp : Z) : Time :=
  {| Time_Time := Time_Time t; Time_Type := Time_Type t; Time_Fsp := fsp |}.

Definition builtinCastDurationAsJSONSig_evalJSON (b : baseBuiltinFunc)
    (row : Row) : Stmt (BinaryJSON * bool * option error) :=
  onArg0 b zeroJSON (fun arg0 =>
    '(val, isNull, err) <- EvalDuration arg0 row ;;
    if isNull || isErr err then ret (zeroJSON, isNull, err)
    else
      let val := Duration_withFsp val MaxFsp in
      ret (CreateBinary_string (Duration_String val), false, None)).

Definition builtinCastTimeAsJSONSig_evalJSON (b : baseBuiltinFunc) (row : Row)
  : Stmt (BinaryJSON * bool * option error) :=
  onArg0 b zeroJSON (fun arg0 =>
    '(val, isNull, err) <- EvalTime arg0 row ;;
    if isNull || isErr err then ret (zeroJSON, isNull, err)
    else
      let val :=
        if (Time_Type val =? TypeDatetime) || (Time_Type val =? TypeTimestamp)
        then Time_withFsp val MaxFsp else val in
      ret (CreateBinary_string (Time_String val), false, None)).

(** ** Real sources *)

Definition builtinCastRealAsRealSig_evalReal (b : baseBuiltinFunc) (row : Row)
  : Stmt (float64 * bool * option error) :=
  onArg0 b 0 (fun arg0 => EvalReal arg0 row).

Definition builtinCastRealAsIntSig_evalInt (b : baseBuiltinFunc) (row : Row)
  : Stmt (Z * bool * option error) :=
  onArg0 b 0 (fun arg0 =>
    '(val, isNull, err) <- EvalReal arg0 row ;;
    if isNull || isErr err then ret (0, isNull, err)
    else if negb (HasUnsignedFlag (Flag (tp b))) then
      let '(res, err) :=
        ConvertFloatToInt val SignedLowerBound_Longlong
                          SignedUpperBound_Longlong TypeDouble in
      ret (res, isNull, err)
    else
      let '(uintVal, err) :=
        ConvertFloatToUint val UnsignedUpperBound_Longlong TypeDouble in
      ret (int64 uintVal, isNull, err)).

Definition builtinCastRealAsDecimalSig_evalDecimal (b : baseBuiltinFunc)
    (row : Row) : Stmt (option MyDecimal * bool * option error) :=
  onArg0 b None (fun arg0 =>
    '(val, isNull, err) <- EvalReal arg0 row ;;
    if isNull || isErr err then ret (None, isNull, err)
    else
      let '(res, err) := MyDecimal_FromFloat64 val in
      if isErr err then ret (Some res, false, err)
      else
        '(res, err) <- ProduceDecWithSpecifiedTp res (tp b) ;;
        ret (res, false, err)).

Definition builtinCastRealAsStringSig_evalString (b : baseBuiltinFunc)
    (row : Row) : Stmt (string * bool * option error) :=
  onArg0 b "" (fun arg0 =>
    '(val, isNull, err) <- EvalReal arg0 row ;;
    if isNull || isErr err then ret ("", isNull, err)
    else
      '(res, err) <- ProduceStrWithSpecifiedTp (FormatFloat val) (tp b) ;;
      ret (res, isNull, err)).

Definition builtinCastRealAsTimeSig_evalTime (b : baseBuiltinFunc) (row : Row)
  : Stmt (Time * bool * option error) :=
  onArg0 b zeroTime (fun arg0 =>
    '(val, isNull, err) <- EvalReal arg0 row ;;
    if isNull || isErr err then ret (zeroTime, true, err)
    else
      '(res, err) <- ParseTime (FormatFloat val) (Tp (tp b)) (Decimal (tp b)) ;;
      if isErr err then ret (zeroTime, true, err)
      else if Tp (tp b) =? TypeDate then ret (truncateToDate res, false, None)
      else ret (res, false, None)).

Definition builtinCastRealAsDurationSig_evalDuration (b : baseBuiltinFunc)
    (row : Row) : Stmt (Duration * bool * option error) :=
  onArg0 b zeroDurationValue (fun arg0 =>
    '(val, isNull, err) <- EvalReal arg0 row ;;
    if isNull || isErr err then ret (zeroDurationValue, isNull, err)
    else
      let '(res, err) := ParseDuration (FormatFloat val) (Decimal (tp b)) in
      ret (res, false, err)).

(** ** Decimal sources *)

Definition builtinCastDecimalAsDecimalSig_evalDecimal (b : baseBuiltinFunc)
    (row : Row) : Stmt (option MyDecimal * bool * option error) :=
  onArg0 b None (fun arg0 =>
    '(evalDecimal, isNull, err) <- EvalDecimal arg0 row ;;
    if isNull || isErr err then ret (None, isNull, err)
    else onDec evalDecimal None (fun res =>
      '(res, err) <- ProduceDecWithSpecifiedTp res (tp b) ;;
      ret (res, false, err))).

Definition builtinCastDecimalAsIntSig_evalInt (b : baseBuiltinFunc) (row : Row)
  : Stmt (Z * bool * option error) :=
  onArg0 b 0 (fun arg0 =>
    '(val, isNull, err) <- EvalDecimal arg0 row ;;
    if isNull || isErr err then ret (0, isNull, err)
    else onDec val 0 (fun val =>
      let '(to, err) := MyDecimal_Round val 0 ModeHalfEven in
      if isErr err then ret (0, true, err)
      else
        let '(res, err) :=
          if HasUnsignedFlag (Flag (tp b)) then
            let '(uintRes, err) := MyDecimal_ToUint to in (int64 uintRes, err)
          else MyDecimal_ToInt to in
        if Equal ErrOverflow err then
          let warnErr :=
            GenByArgs ErrTruncatedWrongVal ["DECIMAL"; MyDecimal_ToString val] in
          err <- HandleOverflow err (Some warnErr) ;;
          ret (res, false, err)
        else ret (res, false, err))).

Definition builtinCastDecimalAsStringSig_evalString (b : baseBuiltinFunc)
    (row : Row) : Stmt (string * bool * option error) :=
  onArg0 b "" (fun arg0 =>
    '(val, isNull, err) <- EvalDecimal arg0 row ;;
    if isNull || isErr err then ret ("", isNull, err)
    else onDec val "" (fun val =>
      '(res, err) <- ProduceStrWithSpecifiedTp (MyDecimal_ToString val) (tp b) ;;
      ret (res, false, err))).

Definition builtinCastDecimalAsRealSig_evalReal (b : baseBuiltinFunc)
    (row : Row) : Stmt (float64 * bool * option error) :=
  onArg0 b 0 (fun arg0 =>
    '(val, isNull, err) <- EvalDecimal arg0 row ;;
    if isNull || isErr err then ret (0, isNull, err)
    else onDec val 0 (fun val =>
      let '(res, err) := MyDecimal_ToFloat64 val in
      ret (res, false, err))).

Definition builtinCastDecimalAsTimeSig_evalTime (b : baseBuiltinFunc)
    (row : Row) : Stmt (Time * bool * option error) :=
  onArg0 b zeroTime (fun arg0 =>
    '(val, isNull, err) <- EvalDecimal arg0 row ;;
    if isNull || isErr err then ret (zeroTime, isNull, err)
    else onDec val zeroTime (fun val =>
      '(res, err) <-
        ParseTime (MyDecimal_ToString val) (Tp (tp b)) (Decimal (tp b)) ;;
      if isErr err then ret (res, false, err)
      else if Tp (tp b) =? TypeDate then ret (truncateToDate res, false, err)
      else ret (res, false, err))).

Definition builtinCastDecimalAsDurationSig_evalDuration (b : baseBuiltinFunc)
    (row : Row) : Stmt (Duration * bool * option error) :=
  onArg0 b zeroDurationValue (fun arg0 =>
    '(val, isNull, err) <- EvalDecimal arg0 row ;;
    if isNull || isErr err then ret (zeroDurationValue, false, err)
    else onDec val zeroDurationValue (fun val =>
      let '(res, err) :=
        ParseDuration (MyDecimal_ToString val) (Decimal (tp b)) in
      if Equal ErrTruncatedWrongVal err then
        err <- HandleTruncate err ;;
        if Duration_eqb res ZeroDuration then ret (res, true, err)
        else ret (res, false, err)
      else ret (res, false, err))).

(** ** String sources *)

Definition builtinCastStringAsStringSig_evalString (b : baseBuiltinFunc)
    (row : Row) : Stmt (string * bool * option error) :=
  onArg0 b "" (fun arg0 =>
    '(res, isNull, err) <- EvalString arg0 row ;;
    if isNull || isErr err then ret (res, isNull, err)
    else
      '(res, err) <- ProduceStrWithSpecifiedTp res (tp b) ;;
      ret (res, false, err)).

(** [handleOverflow]: the overflow of a string cast to an integer.  In a
    SELECT statement an overflow becomes the endpoint of the range and
    is handed to the overflow policy of the statement context with its
    warning form; anywhere else result and error stay as they are. *)
Definition builtinCastStringAsIntSig_handleOverflow (b : baseBuiltinFunc)
    (origRes : Z) (origStr : string) (origErr : option error)
    (isNegative : bool) : Stmt (Z * option error) :=
  if negb (isErr origErr) then ret (origRes, origErr)
  else
    sc <- getStmtCtx ;;
    if InSelectStmt sc && Equal ErrOverflow origErr then
      let res := if isNegative then MinInt64 else int64 MaxUint64 in
      let warnErr := GenByArgs ErrTruncatedWrongVal ["INTEGER"; origStr] in
      err <- HandleOverflow origErr (Some warnErr) ;;
      ret (res, err)
    else ret (origRes, origErr).

(** [len(val) > 1 && val[0] == '-']. *)
Definition isNegativeStr (val : string) : bool :=
  match val with
  | String c _ => (1 <? len val) && (asciiCode c =? 45)
  | EmptyString => false
  end.

Definition builtinCastStringAsIntSig_evalInt (b : baseBuiltinFunc) (row : Row)
  : Stmt (Z * bool * option error) :=
  onArg0 b 0 (fun arg0 =>
    if Hybrid (GetType arg0) || IsBinaryLiteral arg0 then EvalInt arg0 row
    else
      '(val, isNull, err) <- EvalString arg0 row ;;
      if isNull || isErr err then ret (0, isNull, err)
      else
        let val := TrimSpace val in
        let isNegative := isNegativeStr val in
        '(res, err) <-
          (if isNegative then
             '(res, err) <- StrToInt val ;;
             if negb (isErr err) then
               _ <- AppendWarning (Gen ErrCastNegIntAsUnsigned) ;;
               ret (res, err)
             else ret (res, err)
           else
             '(ures, err) <- StrToUint val ;;
             if negb (isErr err) && negb (HasUnsignedFlag (Flag (tp b)))
                && (MaxInt64 <? ures) then
               _ <- AppendWarning (Gen ErrCastAsSignedOverflow) ;;
               ret (int64 ures, err)
             else ret (int64 ures, err)) ;;
        '(res, err) <-
          builtinCastStringAsIntSig_handleOverflow b res val err isNegative ;;
        ret (res, false, err)).

Definition builtinCastStringAsRealSig_evalReal (b : baseBuiltinFunc)
    (row : Row) : Stmt (float64 * bool * option error) :=
  onArg0 b 0 (fun arg0 =>
    if IsBinaryLiteral arg0 then EvalReal arg0 row
    else
      '(val, isNull, err) <- EvalString arg0 row ;;
      if isNull || isErr err then ret (0, isNull, err)
      else
        '(res, err) <- StrToFloat val ;;
        if isErr err then ret (0, false, err)
        else
          '(res, err) <- ProduceFloatWithSpecifiedTp res (tp b) ;;
          ret (res, false, err)).

Definition builtinCastStringAsDecimalSig_evalDecimal (b : baseBuiltinFunc)
    (row : Row) : Stmt (option MyDecimal * bool * option error) :=
  onArg0 b None (fun arg0 =>
    if IsBinaryLiteral arg0 then EvalDecimal arg0 row
    else
      '(val, isNull, err) <- EvalString arg0 row ;;
      if isNull || isErr err then ret (None, isNull, err)
      else
        let '(res, err) := MyDecimal_FromString val in
        err <- HandleTruncate err ;;
        if isErr err then ret (Some res, false, err)
        else
          '(res, err) <- ProduceDecWithSpecifiedTp res (tp b) ;;
          ret (res, false, err)).

Definition builtinCastStringAsTimeSig_evalTime (b : baseBuiltinFunc)
    (row : Row) : Stmt (Time * bool * option error) :=
  onArg0 b zeroTime (fun arg0 =>
    '(val, isNull, err) <- EvalString arg0 row ;;
    if isNull || isErr err then ret (zeroTime, isNull, err)
    else
      '(res, err) <- ParseTime val (Tp (tp b)) (Decimal (tp b)) ;;
      if isErr err then ret (res, false, err)
      else if Tp (tp b) =? TypeDate then ret (truncateToDate res, false, err)
      else ret (res, false, err)).

Definition builtinCastStringAsDurationSig_evalDuration (b : baseBuiltinFunc)
    (row : Row) : Stmt (Duration * bool * option error) :=
  onArg0 b zeroDurationValue (fun arg0 =>
    '(val, isNull, err) <- EvalString arg0 row ;;
    if isNull || isErr err then ret (zeroDurationValue, isNull, err)
    else
      let '(res, err) := ParseDuration val (Decimal (tp b)) in
      if Equal ErrTruncatedWrongVal err then
        err <- HandleTruncate err ;;
        if Duration_eqb res ZeroDuration then ret (res, true, err)
        else ret (res, false, err)
      else ret (res, false, err)).

(** ** DateTime sources *)

(** [res.Type = b.tp.Tp]. *)
Definition Time_withType (t : Time) (ty : Z) : Time :=
  {| Time_Time := Time_Time t; Time_Type := ty; Time_Fsp := Time_Fsp t |}.

Definition builtinCastTimeAsTimeSig_evalTime (b : baseBuiltinFunc) (row : Row)
  : Stmt (Time * bool * option error) :=
  onArg0 b zeroTime (fun arg0 =>
    '(res, isNull, err) <- EvalTime arg0 row ;;
    if isNull || isErr err then ret (res, isNull, err)
    else
      '(res, err) <- Time_Convert res (Tp (tp b)) ;;
      if isErr err then ret (res, true, err)
      else
        '(res, err) <- Time_RoundFrac res (Decimal (tp b)) ;;
        if Tp (tp b) =? TypeDate then
          ret (Time_withType (truncateToDate res) (Tp (tp b)), false, err)
        else ret (res, false, err)).

Definition builtinCastTimeAsIntSig_evalInt (b : baseBuiltinFunc) (row : Row)
  : Stmt (Z * bool * option error) :=
  onArg0 b 0 (fun arg0 =>
    '(val, isNull, err) <- EvalTime arg0 row ;;
    if isNull || isErr err then ret (0, isNull, err)
    else
      '(t, err) <- Time_RoundFrac val DefaultFsp ;;
      if isErr err then ret (0, false, err)
      else
        let '(res, err) := MyDecimal_ToInt (Time_ToNumber t) in
        ret (res, false, err)).

Definition builtinCastTimeAsRealSig_evalReal (b : baseBuiltinFunc) (row : Row)
  : Stmt (float64 * bool * option error) :=
  onArg0 b 0 (fun arg0 =>
    '(val, isNull, err) <- EvalTime arg0 row ;;
    if isNull || isErr err then ret (0, isNull, err)
    else
      let '(res, err) := MyDecimal_ToFloat64 (Time_ToNumber val) in
      ret (res, false, err)).

Definition builtinCastTimeAsDecimalSig_evalDecimal (b : baseBuiltinFunc)
    (row : Row) : Stmt (option MyDecimal * bool * option error) :=
  onArg0 b None (fun arg0 =>
    '(val, isNull, err) <- EvalTime arg0 row ;;
    if isNull || isErr err then ret (None, isNull, err)
    else
      '(res, err) <- ProduceDecWithSpecifiedTp (Time_ToNumber val) (tp b) ;;
      ret (res, false, err)).

Definition builtinCastTimeAsStringSig_evalString (b : baseBuiltinFunc)
    (row : Row) : Stmt (string * bool * option error) :=
  onArg0 b "" (fun arg0 =>
    '(val, isNull, err) <- EvalTime arg0 row ;;
    if isNull || isErr err then ret ("", isNull, err)
    else
      '(res, err) <- ProduceStrWithSpecifiedTp (Time_String val) (tp b) ;;
      ret (res, false, err)).

Definition builtinCastTimeAsDurationSig_evalDuration (b : baseBuiltinFunc)
    (row : Row) : Stmt (Duration * bool * option error) :=
  onArg0 b zeroDurationValue (fun arg0 =>
    '(val, isNull, err) <- EvalTime arg0 row ;;
    if isNull || isErr err then ret (zeroDurationValue, isNull, err)
    else
      let '(res, err) := Time_ConvertToDuration val in
      if isErr err then ret (res, false, err)
      else
        let '(res, err) := Duration_RoundFrac res (Decimal (tp b)) in
        ret (res, false, err)).

(** ** Duration sources *)

Definition builtinCastDurationAsDurationSig_evalDuration (b : baseBuiltinFunc)
    (row : Row) : Stmt (Duration * bool * option error) :=
  onArg0 b zeroDurationValue (fun arg0 =>
    '(res, isNull, err) <- EvalDuration arg0 row ;;
    if isNull || isErr err then ret (res, isNull, err)
    else
      let '(res, err) := Duration_RoundFrac res (Decimal (tp b)) in
      ret (res, false, err)).

Definition builtinCastDurationAsIntSig_evalInt (b : baseBuiltinFunc)
    (row : Row) : Stmt (Z * bool * option error) :=
  onArg0 b 0 (fun arg0 =>
    '(val, isNull, err) <- EvalDuration arg0 row ;;
    if isNull || isErr err then ret (0, isNull, err)
    else
      let '(dur, err) := Duration_RoundFrac val DefaultFsp in
      if isErr err then ret (0, false, err)
      else
        let '(res, err) := MyDecimal_ToInt (Duration_ToNumber dur) in
        ret (res, false, err)).

Definition builtinCastDurationAsRealSig_evalReal (b : baseBuiltinFunc)
    (row : Row) : Stmt (float64 * bool * option error) :=
  onArg0 b 0 (fun arg0 =>
    '(val, isNull, err) <- EvalDuration arg0 row ;;
    if isNull || isErr err then ret (0, isNull, err)
    else
      let '(res, err) := MyDecimal_ToFloat64 (Duration_ToNumber val) in
      ret (res, false, err)).

Definition builtinCastDurationAsDecimalSig_evalDecimal (b : baseBuiltinFunc)
    (row : Row) : Stmt (option MyDecimal * bool * option error) :=
  onArg0 b None (fun arg0 =>
    '(val, isNull, err) <- EvalDuration arg0 row ;;
    if isNull || isErr err then ret (None, isNull, err)
    else
      '(res, err) <- ProduceDecWithSpecifiedTp (Duration_ToNumber val) (tp b) ;;
      ret (res, false, err)).

Definition builtinCastDurationAsStringSig_evalString (b : baseBuiltinFunc)
    (row : Row) : Stmt (string * bool * option error) :=
  onArg0 b "" (fun arg0 =>
    '(val, isNull, err) <- EvalDuration arg0 row ;;
    if isNull || isErr err then ret ("", isNull, err)
    else
      '(res, err) <- ProduceStrWithSpecifiedTp (Duration_String val) (tp b) ;;
      ret (res, false, err)).

Definition builtinCastDurationAsTimeSig_evalTime (b : baseBuiltinFunc)
    (row : Row) : Stmt (Time * bool * option error) :=
  onArg0 b zeroTime (fun arg0 =>
    '(val, isNull, err) <- EvalDuration arg0 row ;;
    if isNull || isErr err then ret (zeroTime, isNull, err)
    else
      '(res, err) <- Duration_ConvertToTime val (Tp (tp b)) ;;
      if isErr err then ret (res, false, err)
      else
        '(res, err) <- Time_RoundFrac res (Decimal (tp b)) ;;
        ret (res, false, err)).

(** ** JSON sources *)

Definition builtinCastJSONAsJSONSig_evalJSON (b : baseBuiltinFunc) (row : Row)
  : Stmt (BinaryJSON * bool * option error) :=
  onArg0 b zeroJSON (fun arg0 => EvalJSON arg0 row).

Definition builtinCastJSONAsIntSig_evalInt (b : baseBuiltinFunc) (row : Row)
  : Stmt (Z * bool * option error) :=
  onArg0 b 0 (fun arg0 =>
    '(val, isNull, err) <- EvalJSON arg0 row ;;
    if isNull || isErr err then ret (0, isNull, err)
    else
      '(res, err) <- ConvertJSONToInt val (HasUnsignedFlag (Flag (tp b))) ;;
      ret (res, isNull, err)).

Definition builtinCastJSONAsRealSig_evalReal (b : baseBuiltinFunc) (row : Row)
  : Stmt (float64 * bool * option error) :=
  onArg0 b 0 (fun arg0 =>
    '(val, isNull, err) <- EvalJSON arg0 row ;;
    if isNull || isErr err then ret (0, isNull, err)
    else
      '(res, err) <- ConvertJSONToFloat val ;;
      ret (res, isNull, err)).

Definition builtinCastJSONAsDecimalSig_evalDecimal (b : baseBuiltinFunc)
    (row : Row) : Stmt (option MyDecimal * bool * option error) :=
  onArg0 b None (fun arg0 =>
    '(val, isNull, err) <- EvalJSON arg0 row ;;
    if isNull || isErr err then ret (None, isNull, err)
    else
      '(f64, err) <- ConvertJSONToFloat val ;;
      if negb (isErr err) then
        let '(res, err) := MyDecimal_FromFloat64 f64 in
        ret (Some res, false, err)
      else ret (None, false, err)).

Definition builtinCastJSONAsStringSig_evalString (b : baseBuiltinFunc)
    (row : Row) : Stmt (string * bool * option error) :=
  onArg0 b "" (fun arg0 =>
    '(val, isNull, err) <- EvalJSON arg0 row ;;
    if isNull || isErr err then ret ("", isNull, err)
    else ret (BinaryJSON_String val, false, None)).

Definition builtinCastJSONAsTimeSig_evalTime (b : baseBuiltinFunc) (row : Row)
  : Stmt (Time * bool * option error) :=
  onArg0 b zeroTime (fun arg0 =>
    '(val, isNull, err) <- EvalJSON arg0 row ;;
    if isNull || isErr err then ret (zeroTime, isNull, err)
    else
      let '(s, err) := BinaryJSON_Unquote val in
      if isErr err then ret (zeroTime, false, err)
      else
        '(res, err) <- ParseTime s (Tp (tp b)) (Decimal (tp b)) ;;
        if isErr err then ret (res, false, err)
        else if Tp (tp b) =? TypeDate then
          ret (truncateToDate res, isNull, err)
        else ret (res, isNull, err)).

Definition builtinCastJSONAsDurationSig_evalDuration (b : baseBuiltinFunc)
    (row : Row) : Stmt (Duration * bool * option error) :=
  onArg0 b zeroDurationValue (fun arg0 =>
    '(val, isNull, err) <- EvalJSON arg0 row ;;
    if isNull || isErr err then ret (zeroDurationValue, isNull, err)
    else
      let '(s, err) := BinaryJSON_Unquote val in
      if isErr err then ret (zeroDurationValue, false, err)
      else
        let '(res, err) := ParseDuration s (Decimal (tp b)) in
        if Equal ErrTruncatedWrongVal err then
          err <- HandleTruncate err ;;
          ret (res, isNull, err)
        else ret (res, isNull, err)).

(** ** The dispatchers *)

(** The signatures: one constructor per [builtinCastXXAsYYSig] struct,
    each holding its [baseBuiltinFunc]. *)
Inductive builtinFunc : Type :=
| builtinCastIntAsIntSig (bf : baseBuiltinFunc)
| builtinCastIntAsRealSig (bf : baseBuiltinFunc)
| builtinCastIntAsStringSig (bf : baseBuiltinFunc)
| builtinCastIntAsDecimalSig (bf : baseBuiltinFunc)
| builtinCastIntAsTimeSig (bf : baseBuiltinFunc)
| builtinCastIntAsDurationSig (bf : baseBuiltinFunc)
| builtinCastIntAsJSONSig (bf : baseBuiltinFunc)
| builtinCastRealAsIntSig (bf : baseBuiltinFunc)
| builtinCastRealAsRealSig (bf : baseBuiltinFunc)
| builtinCastRealAsStringSig (bf : baseBuiltinFunc)
| builtinCastRealAsDecimalSig (bf : baseBuiltinFunc)
| builtinCastRealAsTimeSig (bf : baseBuiltinFunc)
| builtinCastRealAsDurationSig (bf : baseBuiltinFunc)
| builtinCastRealAsJSONSig (bf : baseBuiltinFunc)
| builtinCastDecimalAsIntSig (bf : baseBuiltinFunc)
| builtinCastDecimalAsRealSig (bf : baseBuiltinFunc)
| builtinCastDecimalAsStringSig (bf : baseBuiltinFunc)
| builtinCastDecimalAsDecimalSig (bf : baseBuiltinFunc)
| builtinCastDecimalAsTimeSig (bf : baseBuiltinFunc)
| builtinCastDecimalAsDurationSig (bf : baseBuiltinFunc)
| builtinCastDecimalAsJSONSig (bf : baseBuiltinFunc)
| builtinCastStringAsIntSig (bf : baseBuiltinFunc)
| builtinCastStringAsRealSig (bf : baseBuiltinFunc)
| builtinCastStringAsStringSig (bf : baseBuiltinFunc)
| builtinCastStringAsDecimalSig (bf : baseBuiltinFunc)
| builtinCastStringAsTimeSig (bf : baseBuiltinFunc)
| builtinCastStringAsDurationSig (bf : baseBuiltinFunc)
| builtinCastStringAsJSONSig (bf : baseBuiltinFunc)
| builtinCastTimeAsIntSig (bf : baseBuiltinFunc)
| builtinCastTimeAsRealSig (bf : baseBuiltinFunc)
| builtinCastTimeAsStringSig (bf : baseBuiltinFunc)
| builtinCastTimeAsDecimalSig (bf : baseBuiltinFunc)
| builtinCastTimeAsTimeSig (bf : baseBuiltinFunc)
| builtinCastTimeAsDurationSig (bf : baseBuiltinFunc)
| builtinCastTimeAsJSONSig (bf : baseBuiltinFunc)
| builtinCastDurationAsIntSig (bf : baseBuiltinFunc)
| builtinCastDurationAsRealSig (bf : baseBuiltinFunc)
| builtinCastDurationAsStringSig (bf : baseBuiltinFunc)
| builtinCastDurationAsDecimalSig (bf : baseBuiltinFunc)
| builtinCastDurationAsTimeSig (bf : baseBuiltinFunc)
| builtinCastDurationAsDurationSig (bf : baseBuiltinFunc)
| builtinCastDurationAsJSONSig (bf : baseBuiltinFunc)
| builtinCastJSONAsIntSig (bf : baseBuiltinFunc)
| builtinCastJSONAsRealSig (bf : baseBuiltinFunc)
| builtinCastJSONAsStringSig (bf : baseBuiltinFunc)
| builtinCastJSONAsDecimalSig (bf : baseBuiltinFunc)
| builtinCastJSONAsTimeSig (bf : baseBuiltinFunc)
| builtinCastJSONAsDurationSig (bf : baseBuiltinFunc)
| builtinCastJSONAsJSONSig (bf : baseBuiltinFunc).

(** The compatibility tags ([tipb.ScalarFuncSig]) the dispatchers set. *)
Inductive ScalarFuncSig : Type :=
| ScalarFuncSig_CastIntAsInt | ScalarFuncSig_CastIntAsReal
| ScalarFuncSig_CastIntAsString | ScalarFuncSig_CastIntAsDecimal
| ScalarFuncSig_CastIntAsTime | ScalarFuncSig_CastIntAsDuration
| ScalarFuncSig_CastIntAsJson
| ScalarFuncSig_CastRealAsInt | ScalarFuncSig_CastRealAsReal
| ScalarFuncSig_CastRealAsString | ScalarFuncSig_CastRealAsDecimal
| ScalarFuncSig_CastRealAsTime | ScalarFuncSig_CastRealAsDuration
| ScalarFuncSig_CastRealAsJson
| ScalarFuncSig_CastDecimalAsInt | ScalarFuncSig_CastDecimalAsReal
| ScalarFuncSig_CastDecimalAsString | ScalarFuncSig_CastDecimalAsDecimal
| ScalarFuncSig_CastDecimalAsTime | ScalarFuncSig_CastDecimalAsDuration
| ScalarFuncSig_CastDecimalAsJson
| ScalarFuncSig_CastStringAsInt | ScalarFuncSig_CastStringAsReal
| ScalarFuncSig_CastStringAsString | ScalarFuncSig_CastStringAsDecimal
| ScalarFuncSig_CastStringAsTime | ScalarFuncSig_CastStringAsDuration
| ScalarFuncSig_CastStringAsJson
| ScalarFuncSig_CastTimeAsInt | ScalarFuncSig_CastTimeAsReal
| ScalarFuncSig_CastTimeAsString | ScalarFuncSig_CastTimeAsDecimal
| ScalarFuncSig_CastTimeAsTime | ScalarFuncSig_CastTimeAsDuration
| ScalarFuncSig_CastTimeAsJson
| ScalarFuncSig_CastDurationAsInt | ScalarFuncSig_CastDurationAsReal
| ScalarFuncSig_CastDurationAsString | ScalarFuncSig_CastDurationAsDecimal
| ScalarFuncSig_CastDurationAsTime | ScalarFuncSig_CastDurationAsDuration
| ScalarFuncSig_CastDurationAsJson
| ScalarFuncSig_CastJsonAsInt | ScalarFuncSig_CastJsonAsReal
| ScalarFuncSig_CastJsonAsString | ScalarFuncSig_CastJsonAsDecimal
| ScalarFuncSig_CastJsonAsTime | ScalarFuncSig_CastJsonAsDuration
| ScalarFuncSig_CastJsonAsJson.

(** [baseFunctionClass]: the function name and the bounds on the number
    of arguments. *)
Record baseFunctionClass : Type := {
  funcName : string;
  minArgs : Z;
  maxArgs : Z
}.

(** Modelled from the spec: [baseFunctionClass.verifyArgs] "verifies
    single-argument arity (fails with Internal-Defect otherwise)": the
    number of arguments has to lie within the bounds of the class ([-1]
    is no upper bound). *)
Definition verifyArgs (c : baseFunctionClass) (args : list Expression)
  : option error :=
  let l := Z.of_nat (List.length args) in
  if (l <? minArgs c) || (negb (maxArgs c =? -1) && (maxArgs c <? l)) then
    Some (GenByArgs ErrIncorrectParameterCount [funcName c])
  else None.

(** The seven [castAsXXFunctionClass] structs have the same two fields. *)
Record castFunctionClass : Type := {
  base : baseFunctionClass;
  ctp : FieldType
}.

(** What [getFunction] returns on success: the signature and the tag set
    on it with [setPbCode]. *)
Definition sigResult : Type := (error + builtinFunc * ScalarFuncSig)%type.

(** [sig.getRetTp().Flag |= mysql.ParseToJSONFlag].  In the source the
    signature's [tp] is the very object the function class holds; here
    the flag is set on the type the signature carries. *)
Definition orFlag (ft : FieldType) (flag : Z) : FieldType :=
  {| Tp := Tp ft; Flag := Z.lor (Flag ft) flag; Flen := Flen ft;
     Decimal := Decimal ft; Charset := Charset ft; Collate := Collate ft |}.

(** The common frame of the seven [getFunction] methods: the arity check,
    then the choice [pick] made from the first argument. *)
Definition getFunctionWith (c : castFunctionClass) (args : list Expression)
    (pick : baseBuiltinFunc -> Expression -> builtinFunc * ScalarFuncSig)
  : sigResult :=
  match verifyArgs (base c) args with
  | Some err => inl err
  | None =>
      let bf := newBaseBuiltinFunc args (ctp c) in
      match args with
      | arg0 :: _ => inr (pick bf arg0)
      | [] => inl (Gen ErrPanic)
      end
  end.

Definition castAsIntFunctionClass_getFunction (c : castFunctionClass)
    (args : list Expression) : sigResult :=
  getFunctionWith c args (fun bf arg0 =>
    if Hybrid (GetType arg0) || IsBinaryLiteral arg0 then
      (builtinCastIntAsIntSig bf, ScalarFuncSig_CastIntAsInt)
    else
      match FieldType_EvalType (GetType arg0) with
      | ETInt => (builtinCastIntAsIntSig bf, ScalarFuncSig_CastIntAsInt)
      | ETReal => (builtinCastRealAsIntSig bf, ScalarFuncSig_CastRealAsInt)
      | ETDecimal =>
          (builtinCastDecimalAsIntSig bf, ScalarFuncSig_CastDecimalAsInt)
      | ETDatetime | ETTimestamp =>
          (builtinCastTimeAsIntSig bf, ScalarFuncSig_CastTimeAsInt)
      | ETDuration =>
          (builtinCastDurationAsIntSig bf, ScalarFuncSig_CastDurationAsInt)
      | ETJson => (builtinCastJSONAsIntSig bf, ScalarFuncSig_CastJsonAsInt)
      | ETString =>
          (builtinCastStringAsIntSig bf, ScalarFuncSig_CastStringAsInt)
      end).

Definition castAsRealFunctionClass_getFunction (c : castFunctionClass)
    (args : list Expression) : sigResult :=
  getFunctionWith c args (fun bf arg0 =>
    if IsBinaryLiteral arg0 then
      (builtinCastRealAsRealSig bf, ScalarFuncSig_CastRealAsReal)
    else
      let argTp :=
        if Hybrid (GetType arg0) then ETInt
        else FieldType_EvalType (GetType arg0) in
      match argTp with
      | ETInt => (builtinCastIntAsRealSig bf, ScalarFuncSig_CastIntAsReal)
      | ETReal => (builtinCastRealAsRealSig bf, ScalarFuncSig_CastRealAsReal)
      | ETDecimal =>
          (builtinCastDecimalAsRealSig bf, ScalarFuncSig_CastDecimalAsReal)
      | ETDatetime | ETTimestamp =>
          (builtinCastTimeAsRealSig bf, ScalarFuncSig_CastTimeAsReal)
      | ETDuration =>
          (builtinCastDurationAsRealSig bf, ScalarFuncSig_CastDurationAsReal)
      | ETJson => (builtinCastJSONAsRealSig bf, ScalarFuncSig_CastJsonAsReal)
      | ETString =>
          (builtinCastStringAsRealSig bf, ScalarFuncSig_CastStringAsReal)
      end).

Definition castAsDecimalFunctionClass_getFunction (c : castFunctionClass)
    (args : list Expression) : sigResult :=
  getFunctionWith c args (fun bf arg0 =>
    if IsBinaryLiteral arg0 then
      (builtinCastDecimalAsDecimalSig bf, ScalarFuncSig_CastDecimalAsDecimal)
    else
      let argTp :=
        if Hybrid (GetType arg0) then ETInt
        else FieldType_EvalType (GetType arg0) in
      match argTp with
      | ETInt => (builtinCastIntAsDecimalSig bf, ScalarFuncSig_CastIntAsDecimal)
      | ETReal =>
          (builtinCastRealAsDecimalSig bf, ScalarFuncSig_CastRealAsDecimal)
      | ETDecimal =>
          (builtinCastDecimalAsDecimalSig bf,
           ScalarFuncSig_CastDecimalAsDecimal)
      | ETDatetime | ETTimestamp =>
          (builtinCastTimeAsDecimalSig bf, ScalarFuncSig_CastTimeAsDecimal)
      | ETDuration =>
          (builtinCastDurationAsDecimalSig bf,
           ScalarFuncSig_CastDurationAsDecimal)
      | ETJson =>
          (builtinCastJSONAsDecimalSig bf, ScalarFuncSig_CastJsonAsDecimal)
      | ETString =>
          (builtinCastStringAsDecimalSig bf, ScalarFuncSig_CastStringAsDecimal)
      end).

Definition castAsStringFunctionClass_getFunction (c : castFunctionClass)
    (args : list Expression) : sigResult :=
  getFunctionWith c args (fun bf arg0 =>
    if Hybrid (GetType arg0) || IsBinaryLiteral arg0 then
      (builtinCastStringAsStringSig bf, ScalarFuncSig_CastStringAsString)
    else
      match FieldType_EvalType (GetType arg0) with
      | ETInt => (builtinCastIntAsStringSig bf, ScalarFuncSig_CastIntAsString)
      | ETReal =>
          (builtinCastRealAsStringSig bf, ScalarFuncSig_CastRealAsString)
      | ETDecimal =>
          (builtinCastDecimalAsStringSig bf, ScalarFuncSig_CastDecimalAsString)
      | ETDatetime | ETTimestamp =>
          (builtinCastTimeAsStringSig bf, ScalarFuncSig_CastTimeAsString)
      | ETDuration =>
          (builtinCastDurationAsStringSig bf,
           ScalarFuncSig_CastDurationAsString)
      | ETJson =>
          (builtinCastJSONAsStringSig bf, ScalarFuncSig_CastJsonAsString)
      | ETString =>
          (builtinCastStringAsStringSig bf, ScalarFuncSig_CastStringAsString)
      end).

Definition castAsTimeFunctionClass_getFunction (c : castFunctionClass)
    (args : list Expression) : sigResult :=
  getFunctionWith c args (fun bf arg0 =>
    match FieldType_EvalType (GetType arg0) with
    | ETInt => (builtinCastIntAsTimeSig bf, ScalarFuncSig_CastIntAsTime)
    | ETReal => (builtinCastRealAsTimeSig bf, ScalarFuncSig_CastRealAsTime)
    | ETDecimal =>
        (builtinCastDecimalAsTimeSig bf, ScalarFuncSig_CastDecimalAsTime)
    | ETDatetime | ETTimestamp =>
        (builtinCastTimeAsTimeSig bf, ScalarFuncSig_CastTimeAsTime)
    | ETDuration =>
        (builtinCastDurationAsTimeSig bf, ScalarFuncSig_CastDurationAsTime)
    | ETJson => (builtinCastJSONAsTimeSig bf, ScalarFuncSig_CastJsonAsTime)
    | ETString => (builtinCastStringAsTimeSig bf, ScalarFuncSig_CastStringAsTime)
    end).

Definition castAsDurationFunctionClass_getFunction (c : castFunctionClass)
    (args : list Expression) : sigResult :=
  getFunctionWith c args (fun bf arg0 =>
    match FieldType_EvalType (GetType arg0) with
    | ETInt => (builtinCastIntAsDurationSig bf, ScalarFuncSig_CastIntAsDuration)
    | ETReal =>
        (builtinCastRealAsDurationSig bf, ScalarFuncSig_CastRealAsDuration)
    | ETDecimal =>
        (builtinCastDecimalAsDurationSig bf,
         ScalarFuncSig_CastDecimalAsDuration)
    | ETDatetime | ETTimestamp =>
        (builtinCastTimeAsDurationSig bf, ScalarFuncSig_CastTimeAsDuration)
    | ETDuration =>
        (builtinCastDurationAsDurationSig bf,
         ScalarFuncSig_CastDurationAsDuration)
    | ETJson =>
        (builtinCastJSONAsDurationSig bf, ScalarFuncSig_CastJsonAsDuration)
    | ETString =>
        (builtinCastStringAsDurationSig bf, ScalarFuncSig_CastStringAsDuration)
    end).

Definition castAsJSONFunctionClass_getFunction (c : castFunctionClass)
    (args : list Expression) : sigResult :=
  getFunctionWith c args (fun bf arg0 =>
    match FieldType_EvalType (GetType arg0) with
    | ETInt => (builtinCastIntAsJSONSig bf, ScalarFuncSig_CastIntAsJson)
    | ETReal => (builtinCastRealAsJSONSig bf, ScalarFuncSig_CastRealAsJson)
    | ETDecimal =>
        (builtinCastDecimalAsJSONSig bf, ScalarFuncSig_CastDecimalAsJson)
    | ETDatetime | ETTimestamp =>
        (builtinCastTimeAsJSONSig bf, ScalarFuncSig_CastTimeAsJson)
    | ETDuration =>
        (builtinCastDurationAsJSONSig bf, ScalarFuncSig_CastDurationAsJson)
    | ETJson => (builtinCastJSONAsJSONSig bf, ScalarFuncSig_CastJsonAsJson)
    | ETString =>
        (builtinCastStringAsJSONSig
           (newBaseBuiltinFunc args (orFlag (tp bf) ParseToJSONFlag)),
         ScalarFuncSig_CastStringAsJson)
    end).

(** The function class [BuildCastFunction] builds for a target type:
    [baseFunctionClass{ast.Cast, 1, 1}] and the type. *)
Definition castClass (tp : FieldType) : castFunctionClass :=
  {| base := {| funcName := "cast"; minArgs := 1; maxArgs := 1 |};
     ctp := tp |}.

(** [BuildCastFunction] up to the signature: the function class is chosen
    by the evaluation class of the target and asked for the signature of
    the one argument (the scalar function around the signature and the
    folding of constants follow below, with the wrappers). *)
Definition BuildCastFunction_getFunction (expr : Expression) (tp : FieldType)
  : sigResult :=
  match FieldType_EvalType tp with
  | ETInt => castAsIntFunctionClass_getFunction (castClass tp) [expr]
  | ETDecimal => castAsDecimalFunctionClass_getFunction (castClass tp) [expr]
  | ETReal => castAsRealFunctionClass_getFunction (castClass tp) [expr]
  | ETDatetime | ETTimestamp =>
      castAsTimeFunctionClass_getFunction (castClass tp) [expr]
  | ETDuration => castAsDurationFunctionClass_getFunction (castClass tp) [expr]
  | ETJson => castAsJSONFunctionClass_getFunction (castClass tp) [expr]
  | ETString => castAsStringFunctionClass_getFunction (castClass tp) [expr]
  end.

(** ** Expressions of one evaluation class *)

(** An accessor that is never to be called: [baseBuiltinFunc.evalXX]
    panics ("should never be called"). *)
Definition neverCalled {A : Type} (zero : A)
  : Row -> Stmt (A * bool * option error) :=
  fun _ => ret (zero, false, Some (Gen ErrPanic)).

Definition noAccessor (ft : FieldType) (lit : bool) : Expression :=
  {| GetType := ft; IsBinaryLiteral := lit;
     EvalInt := neverCalled 0; EvalReal := neverCalled 0;
     EvalDecimal := neverCalled None; EvalString := neverCalled "";
     EvalTime := neverCalled zeroTime;
     EvalDuration := neverCalled zeroDurationValue;
     EvalJSON := neverCalled zeroJSON |}.

(** An expression of declared type [ft] whose accessor of the named class
    is [f]: a column, a constant, or a scalar function around a signature
    of that class. *)
Definition intExpr (ft : FieldType)
    (f : Row -> Stmt (Z * bool * option error)) : Expression :=
  {| GetType := ft; IsBinaryLiteral := false;
     EvalInt := f; EvalReal := neverCalled 0;
     EvalDecimal := neverCalled None; EvalString := neverCalled "";
     EvalTime := neverCalled zeroTime;
     EvalDuration := neverCalled zeroDurationValue;
     EvalJSON := neverCalled zeroJSON |}.

Definition realExpr (ft : FieldType)
    (f : Row -> Stmt (float64 * bool * option error)) : Expression :=
  {| GetType := ft; IsBinaryLiteral := false;
     EvalInt := neverCalled 0; EvalReal := f;
     EvalDecimal := neverCalled None; EvalString := neverCalled "";
     EvalTime := neverCalled zeroTime;
     EvalDuration := neverCalled zeroDurationValue;
     EvalJSON := neverCalled zeroJSON |}.

Definition decimalExpr (ft : FieldType)
    (f : Row -> Stmt (option MyDecimal * bool * option error)) : Expression :=
  {| GetType := ft; IsBinaryLiteral := false;
     EvalInt := neverCalled 0; EvalReal := neverCalled 0;
     EvalDecimal := f; EvalString := neverCalled "";
     EvalTime := neverCalled zeroTime;
     EvalDuration := neverCalled zeroDurationValue;
     EvalJSON := neverCalled zeroJSON |}.

Definition stringExpr (ft : FieldType)
    (f : Row -> Stmt (string * bool * option error)) : Expression :=
  {| GetType := ft; IsBinaryLiteral := false;
     EvalInt := neverCalled 0; EvalReal := neverCalled 0;
     EvalDecimal := neverCalled None; EvalString := f;
     EvalTime := neverCalled zeroTime;
     EvalDuration := neverCalled zeroDurationValue;
     EvalJSON := neverCalled zeroJSON |}.

Definition timeExpr (ft : FieldType)
    (f : Row -> Stmt (Time * bool * option error)) : Expression :=
  {| GetType := ft; IsBinaryLiteral := false;
     EvalInt := neverCalled 0; EvalReal := neverCalled 0;
     EvalDecimal := neverCalled None; EvalString := neverCalled "";
     EvalTime := f;
     EvalDuration := neverCalled zeroDurationValue;
     EvalJSON := neverCalled zeroJSON |}.

Definition durationExpr (ft : FieldType)
    (f : Row -> Stmt (Duration * bool * option error)) : Expression :=
  {| GetType := ft; IsBinaryLiteral := false;
     EvalInt := neverCalled 0; EvalReal := neverCalled 0;
     EvalDecimal := neverCalled None; EvalString := neverCalled "";
     EvalTime := neverCalled zeroTime;
     EvalDuration := f;
     EvalJSON := neverCalled zeroJSON |}.

Definition jsonExpr (ft : FieldType)
    (f : Row -> Stmt (BinaryJSON * bool * option error)) : Expression :=
  {| GetType := ft; IsBinaryLiteral := false;
     EvalInt := neverCalled 0; EvalReal := neverCalled 0;
     EvalDecimal := neverCalled None; EvalString := neverCalled "";
     EvalTime := neverCalled zeroTime;
     EvalDuration := neverCalled zeroDurationValue;
     EvalJSON := f |}.

(** A value that is there: not null, no error, the context untouched. *)
Definition value {A : Type} (v : A) : Row -> Stmt (A * bool * option error) :=
  fun _ => ret (v, false, None).

End Routines.

(** ** What it is for a result to meet the target type *)

(** A text meets a declared display length when it is not longer. *)
Definition fitsLength (tp : FieldType) (s : string) : bool :=
  (Flen tp <? 0) || (len s <=? Flen tp).

(** A decimal meets a declared shape when it has the declared scale (a
    negative scale declares nothing). *)
Definition fitsScale (tp : FieldType) (d : option MyDecimal) : bool :=
  (Flen tp =? UnspecifiedLength) || (Decimal tp <? 0)
  || match d with Some d => frac d =? Decimal tp | None => false end.

(** The outcome of a routine meets the target: a value that is there (not
    null, no error) fits the declared length, or has the declared scale. *)
Definition meetsLength (tp : FieldType)
    (r : string * bool * option error * StatementContext) : bool :=
  let '((res, isNull, err), _) := r in
  isNull || isErr err || fitsLength tp res.

Definition meetsScale (tp : FieldType)
    (r : option MyDecimal * bool * option error * StatementContext) : bool :=
  let '((res, isNull, err), _) := r in
  isNull || isErr err || fitsScale tp res.

(** A DateTime outcome for a DATE target has no time of day. *)
Definition meetsDate (r : Time * bool * option error * StatementContext) : bool :=
  let '((res, isNull, err), _) := r in
  isNull || isErr err
  || ((Hour (Time_Time res) =? 0) && (Minute (Time_Time res) =? 0)
      && (Second (Time_Time res) =? 0) && (Microsecond (Time_Time res) =? 0)).

(** A Duration outcome is rounded to the precision [fsp] when a value
    that is there is what rounding some duration to [fsp] returns. *)
Definition roundedDuration
    (RoundFrac : Duration -> Z -> Duration * option error) (fsp : Z)
    (r : Duration * bool * option error * StatementContext) : Prop :=
  let '((res, isNull, err), _) := r in
  isNull = true \/ isErr err = true
  \/ exists d : Duration, RoundFrac d fsp = (res, None).

(** A DateTime outcome is rounded to the precision of the target [tp]
    when a value that is there is what rounding some value to that
    precision returns, or the truncation of that to a date. *)
Definition roundedTime
    (RoundFrac : Time -> Z -> Stmt (Time * option error)) (tp : FieldType)
    (r : Time * bool * option error * StatementContext) : Prop :=
  let '((res, isNull, err), _) := r in
  isNull = true \/ isErr err = true
  \/ exists (t t' : Time) (sc sc' : StatementContext),
       RoundFrac t (Decimal tp) sc = ((t', None), sc')
       /\ (res = t'
           \/ res = {| Time_Time := Time_Time (truncateToDate t');
                       Time_Type := Tp tp;
                       Time_Fsp := Time_Fsp t' |}).

(** The first argument of a signature is a binary literal. *)
Definition arg0IsBinaryLiteral {Row BinaryJSON : Type}
    (b : @baseBuiltinFunc Row BinaryJSON) : bool :=
  match args b with
  | arg0 :: _ => IsBinaryLiteral arg0
  | [] => false
  end.

(** The display-length step changes a text when it cuts or pads it. *)
Definition displayLengthChanges (tp : FieldType) (s : string) : bool :=
  (0 <=? Flen tp)
  && ((Flen tp <? len s)
      || (negb (String.eqb (Charset tp) CharsetUTF8
                || String.eqb (Charset tp) CharsetUTF8MB4)
          && (Tp tp =? TypeString) && IsBinaryStr tp && (len s <? Flen tp))).

(** The statement context of a SELECT statement is lenient: the routine
    sees [InSelectStmt] and the overflow policy of the sink is to warn.
    Every other context is strict. *)
Definition lenient (sc : StatementContext) : bool :=
  InSelectStmt sc && OverflowAsWarning sc.

(** ** Reference helpers for concrete evaluations

    The routines above take the temporal and JSON helpers as they come.
    To run a routine on a concrete value the following small models
    stand in for them. *)

(** JSON values without floating-point numbers. *)
#[warnings="-register-all"]
Inductive JSONValue : Type :=
| JSONNull
| JSONBool (b : bool)
| JSONInt64 (i : Z)
| JSONUint64 (u : Z)
| JSONString (s : string)
| JSONArray (elems : list JSONValue)
| JSONObject (members : list (string * JSONValue)).

Definition dquote : ascii := ascii_of_nat 34.
Definition backslash : ascii := ascii_of_nat 92.

Fixpoint escapeChars (l : list ascii) : list ascii :=
  match l with
  | [] => []
  | c :: r =>
      if Ascii.eqb c dquote || Ascii.eqb c backslash
      then backslash :: c :: escapeChars r
      else c :: escapeChars r
  end.

(** A string scalar as JSON text: between double quotes, with double
    quotes and backslashes escaped. *)
Definition quoteJSON (s : string) : string :=
  string_of_list_ascii
    (dquote :: escapeChars (list_ascii_of_string s) ++ [dquote])%list.

(** Modelled from the spec: [BinaryJSON.String], "JSON's own
    serialization (quoting scalars, structural formatting for
    containers)". *)
Fixpoint JSONValue_String (j : JSONValue) : string :=
  match j with
  | JSONNull => "null"
  | JSONBool b => if b then "true" else "false"
  | JSONInt64 i => FormatInt i
  | JSONUint64 u => FormatUint u
  | JSONString s => quoteJSON s
  | JSONArray l =>
      "[" ++
      (fix elems (l : list JSONValue) : string :=
         match l with
         | [] => ""
         | x :: r =>
             match r with
             | [] => JSONValue_String x
             | _ => JSONValue_String x ++ ", " ++ elems r
             end
         end) l ++ "]"
  | JSONObject m =>
      "{" ++
      (fix members (m : list (string * JSONValue)) : string :=
         match m with
         | [] => ""
         | (k, x) :: r =>
             match r with
             | [] => quoteJSON k ++ ": " ++ JSONValue_String x
             | _ => quoteJSON k ++ ": " ++ JSONValue_String x ++ ", " ++ members r
             end
         end) m ++ "}"
  end.

(** Modelled from the spec: [BinaryJSON.Unquote], which "unquotes the
    JSON scalar to a string": the text of a string scalar itself, the
    serialisation of any other value. *)
Definition JSONValue_Unquote (j : JSONValue) : string * option error :=
  match j with
  | JSONString s => (s, None)
  | _ => (JSONValue_String j, None)
  end.

Definition twoDigits (a b : ascii) : option Z :=
  if isDigit a && isDigit b then Some (digitVal a * 10 + digitVal b) else None.

(** Modelled from the spec: [types.ParseDuration] reads "a signed
    HH:MM:SS[.fraction] literal"; this model reads the plain form
    [HH:MM:SS].  A text it cannot read is the zero duration together
    with the truncation diagnostic. *)
Definition refParseDuration (str : string) (fsp : Z) : Duration * option error :=
  let bad := (ZeroDuration, Some (GenByArgs ErrTruncatedWrongVal ["time"; str])) in
  match list_ascii_of_string (TrimSpace str) with
  | [h1; h2; c1; m1; m2; c2; s1; s2] =>
      match twoDigits h1 h2, twoDigits m1 m2, twoDigits s1 s2 with
      | Some h, Some m, Some s =>
          if (asciiCode c1 =? 58) && (asciiCode c2 =? 58)
             && (m <? 60) && (s <? 60) then
            ({| Duration_Duration := ((h * 60 + m) * 60 + s) * 10 ^ 9;
                Duration_Fsp := if fsp <? 0 then DefaultFsp else fsp |}, None)
          else bad
      | _, _, _ => bad
      end
  | _ => bad
  end.

(** Modelled from the spec: [Duration.ConvertToTime] "anchors against an
    implicit current date supplied by context": the date is [today], the
    time of day is the duration, the type is the one asked for.  This
    model anchors the durations of less than a day. *)
Definition refConvertToTime (today : Z * Z * Z) (d : Duration) (tp : Z)
  : Stmt (Time * option error) :=
  let ns := Duration_Duration d in
  if (ns <? 0) || (86400 * 10 ^ 9 <=? ns) then
    ret (zeroTime, Some (Gen ErrInvalidTimeFormat))
  else
    let us := ns / 1000 in
    let '(y, m, dd) := today in
    ret ({| Time_Time :=
              FromDate y m dd (us / 3600000000) ((us / 60000000) mod 60)
                       ((us / 1000000) mod 60) (us mod 1000000);
            Time_Type := tp;
            Time_Fsp := Duration_Fsp d |}, None).

(** Modelled from the spec: [Time.RoundFrac], the "temporal
    fractional-second rounding": the microseconds are rounded to [fsp]
    digits; a DATE has no fraction and stays as it is.  This model keeps
    the rounded value within its day. *)
Definition refTimeRoundFrac (t : Time) (fsp : Z) : Stmt (Time * option error) :=
  if Time_Type t =? TypeDate then ret (t, None)
  else
    let fsp := Z.min (Z.max fsp 0) MaxFsp in
    let unit := 10 ^ (MaxFsp - fsp) in
    let ti := Time_Time t in
    let total := ((Hour ti * 60 + Minute ti) * 60 + Second ti) * 1000000
                 + Microsecond ti in
    let us := (total + unit / 2) / unit * unit in
    if 86400 * 1000000 <=? us then ret (t, Some (Gen ErrInvalidTimeFormat))
    else
      ret ({| Time_Time :=
                FromDate (Year ti) (Month ti) (Day ti) (us / 3600000000)
                         ((us / 60000000) mod 60) ((us / 1000000) mod 60)
                         (us mod 1000000);
              Time_Type := Time_Type t;
              Time_Fsp := fsp |}, None).

(** The compatibility tag of the signature a dispatcher returned. *)
Definition pbCodeOf {Row BinaryJSON : Type}
    (r : @sigResult Row BinaryJSON) : option ScalarFuncSig :=
  match r with
  | inr (_, code) => Some code
  | inl _ => None
  end.

(** Inputs of the concrete evaluations. *)
Definition enumType : FieldType :=
  {| Tp := TypeEnum; Flag := 0; Flen := UnspecifiedLength;
     Decimal := UnspecifiedLength;
     Charset := CharsetUTF8; Collate := CollationUTF8 |}.

Definition varcharType (flen : Z) : FieldType :=
  {| Tp := TypeVarString; Flag := 0; Flen := flen;
     Decimal := UnspecifiedLength;
     Charset := CharsetUTF8; Collate := CollationUTF8 |}.

(** BINARY([flen]): a CHAR field of the binary charset and collation. *)
Definition binaryType (flen : Z) : FieldType :=
  {| Tp := TypeString; Flag := BinaryFlag; Flen := flen;
     Decimal := UnspecifiedLength;
     Charset := CharsetBin; Collate := CollationBin |}.

Definition bigintType : FieldType :=
  {| Tp := TypeLonglong; Flag := BinaryFlag; Flen := 20; Decimal := 0;
     Charset := CharsetBin; Collate := CollationBin |}.

Definition unsignedBigintType : FieldType :=
  {| Tp := TypeLonglong; Flag := Z.lor BinaryFlag UnsignedFlag; Flen := 20;
     Decimal := 0; Charset := CharsetBin; Collate := CollationBin |}.

Definition decimalType (flen decimal : Z) : FieldType :=
  {| Tp := TypeNewDecimal; Flag := BinaryFlag; Flen := flen;
     Decimal := decimal; Charset := CharsetBin; Collate := CollationBin |}.

Definition dateType : FieldType :=
  {| Tp := TypeDate; Flag := BinaryFlag; Flen := 10; Decimal := 0;
     Charset := CharsetBin; Collate := CollationBin |}.

Definition durationType (fsp : Z) : FieldType :=
  {| Tp := TypeDuration; Flag := BinaryFlag; Flen := 10; Decimal := fsp;
     Charset := CharsetBin; Collate := CollationBin |}.

Definition jsonType : FieldType :=
  {| Tp := TypeJSON; Flag := BinaryFlag; Flen := 12582912; Decimal := 0;
     Charset := CharsetUTF8; Collate := CollationUTF8 |}.

(** The context of a SELECT statement and a strict context. *)
Definition selectCtx : StatementContext :=
  {| InSelectStmt := true; OverflowAsWarning := true;
     TruncateAsWarning := true; warnings := [] |}.

Definition strictCtx : StatementContext :=
  {| InSelectStmt := false; OverflowAsWarning := false;
     TruncateAsWarning := false; warnings := [] |}.

(** An ENUM column and a binary literal, as the dispatchers see them. *)
Definition enumColumn : @Expression unit JSONValue :=
  noAccessor JSONNull enumType false.

Definition binaryLiteral : @Expression unit JSONValue :=
  noAccessor JSONNull (varcharType UnspecifiedLength) true.

(** A VARCHAR source holding [s], cast to the integer type [tp]. *)
Definition castStringToInt {Row BinaryJSON : Type} (zeroJSON : BinaryJSON)
    (row : Row) (s : string) (tp : FieldType)
  : Stmt (Z * bool * option error) :=
  builtinCastStringAsIntSig_evalInt
    (newBaseBuiltinFunc
       [stringExpr zeroJSON (varcharType UnspecifiedLength) (value s)] tp) row.

(** The integer [v] of declared type [ift] cast to the string type [tp],
    and that string cast back to the integer type [itp]. *)
Definition castIntToString {Row BinaryJSON : Type} (zeroJSON : BinaryJSON)
    (ift tp : FieldType) (v : Z) : Row -> Stmt (string * bool * option error) :=
  builtinCastIntAsStringSig_evalString
    (newBaseBuiltinFunc [intExpr zeroJSON ift (value v)] tp).

Definition castIntToStringToInt {Row BinaryJSON : Type} (zeroJSON : BinaryJSON)
    (ift tp itp : FieldType) (v : Z) : Row -> Stmt (Z * bool * option error) :=
  builtinCastStringAsIntSig_evalInt
    (newBaseBuiltinFunc
       [stringExpr zeroJSON tp (castIntToString zeroJSON ift tp v)] itp).

(** The decimal [d] cast to the integer type [tp], and to the decimal
    type [tp]. *)
Definition castDecimalToInt {Row BinaryJSON : Type} (zeroJSON : BinaryJSON)
    (row : Row) (d : MyDecimal) (tp : FieldType)
  : Stmt (Z * bool * option error) :=
  builtinCastDecimalAsIntSig_evalInt
    (newBaseBuiltinFunc
       [decimalExpr zeroJSON (decimalType 65 30) (value (Some d))] tp) row.

Definition castDecimalToDecimal {Row BinaryJSON : Type} (zeroJSON : BinaryJSON)
    (row : Row) (d : MyDecimal) (tp : FieldType)
  : Stmt (option MyDecimal * bool * option error) :=
  builtinCastDecimalAsDecimalSig_evalDecimal
    (newBaseBuiltinFunc
       [decimalExpr zeroJSON (decimalType 65 30) (value (Some d))] tp) row.

(** Casts to a Duration target, run with the reference helpers: the text
    [s], the decimal [d] and the JSON value [j] as sources. *)
Definition castStringToDuration (s : string) (tp : FieldType)
  : Stmt (Duration * bool * option error) :=
  builtinCastStringAsDurationSig_evalDuration refParseDuration
    (newBaseBuiltinFunc
       [stringExpr JSONNull (varcharType UnspecifiedLength) (value s)] tp) tt.

Definition castDecimalToDuration (d : MyDecimal) (tp : FieldType)
  : Stmt (Duration * bool * option error) :=
  builtinCastDecimalAsDurationSig_evalDuration refParseDuration
    (newBaseBuiltinFunc
       [decimalExpr JSONNull (decimalType 65 30) (value (Some d))] tp) tt.

Definition castJSONToDuration (j : JSONValue) (tp : FieldType)
  : Stmt (Duration * bool * option error) :=
  builtinCastJSONAsDurationSig_evalDuration refParseDuration JSONValue_Unquote
    (newBaseBuiltinFunc [jsonExpr (Row := unit) jsonType (value j)] tp) tt.

(** The duration [d] cast to the DateTime type [tp] on the day [today]. *)
Definition castDurationToTime (today : Z * Z * Z) (d : Duration)
    (tp : FieldType) : Stmt (Time * bool * option error) :=
  builtinCastDurationAsTimeSig_evalTime refTimeRoundFrac (refConvertToTime today)
    (newBaseBuiltinFunc
       [durationExpr JSONNull (durationType 0) (value d)] tp) tt.

(** The JSON value [j] and the text [s] cast to the string type [tp]. *)
Definition castJSONToString (j : JSONValue) (tp : FieldType)
  : Stmt (string * bool * option error) :=
  builtinCastJSONAsStringSig_evalString JSONValue_String
    (newBaseBuiltinFunc [jsonExpr (Row := unit) jsonType (value j)] tp) tt.

Definition castStringToString (s : string) (tp : FieldType)
  : Stmt (string * bool * option error) :=
  builtinCastStringAsStringSig_evalString
    (newBaseBuiltinFunc
       [stringExpr (Row := unit) JSONNull (varcharType UnspecifiedLength)
          (value s)] tp) tt.

(** ** Reading a signature

    Every [builtinCastXXAsYYSig] struct takes a value of class [XX]
    (it calls the [EvalXX] accessor of its argument) and defines the one
    evaluation method of class [YY]; the tag of the same name is
    [tipb.ScalarFuncSig_CastXXAsYY].  DateTime stands for both temporal
    classes of dates. *)

Definition sigSource {Row BinaryJSON : Type}
    (sig : @builtinFunc Row BinaryJSON) : EvalType :=
  match sig with
  | builtinCastIntAsIntSig _ | builtinCastIntAsRealSig _
  | builtinCastIntAsStringSig _ | builtinCastIntAsDecimalSig _
  | builtinCastIntAsTimeSig _ | builtinCastIntAsDurationSig _
  | builtinCastIntAsJSONSig _ => ETInt
  | builtinCastRealAsIntSig _ | builtinCastRealAsRealSig _
  | builtinCastRealAsStringSig _ | builtinCastRealAsDecimalSig _
  | builtinCastRealAsTimeSig _ | builtinCastRealAsDurationSig _
  | builtinCastRealAsJSONSig _ => ETReal
  | builtinCastStringAsIntSig _ | builtinCastStringAsRealSig _
  | builtinCastStringAsStringSig _ | builtinCastStringAsDecimalSig _
  | builtinCastStringAsTimeSig _ | builtinCastStringAsDurationSig _
  | builtinCastStringAsJSONSig _ => ETString
  | builtinCastDecimalAsIntSig _ | builtinCastDecimalAsRealSig _
  | builtinCastDecimalAsStringSig _ | builtinCastDecimalAsDecimalSig _
  | builtinCastDecimalAsTimeSig _ | builtinCastDecimalAsDurationSig _
  | builtinCastDecimalAsJSONSig _ => ETDecimal
  | builtinCastTimeAsIntSig _ | builtinCastTimeAsRealSig _
  | builtinCastTimeAsStringSig _ | builtinCastTimeAsDecimalSig _
  | builtinCastTimeAsTimeSig _ | builtinCastTimeAsDurationSig _
  | builtinCastTimeAsJSONSig _ => ETDatetime
  | builtinCastDurationAsIntSig _ | builtinCastDurationAsRealSig _
  | builtinCastDurationAsStringSig _ | builtinCastDurationAsDecimalSig _
  | builtinCastDurationAsTimeSig _ | builtinCastDurationAsDurationSig _
  | builtinCastDurationAsJSONSig _ => ETDuration
  | builtinCastJSONAsIntSig _ | builtinCastJSONAsRealSig _
  | builtinCastJSONAsStringSig _ | builtinCastJSONAsDecimalSig _
  | builtinCastJSONAsTimeSig _ | builtinCastJSONAsDurationSig _
  | builtinCastJSONAsJSONSig _ => ETJson
  end.

Definition sigTarget {Row BinaryJSON : Type}
    (sig : @builtinFunc Row BinaryJSON) : EvalType :=
  match sig with
  | builtinCastIntAsIntSig _ | builtinCastRealAsIntSig _
  | builtinCastDecimalAsIntSig _ | builtinCastStringAsIntSig _
  | builtinCastTimeAsIntSig _ | builtinCastDurationAsIntSig _
  | builtinCastJSONAsIntSig _ => ETInt
  | builtinCastIntAsRealSig _ | builtinCastRealAsRealSig _
  | builtinCastDecimalAsRealSig _ | builtinCastStringAsRealSig _
  | builtinCastTimeAsRealSig _ | builtinCastDurationAsRealSig _
  | builtinCastJSONAsRealSig _ => ETReal
  | builtinCastIntAsStringSig _ | builtinCastRealAsStringSig _
  | builtinCastDecimalAsStringSig _ | builtinCastStringAsStringSig _
  | builtinCastTimeAsStringSig _ | builtinCastDurationAsStringSig _
  | builtinCastJSONAsStringSig _ => ETString
  | builtinCastIntAsDecimalSig _ | builtinCastRealAsDecimalSig _
  | builtinCastDecimalAsDecimalSig _ | builtinCastStringAsDecimalSig _
  | builtinCastTimeAsDecimalSig _ | builtinCastDurationAsDecimalSig _
  | builtinCastJSONAsDecimalSig _ => ETDecimal
  | builtinCastIntAsTimeSig _ | builtinCastRealAsTimeSig _
  | builtinCastDecimalAsTimeSig _ | builtinCastStringAsTimeSig _
  | builtinCastTimeAsTimeSig _ | builtinCastDurationAsTimeSig _
  | builtinCastJSONAsTimeSig _ => ETDatetime
  | builtinCastIntAsDurationSig _ | builtinCastRealAsDurationSig _
  | builtinCastDecimalAsDurationSig _ | builtinCastStringAsDurationSig _
  | builtinCastTimeAsDurationSig _ | builtinCastDurationAsDurationSig _
  | builtinCastJSONAsDurationSig _ => ETDuration
  | builtinCastIntAsJSONSig _ | builtinCastRealAsJSONSig _
  | builtinCastDecimalAsJSONSig _ | builtinCastStringAsJSONSig _
  | builtinCastTimeAsJSONSig _ | builtinCastDurationAsJSONSig _
  | builtinCastJSONAsJSONSig _ => ETJson
  end.

Definition sigCode {Row BinaryJSON : Type}
    (sig : @builtinFunc Row BinaryJSON) : ScalarFuncSig :=
  match sig with
  | builtinCastIntAsIntSig _ => ScalarFuncSig_CastIntAsInt
  | builtinCastIntAsRealSig _ => ScalarFuncSig_CastIntAsReal
  | builtinCastIntAsStringSig _ => ScalarFuncSig_CastIntAsString
  | builtinCastIntAsDecimalSig _ => ScalarFuncSig_CastIntAsDecimal
  | builtinCastIntAsTimeSig _ => ScalarFuncSig_CastIntAsTime
  | builtinCastIntAsDurationSig _ => ScalarFuncSig_CastIntAsDuration
  | builtinCastIntAsJSONSig _ => ScalarFuncSig_CastIntAsJson
  | builtinCastRealAsIntSig _ => ScalarFuncSig_CastRealAsInt
  | builtinCastRealAsRealSig _ => ScalarFuncSig_CastRealAsReal
  | builtinCastRealAsStringSig _ => ScalarFuncSig_CastRealAsString
  | builtinCastRealAsDecimalSig _ => ScalarFuncSig_CastRealAsDecimal
  | builtinCastRealAsTimeSig _ => ScalarFuncSig_CastRealAsTime
  | builtinCastRealAsDurationSig _ => ScalarFuncSig_CastRealAsDuration
  | builtinCastRealAsJSONSig _ => ScalarFuncSig_CastRealAsJson
  | builtinCastDecimalAsIntSig _ => ScalarFuncSig_CastDecimalAsInt
  | builtinCastDecimalAsRealSig _ => ScalarFuncSig_CastDecimalAsReal
  | builtinCastDecimalAsStringSig _ => ScalarFuncSig_CastDecimalAsString
  | builtinCastDecimalAsDecimalSig _ => ScalarFuncSig_CastDecimalAsDecimal
  | builtinCastDecimalAsTimeSig _ => ScalarFuncSig_CastDecimalAsTime
  | builtinCastDecimalAsDurationSig _ => ScalarFuncSig_CastDecimalAsDuration
  | builtinCastDecimalAsJSONSig _ => ScalarFuncSig_CastDecimalAsJson
  | builtinCastStringAsIntSig _ => ScalarFuncSig_CastStringAsInt
  | builtinCastStringAsRealSig _ => ScalarFuncSig_CastStringAsReal
  | builtinCastStringAsStringSig _ => ScalarFuncSig_CastStringAsString
  | builtinCastStringAsDecimalSig _ => ScalarFuncSig_CastStringAsDecimal
  | builtinCastStringAsTimeSig _ => ScalarFuncSig_CastStringAsTime
  | builtinCastStringAsDurationSig _ => ScalarFuncSig_CastStringAsDuration
  | builtinCastStringAsJSONSig _ => ScalarFuncSig_CastStringAsJson
  | builtinCastTimeAsIntSig _ => ScalarFuncSig_CastTimeAsInt
  | builtinCastTimeAsRealSig _ => ScalarFuncSig_CastTimeAsReal
  | builtinCastTimeAsStringSig _ => ScalarFuncSig_CastTimeAsString
  | builtinCastTimeAsDecimalSig _ => ScalarFuncSig_CastTimeAsDecimal
  | builtinCastTimeAsTimeSig _ => ScalarFuncSig_CastTimeAsTime
  | builtinCastTimeAsDurationSig _ => ScalarFuncSig_CastTimeAsDuration
  | builtinCastTimeAsJSONSig _ => ScalarFuncSig_CastTimeAsJson
  | builtinCastDurationAsIntSig _ => ScalarFuncSig_CastDurationAsInt
  | builtinCastDurationAsRealSig _ => ScalarFuncSig_CastDurationAsReal
  | builtinCastDurationAsStringSig _ => ScalarFuncSig_CastDurationAsString
  | builtinCastDurationAsDecimalSig _ => ScalarFuncSig_CastDurationAsDecimal
  | builtinCastDurationAsTimeSig _ => ScalarFuncSig_CastDurationAsTime
  | builtinCastDurationAsDurationSig _ => ScalarFuncSig_CastDurationAsDuration
  | builtinCastDurationAsJSONSig _ => ScalarFuncSig_CastDurationAsJson
  | builtinCastJSONAsIntSig _ => ScalarFuncSig_CastJsonAsInt
  | builtinCastJSONAsRealSig _ => ScalarFuncSig_CastJsonAsReal
  | builtinCastJSONAsStringSig _ => ScalarFuncSig_CastJsonAsString
  | builtinCastJSONAsDecimalSig _ => ScalarFuncSig_CastJsonAsDecimal
  | builtinCastJSONAsTimeSig _ => ScalarFuncSig_CastJsonAsTime
  | builtinCastJSONAsDurationSig _ => ScalarFuncSig_CastJsonAsDuration
  | builtinCastJSONAsJSONSig _ => ScalarFuncSig_CastJsonAsJson
  end.

(** The [baseBuiltinFunc] embedded in a signature. *)
Definition sigBase {Row BinaryJSON : Type}
    (sig : @builtinFunc Row BinaryJSON) : @baseBuiltinFunc Row BinaryJSON :=
  match sig with
  | builtinCastIntAsIntSig bf
  | builtinCastIntAsRealSig bf
  | builtinCastIntAsStringSig bf
  | builtinCastIntAsDecimalSig bf
  | builtinCastIntAsTimeSig bf
  | builtinCastIntAsDurationSig bf
  | builtinCastIntAsJSONSig bf
  | builtinCastRealAsIntSig bf
  | builtinCastRealAsRealSig bf
  | builtinCastRealAsStringSig bf
  | builtinCastRealAsDecimalSig bf
  | builtinCastRealAsTimeSig bf
  | builtinCastRealAsDurationSig bf
  | builtinCastRealAsJSONSig bf
  | builtinCastDecimalAsIntSig bf
  | builtinCastDecimalAsRealSig bf
  | builtinCastDecimalAsStringSig bf
  | builtinCastDecimalAsDecimalSig bf
  | builtinCastDecimalAsTimeSig bf
  | builtinCastDecimalAsDurationSig bf
  | builtinCastDecimalAsJSONSig bf
  | builtinCastStringAsIntSig bf
  | builtinCastStringAsRealSig bf
  | builtinCastStringAsStringSig bf
  | builtinCastStringAsDecimalSig bf
  | builtinCastStringAsTimeSig bf
  | builtinCastStringAsDurationSig bf
  | builtinCastStringAsJSONSig bf
  | builtinCastTimeAsIntSig bf
  | builtinCastTimeAsRealSig bf
  | builtinCastTimeAsStringSig bf
  | builtinCastTimeAsDecimalSig bf
  | builtinCastTimeAsTimeSig bf
  | builtinCastTimeAsDurationSig bf
  | builtinCastTimeAsJSONSig bf
  | builtinCastDurationAsIntSig bf
  | builtinCastDurationAsRealSig bf
  | builtinCastDurationAsStringSig bf
  | builtinCastDurationAsDecimalSig bf
  | builtinCastDurationAsTimeSig bf
  | builtinCastDurationAsDurationSig bf
  | builtinCastDurationAsJSONSig bf
  | builtinCastJSONAsIntSig bf
  | builtinCastJSONAsRealSig bf
  | builtinCastJSONAsStringSig bf
  | builtinCastJSONAsDecimalSig bf
  | builtinCastJSONAsTimeSig bf
  | builtinCastJSONAsDurationSig bf
  | builtinCastJSONAsJSONSig bf => bf
  end.

(** The class a dispatcher is chosen for: [ETDatetime] and [ETTimestamp]
    share the DateTime dispatcher. *)
Definition dispatchClass (t : EvalType) : EvalType :=
  match t with
  | ETTimestamp => ETDatetime
  | _ => t
  end.

(** ** Calling a signature *)

(** The helpers of other packages a routine is run with. *)
Record Helpers {BinaryJSON : Type} : Type := {
  h_zeroJSON : BinaryJSON;
  h_float64_of_int64 : Z -> float64;
  h_float64_of_uint64 : Z -> float64;
  h_FormatFloat : float64 -> string;
  h_ConvertFloatToInt : float64 -> Z -> Z -> Z -> Z * option error;
  h_ConvertFloatToUint : float64 -> Z -> Z -> Z * option error;
  h_StrToFloat : string -> Stmt (float64 * option error);
  h_ProduceFloatWithSpecifiedTp :
    float64 -> FieldType -> Stmt (float64 * option error);
  h_MyDecimal_FromFloat64 : float64 -> MyDecimal * option error;
  h_MyDecimal_ToFloat64 : MyDecimal -> float64 * option error;
  h_MyDecimal_FromString : string -> MyDecimal * option error;
  h_ParseTime : string -> Z -> Z -> Stmt (Time * option error);
  h_ParseTimeFromNum : Z -> Z -> Z -> Stmt (Time * option error);
  h_ParseDuration : string -> Z -> Duration * option error;
  h_NumberToDuration : Z -> Z -> Duration * option error;
  h_Time_Convert : Time -> Z -> Stmt (Time * option error);
  h_Time_RoundFrac : Time -> Z -> Stmt (Time * option error);
  h_Duration_RoundFrac : Duration -> Z -> Duration * option error;
  h_Time_ToNumber : Time -> MyDecimal;
  h_Duration_ToNumber : Duration -> MyDecimal;
  h_Time_String : Time -> string;
  h_Duration_String : Duration -> string;
  h_Time_ConvertToDuration : Time -> Duration * option error;
  h_Duration_ConvertToTime : Duration -> Z -> Stmt (Time * option error);
  h_CreateBinary_bool : bool -> BinaryJSON;
  h_CreateBinary_int64 : Z -> BinaryJSON;
  h_CreateBinary_uint64 : Z -> BinaryJSON;
  h_CreateBinary_float64 : float64 -> BinaryJSON;
  h_CreateBinary_string : string -> BinaryJSON;
  h_ParseBinaryFromString : string -> BinaryJSON * option error;
  h_BinaryJSON_String : BinaryJSON -> string;
  h_BinaryJSON_Unquote : BinaryJSON -> string * option error;
  h_ConvertJSONToInt : BinaryJSON -> bool -> Stmt (Z * option error);
  h_ConvertJSONToFloat : BinaryJSON -> Stmt (float64 * option error)
}.

Arguments Helpers : clear implicits.

(** What is left of the result of an evaluation once the value is
    dropped: the null flag, the error and the statement context. *)
Definition outcome {A : Type} (m : Stmt (A * bool * option error))
  : Stmt (bool * option error) :=
  fun sc => ((snd (fst (fst (m sc))), snd (fst (m sc))), snd (m sc)).

(** [sig.evalXX(row)]: each signature overrides the one evaluation method
    of its target class, and that is the method called on it. *)
Definition builtinFunc_eval {Row BinaryJSON : Type} (h : Helpers BinaryJSON)
    (sig : @builtinFunc Row BinaryJSON) (row : Row)
  : Stmt (bool * option error) :=
  match sig with
  | builtinCastIntAsIntSig b =>
      outcome (builtinCastIntAsIntSig_evalInt b row)
  | builtinCastIntAsRealSig b =>
      outcome (builtinCastIntAsRealSig_evalReal (h_float64_of_int64 h) (h_float64_of_uint64 h) b row)
  | builtinCastIntAsStringSig b =>
      outcome (builtinCastIntAsStringSig_evalString b row)
  | builtinCastIntAsDecimalSig b =>
      outcome (builtinCastIntAsDecimalSig_evalDecimal b row)
  | builtinCastIntAsTimeSig b =>
      outcome (builtinCastIntAsTimeSig_evalTime (h_ParseTimeFromNum h) b row)
  | builtinCastIntAsDurationSig b =>
      outcome (builtinCastIntAsDurationSig_evalDuration (h_NumberToDuration h) b row)
  | builtinCastIntAsJSONSig b =>
      outcome (builtinCastIntAsJSONSig_evalJSON (h_zeroJSON h) (h_CreateBinary_bool h) (h_CreateBinary_int64 h) (h_CreateBinary_uint64 h) b row)
  | builtinCastRealAsIntSig b =>
      outcome (builtinCastRealAsIntSig_evalInt (h_ConvertFloatToInt h) (h_ConvertFloatToUint h) b row)
  | builtinCastRealAsRealSig b =>
      outcome (builtinCastRealAsRealSig_evalReal b row)
  | builtinCastRealAsStringSig b =>
      outcome (builtinCastRealAsStringSig_evalString (h_FormatFloat h) b row)
  | builtinCastRealAsDecimalSig b =>
      outcome (builtinCastRealAsDecimalSig_evalDecimal (h_MyDecimal_FromFloat64 h) b row)
  | builtinCastRealAsTimeSig b =>
      outcome (builtinCastRealAsTimeSig_evalTime (h_FormatFloat h) (h_ParseTime h) b row)
  | builtinCastRealAsDurationSig b =>
      outcome (builtinCastRealAsDurationSig_evalDuration (h_FormatFloat h) (h_ParseDuration h) b row)
  | builtinCastRealAsJSONSig b =>
      outcome (builtinCastRealAsJSONSig_evalJSON (h_zeroJSON h) (h_CreateBinary_float64 h) b row)
  | builtinCastDecimalAsIntSig b =>
      outcome (builtinCastDecimalAsIntSig_evalInt b row)
  | builtinCastDecimalAsRealSig b =>
      outcome (builtinCastDecimalAsRealSig_evalReal (h_MyDecimal_ToFloat64 h) b row)
  | builtinCastDecimalAsStringSig b =>
      outcome (builtinCastDecimalAsStringSig_evalString b row)
  | builtinCastDecimalAsDecimalSig b =>
      outcome (builtinCastDecimalAsDecimalSig_evalDecimal b row)
  | builtinCastDecimalAsTimeSig b =>
      outcome (builtinCastDecimalAsTimeSig_evalTime (h_ParseTime h) b row)
  | builtinCastDecimalAsDurationSig b =>
      outcome (builtinCastDecimalAsDurationSig_evalDuration (h_ParseDuration h) b row)
  | builtinCastDecimalAsJSONSig b =>
      outcome (builtinCastDecimalAsJSONSig_evalJSON (h_zeroJSON h) (h_MyDecimal_ToFloat64 h) (h_CreateBinary_float64 h) b row)
  | builtinCastStringAsIntSig b =>
      outcome (builtinCastStringAsIntSig_evalInt b row)
  | builtinCastStringAsRealSig b =>
      outcome (builtinCastStringAsRealSig_evalReal (h_StrToFloat h) (h_ProduceFloatWithSpecifiedTp h) b row)
  | builtinCastStringAsStringSig b =>
      outcome (builtinCastStringAsStringSig_evalString b row)
  | builtinCastStringAsDecimalSig b =>
      outcome (builtinCastStringAsDecimalSig_evalDecimal (h_MyDecimal_FromString h) b row)
  | builtinCastStringAsTimeSig b =>
      outcome (builtinCastStringAsTimeSig_evalTime (h_ParseTime h) b row)
  | builtinCastStringAsDurationSig b =>
      outcome (builtinCastStringAsDurationSig_evalDuration (h_ParseDuration h) b row)
  | builtinCastStringAsJSONSig b =>
      outcome (builtinCastStringAsJSONSig_evalJSON (h_zeroJSON h) (h_CreateBinary_string h) (h_ParseBinaryFromString h) b row)
  | builtinCastTimeAsIntSig b =>
      outcome (builtinCastTimeAsIntSig_evalInt (h_Time_RoundFrac h) (h_Time_ToNumber h) b row)
  | builtinCastTimeAsRealSig b =>
      outcome (builtinCastTimeAsRealSig_evalReal (h_MyDecimal_ToFloat64 h) (h_Time_ToNumber h) b row)
  | builtinCastTimeAsStringSig b =>
      outcome (builtinCastTimeAsStringSig_evalString (h_Time_String h) b row)
  | builtinCastTimeAsDecimalSig b =>
      outcome (builtinCastTimeAsDecimalSig_evalDecimal (h_Time_ToNumber h) b row)
  | builtinCastTimeAsTimeSig b =>
      outcome (builtinCastTimeAsTimeSig_evalTime (h_Time_Convert h) (h_Time_RoundFrac h) b row)
  | builtinCastTimeAsDurationSig b =>
      outcome (builtinCastTimeAsDurationSig_evalDuration (h_Duration_RoundFrac h) (h_Time_ConvertToDuration h) b row)
  | builtinCastTimeAsJSONSig b =>
      outcome (builtinCastTimeAsJSONSig_evalJSON (h_zeroJSON h) (h_Time_String h) (h_CreateBinary_string h) b row)
  | builtinCastDurationAsIntSig b =>
      outcome (builtinCastDurationAsIntSig_evalInt (h_Duration_RoundFrac h) (h_Duration_ToNumber h) b row)
  | builtinCastDurationAsRealSig b =>
      outcome (builtinCastDurationAsRealSig_evalReal (h_MyDecimal_ToFloat64 h) (h_Duration_ToNumber h) b row)
  | builtinCastDurationAsStringSig b =>
      outcome (builtinCastDurationAsStringSig_evalString (h_Duration_String h) b row)
  | builtinCastDurationAsDecimalSig b =>
      outcome (builtinCastDurationAsDecimalSig_evalDecimal (h_Duration_ToNumber h) b row)
  | builtinCastDurationAsTimeSig b =>
      outcome (builtinCastDurationAsTimeSig_evalTime (h_Time_RoundFrac h) (h_Duration_ConvertToTime h) b row)
  | builtinCastDurationAsDurationSig b =>
      outcome (builtinCastDurationAsDurationSig_evalDuration (h_Duration_RoundFrac h) b row)
  | builtinCastDurationAsJSONSig b =>
      outcome (builtinCastDurationAsJSONSig_evalJSON (h_zeroJSON h) (h_Duration_String h) (h_CreateBinary_string h) b row)
  | builtinCastJSONAsIntSig b =>
      outcome (builtinCastJSONAsIntSig_evalInt (h_ConvertJSONToInt h) b row)
  | builtinCastJSONAsRealSig b =>
      outcome (builtinCastJSONAsRealSig_evalReal (h_ConvertJSONToFloat h) b row)
  | builtinCastJSONAsStringSig b =>
      outcome (builtinCastJSONAsStringSig_evalString (h_BinaryJSON_String h) b row)
  | builtinCastJSONAsDecimalSig b =>
      outcome (builtinCastJSONAsDecimalSig_evalDecimal (h_MyDecimal_FromFloat64 h) (h_ConvertJSONToFloat h) b row)
  | builtinCastJSONAsTimeSig b =>
      outcome (builtinCastJSONAsTimeSig_evalTime (h_ParseTime h) (h_BinaryJSON_Unquote h) b row)
  | builtinCastJSONAsDurationSig b =>
      outcome (builtinCastJSONAsDurationSig_evalDuration (h_ParseDuration h) (h_BinaryJSON_Unquote h) b row)
  | builtinCastJSONAsJSONSig b =>
      outcome (builtinCastJSONAsJSONSig_evalJSON (h_zeroJSON h) b row)
  end.

(** [arg.EvalXX(row)] for the accessor of an evaluation class. *)
Definition Expression_eval {Row BinaryJSON : Type}
    (arg : @Expression Row BinaryJSON) (cls : EvalType) (row : Row)
  : Stmt (bool * option error) :=
  match cls with
  | ETInt => outcome (EvalInt arg row)
  | ETReal => outcome (EvalReal arg row)
  | ETDecimal => outcome (EvalDecimal arg row)
  | ETString => outcome (EvalString arg row)
  | ETDatetime | ETTimestamp => outcome (EvalTime arg row)
  | ETDuration => outcome (EvalDuration arg row)
  | ETJson => outcome (EvalJSON arg row)
  end.

(** The arguments for which a routine of a String source reads another
    accessor than [EvalString]: String-to-Int hands a hybrid argument
    or a binary literal to [EvalInt], String-to-Real and
    String-to-Decimal hand a binary literal to [EvalReal] and
    [EvalDecimal]. *)
Definition readsOtherAccessor {Row BinaryJSON : Type}
    (sig : @builtinFunc Row BinaryJSON) (arg : @Expression Row BinaryJSON)
  : bool :=
  match sig with
  | builtinCastStringAsIntSig _ => Hybrid (GetType arg) || IsBinaryLiteral arg
  | builtinCastStringAsRealSig _
  | builtinCastStringAsDecimalSig _ => IsBinaryLiteral arg
  | _ => false
  end.

(** The routine of a source class and a target class: the dispatcher
    returned the signature that reads a source of class [source] and
    evaluates to the class [target] (there is one such struct for each
    pair of classes), with the code that names it and the arguments
    [l]. *)
Definition routineOf {Row BinaryJSON : Type}
    (r : @sigResult Row BinaryJSON) (source target : EvalType)
    (l : list (@Expression Row BinaryJSON)) : Prop :=
  exists sig,
    r = inr (sig, sigCode sig) /\ sigSource sig = source
    /\ sigTarget sig = target /\ args (sigBase sig) = l.

(** A signature chosen by the dispatchers or by [BuildCastFunction]:
    of the class asked for, with the code that names it, holding the
    arguments. *)
Definition signatureOfClass {Row BinaryJSON : Type}
    (r : @sigResult Row BinaryJSON) (cls : EvalType)
    (l : list (@Expression Row BinaryJSON)) : Prop :=
  exists sig,
    r = inr (sig, sigCode sig) /\ sigTarget sig = cls /\ args (sigBase sig) = l.

(** Modelled from the spec: [json.ParseBinaryFromString], which "parses
    the string as JSON text (fails on malformed input)"; this model
    reads the literals and the integers. *)
Definition refParseJSON (s : string) : JSONValue * option error :=
  if String.eqb s "null" then (JSONNull, None)
  else if String.eqb s "true" then (JSONBool true, None)
  else if String.eqb s "false" then (JSONBool false, None)
  else
    match ParseInt s with
    | (v, None) => (JSONInt64 v, None)
    | (_, Some _) => (JSONNull, Some (GenByArgs ErrInvalidJSONText [s]))
    end.

(** The helpers of the concrete runs: the reference helpers above where
    there is one.  Floating point and the remaining temporal helpers
    are not modelled: here they fail with [ErrUnknown], and those that
    cannot fail return a zero. *)
Definition failing {A : Type} (zero : A) : A * option error :=
  (zero, Some (Gen ErrUnknown)).

Definition refHelpers : Helpers JSONValue :=
  {| h_zeroJSON := JSONNull;
     h_float64_of_int64 := fun _ => 0;
     h_float64_of_uint64 := fun _ => 0;
     h_FormatFloat := fun _ => "";
     h_ConvertFloatToInt := fun _ _ _ _ => failing 0;
     h_ConvertFloatToUint := fun _ _ _ => failing 0;
     h_StrToFloat := fun _ => ret (failing 0);
     h_ProduceFloatWithSpecifiedTp := fun _ _ => ret (failing 0);
     h_MyDecimal_FromFloat64 := fun _ => failing {| coef := 0; frac := 0 |};
     h_MyDecimal_ToFloat64 := fun _ => failing 0;
     h_MyDecimal_FromString := fun _ => failing {| coef := 0; frac := 0 |};
     h_ParseTime := fun _ _ _ => ret (failing zeroTime);
     h_ParseTimeFromNum := fun _ _ _ => ret (failing zeroTime);
     h_ParseDuration := refParseDuration;
     h_NumberToDuration := fun _ _ => failing zeroDurationValue;
     h_Time_Convert := fun _ _ => ret (failing zeroTime);
     h_Time_RoundFrac := refTimeRoundFrac;
     h_Duration_RoundFrac := fun _ _ => failing zeroDurationValue;
     h_Time_ToNumber := fun _ => {| coef := 0; frac := 0 |};
     h_Duration_ToNumber := fun _ => {| coef := 0; frac := 0 |};
     h_Time_String := fun _ => "";
     h_Duration_String := fun _ => "";
     h_Time_ConvertToDuration := fun _ => failing zeroDurationValue;
     h_Duration_ConvertToTime := refConvertToTime (2018, 1, 1);
     h_CreateBinary_bool := JSONBool;
     h_CreateBinary_int64 := JSONInt64;
     h_CreateBinary_uint64 := JSONUint64;
     h_CreateBinary_float64 := fun _ => JSONNull;
     h_CreateBinary_string := JSONString;
     h_ParseBinaryFromString := refParseJSON;
     h_BinaryJSON_String := JSONValue_String;
     h_BinaryJSON_Unquote := JSONValue_Unquote;
     h_ConvertJSONToInt := fun _ _ => ret (failing 0);
     h_ConvertJSONToFloat := fun _ => ret (failing 0) |}.

(** ** Building a cast and the wrappers *)

(** Display widths ([mysql.MaxRealWidth] and the like), with the values
    of the MySQL server. *)
Definition MaxRealWidth : Z := 23.
Definition MaxDateWidth : Z := 10.
Definition MaxDatetimeWidthNoFsp : Z := 19.
Definition MaxDurationWidthNoFsp : Z := 10.

(** Modelled from the spec: [types.NewFieldType], the "default
    TargetTypeSpec" of a type tag: no flag, length and scale
    unspecified. *)
Definition NewFieldType (tp : Z) : FieldType :=
  {| Tp := tp; Flag := 0; Flen := UnspecifiedLength;
     Decimal := UnspecifiedLength; Charset := ""; Collate := "" |}.

(** Modelled from the spec: [types.SetBinChsClnFlag], the binary
    charset, collation and flag. *)
Definition SetBinChsClnFlag (ft : FieldType) : FieldType :=
  {| Tp := Tp ft; Flag := Z.lor (Flag ft) BinaryFlag; Flen := Flen ft;
     Decimal := Decimal ft; Charset := CharsetBin; Collate := CollationBin |}.

(** [tp.Flen, tp.Decimal = flen, decimal]. *)
Definition setFlenDecimal (ft : FieldType) (flen decimal : Z) : FieldType :=
  {| Tp := Tp ft; Flag := Flag ft; Flen := flen; Decimal := decimal;
     Charset := Charset ft; Collate := Collate ft |}.

(** [tp.Charset, tp.Collate = chs, cln]. *)
Definition setCharset (ft : FieldType) (chs cln : string) : FieldType :=
  {| Tp := Tp ft; Flag := Flag ft; Flen := Flen ft; Decimal := Decimal ft;
     Charset := chs; Collate := cln |}.

Section Wrappers.

Context {Row BinaryJSON : Type}.

(** The scalar function node
    [&ScalarFunction{FuncName: cast, RetType: tp, Function: f}] and
    [FoldConstant] belong to other files of the package and are taken as
    they come. *)
Variable ScalarFunction :
  FieldType -> @sigResult Row BinaryJSON -> @Expression Row BinaryJSON.
Variable FoldConstant : @Expression Row BinaryJSON -> @Expression Row BinaryJSON.

(** [RetType: tp]: the type of the scalar function is the very
    [*FieldType] the function class holds and the signature carries
    ([bf.tp = c.tp]), so a flag the dispatcher has set on the type of
    the signature (the parse-to-JSON flag of a String source cast to
    JSON) is set on it as well. *)
Definition BuildCastFunction_RetType (f : @sigResult Row BinaryJSON)
    (target : FieldType) : FieldType :=
  match f with
  | inr (sig, _) => tp (sigBase sig)
  | inl _ => target
  end.

(** [BuildCastFunction]: the signature is asked of the function class of
    the target, wrapped into a scalar function, and that is folded
    unless the target is JSON. *)
Definition BuildCastFunction (expr : @Expression Row BinaryJSON)
    (tp : FieldType) : @Expression Row BinaryJSON :=
  let f := BuildCastFunction_getFunction expr tp in
  let res := ScalarFunction (BuildCastFunction_RetType f tp) f in
  match FieldType_EvalType tp with
  | ETJson => res
  | _ => FoldConstant res
  end.

Definition WrapWithCastAsInt (expr : @Expression Row BinaryJSON)
  : @Expression Row BinaryJSON :=
  match FieldType_EvalType (GetType expr) with
  | ETInt => expr
  | _ =>
      let tp := NewFieldType TypeLonglong in
      let tp := setFlenDecimal tp (Flen (GetType expr)) 0 in
      BuildCastFunction expr (SetBinChsClnFlag tp)
  end.

Definition WrapWithCastAsReal (expr : @Expression Row BinaryJSON)
  : @Expression Row BinaryJSON :=
  match FieldType_EvalType (GetType expr) with
  | ETReal => expr
  | _ =>
      let tp := NewFieldType TypeDouble in
      let tp := setFlenDecimal tp MaxRealWidth UnspecifiedLength in
      BuildCastFunction expr (SetBinChsClnFlag tp)
  end.

Definition WrapWithCastAsDecimal (expr : @Expression Row BinaryJSON)
  : @Expression Row BinaryJSON :=
  match FieldType_EvalType (GetType expr) with
  | ETDecimal => expr
  | _ =>
      let tp := NewFieldType TypeNewDecimal in
      let tp := setFlenDecimal tp (Flen (GetType expr)) UnspecifiedLength in
      BuildCastFunction expr (SetBinChsClnFlag tp)
  end.

Definition WrapWithCastAsString (expr : @Expression Row BinaryJSON)
  : @Expression Row BinaryJSON :=
  match FieldType_EvalType (GetType expr) with
  | ETString => expr
  | _ =>
      let tp := NewFieldType TypeVarString in
      let tp := setCharset tp CharsetUTF8 CollationUTF8 in
      let tp := setFlenDecimal tp (Flen (GetType expr)) UnspecifiedLength in
      BuildCastFunction expr tp
  end.

(** The type [WrapWithCastAsTime] casts to: the precision of a temporal
    source, the widest one otherwise, and the width of the text of such
    a value.  (In the source the fields are set on the [tp] handed in.) *)
Definition WrapWithCastAsTime_tp (x tp : FieldType) : FieldType :=
  let decimal :=
    if (Tp x =? TypeDatetime) || (Tp x =? TypeTimestamp) || (Tp x =? TypeDate)
       || (Tp x =? TypeDuration)
    then Decimal x else MaxFsp in
  let flen :=
    if Tp tp =? TypeDate then MaxDateWidth
    else if (Tp tp =? TypeDatetime) || (Tp tp =? TypeTimestamp) then
      if 0 <? decimal then MaxDatetimeWidthNoFsp + 1 + decimal
      else MaxDatetimeWidthNoFsp
    else Flen tp in
  SetBinChsClnFlag (setFlenDecimal tp flen decimal).

Definition WrapWithCastAsTime (expr : @Expression Row BinaryJSON)
    (tp : FieldType) : @Expression Row BinaryJSON :=
  let exprTp := Tp (GetType expr) in
  if Tp tp =? exprTp then expr
  else if ((exprTp =? TypeDate) || (exprTp =? TypeTimestamp))
          && (Tp tp =? TypeDatetime) then expr
  else BuildCastFunction expr (WrapWithCastAsTime_tp (GetType expr) tp).

(** The type [WrapWithCastAsDuration] casts to. *)
Definition WrapWithCastAsDuration_tp (x : FieldType) : FieldType :=
  let tp := NewFieldType TypeDuration in
  let decimal :=
    if (Tp x =? TypeDatetime) || (Tp x =? TypeTimestamp) || (Tp x =? TypeDate)
    then Decimal x else MaxFsp in
  let flen :=
    if 0 <? decimal then MaxDurationWidthNoFsp + 1 + decimal
    else MaxDurationWidthNoFsp in
  setFlenDecimal tp flen decimal.

Definition WrapWithCastAsDuration (expr : @Expression Row BinaryJSON)
  : @Expression Row BinaryJSON :=
  if Tp (GetType expr) =? TypeDuration then expr
  else BuildCastFunction expr (WrapWithCastAsDuration_tp (GetType expr)).

Definition WrapWithCastAsJSON (expr : @Expression Row BinaryJSON)
  : @Expression Row BinaryJSON :=
  if (Tp (GetType expr) =? TypeJSON)
     && negb (HasParseToJSONFlag (Flag (GetType expr))) then expr
  else
    BuildCastFunction expr
      {| Tp := TypeJSON; Flag := BinaryFlag; Flen := 12582912; Decimal := 0;
         Charset := CharsetUTF8; Collate := CollationUTF8 |}.

End Wrappers.

(** * Properties *)

Arguments HandleTruncate : simpl never.
Arguments HandleOverflow : simpl never.
Arguments getValidIntPrefix : simpl never.
Arguments StrToInt : simpl never.
Arguments StrToUint : simpl never.
Arguments ProduceStrWithSpecifiedTp : simpl never.
Arguments ProduceDecWithSpecifiedTp : simpl never.

Ltac run :=
  unfold bind, ret, getStmtCtx, onArg0, onDec, value, neverCalled in *;
  simpl in *.

(** The innermost scrutinee of nested case analyses. *)
Ltac scrut x :=
  lazymatch x with
  | match ?y with _ => _ end => scrut y
  | ?g ?a =>
      lazymatch g with
      | match ?y with _ => _ end => scrut y
      | _ => constr:(x)
      end
  | _ => constr:(x)
  end.

Ltac step :=
  match goal with
  | |- context [match ?x with _ => _ end] =>
      let y := scrut x in destruct y eqn:?; simpl in *
  end.

Ltac finish :=
  simpl; repeat rewrite orb_true_r; try reflexivity;
  try match goal with
      | H : ?c = true |- context [?c] => rewrite H; reflexivity
      end.

Section DispatchProperties.

Context {Row BinaryJSON : Type}.

Local Abbreviation Expr := (@Expression Row BinaryJSON).

(** C7.  The dispatchers classify the source as the special-casing table
    says.  Integer target: a hybrid or binary-literal source selects
    Int-to-Int.  Real and Decimal targets: a binary literal selects the
    routine of the target's own class, a hybrid source that is no binary
    literal selects the Int-to-target routine.  String target: a hybrid
    or binary-literal source selects String-to-String.  DateTime,
    Duration and Json targets: whatever else the source is, hybrid or a
    binary literal included, the routine selected is the one that reads
    a source of its declared evaluation class (a TIMESTAMP source takes
    the DateTime routines) and evaluates to the target's class; so two
    sources of the same declared class get the same routine. *)
Theorem dispatch_special_casing (arg : Expr) (tp : FieldType) :
  let bf := newBaseBuiltinFunc [arg] tp in
  let declared := dispatchClass (FieldType_EvalType (GetType arg)) in
  (Hybrid (GetType arg) || IsBinaryLiteral arg = true ->
   castAsIntFunctionClass_getFunction (castClass tp) [arg]
   = inr (builtinCastIntAsIntSig bf, ScalarFuncSig_CastIntAsInt))
  /\ (IsBinaryLiteral arg = true ->
      castAsRealFunctionClass_getFunction (castClass tp) [arg]
      = inr (builtinCastRealAsRealSig bf, ScalarFuncSig_CastRealAsReal)
      /\ castAsDecimalFunctionClass_getFunction (castClass tp) [arg]
         = inr (builtinCastDecimalAsDecimalSig bf,
                ScalarFuncSig_CastDecimalAsDecimal))
  /\ (IsBinaryLiteral arg = false -> Hybrid (GetType arg) = true ->
      castAsRealFunctionClass_getFunction (castClass tp) [arg]
      = inr (builtinCastIntAsRealSig bf, ScalarFuncSig_CastIntAsReal)
      /\ castAsDecimalFunctionClass_getFunction (castClass tp) [arg]
         = inr (builtinCastIntAsDecimalSig bf, ScalarFuncSig_CastIntAsDecimal))
  /\ (Hybrid (GetType arg) || IsBinaryLiteral arg = true ->
      castAsStringFunctionClass_getFunction (castClass tp) [arg]
      = inr (builtinCastStringAsStringSig bf, ScalarFuncSig_CastStringAsString))
  /\ (routineOf (castAsTimeFunctionClass_getFunction (castClass tp) [arg])
        declared ETDatetime [arg]
      /\ routineOf (castAsDurationFunctionClass_getFunction (castClass tp) [arg])
           declared ETDuration [arg]
      /\ routineOf (castAsJSONFunctionClass_getFunction (castClass tp) [arg])
           declared ETJson [arg])
  /\ (forall arg' : Expr,
        FieldType_EvalType (GetType arg') = FieldType_EvalType (GetType arg) ->
        pbCodeOf (castAsTimeFunctionClass_getFunction (castClass tp) [arg'])
        = pbCodeOf (castAsTimeFunctionClass_getFunction (castClass tp) [arg])
        /\ pbCodeOf (castAsDurationFunctionClass_getFunction (castClass tp) [arg'])
           = pbCodeOf (castAsDurationFunctionClass_getFunction (castClass tp) [arg])
        /\ pbCodeOf (castAsJSONFunctionClass_getFunction (castClass tp) [arg'])
           = pbCodeOf (castAsJSONFunctionClass_getFunction (castClass tp) [arg])).
Proof.
  intros bf declared; subst bf declared.
  unfold castAsIntFunctionClass_getFunction, castAsRealFunctionClass_getFunction,
    castAsDecimalFunctionClass_getFunction, castAsStringFunctionClass_getFunction,
    castAsTimeFunctionClass_getFunction, castAsDurationFunctionClass_getFunction,
    castAsJSONFunctionClass_getFunction, getFunctionWith, verifyArgs, castClass,
    routineOf.
  cbn [base ctp minArgs maxArgs funcName List.length Z.of_nat].
  split; [| split; [| split; [| split; [| split]]]].
  - intros H. cbn. rewrite H. reflexivity.
  - intros H. split; cbn; rewrite H; reflexivity.
  - intros H H0. split; cbn; rewrite H, H0; reflexivity.
  - intros H. cbn. rewrite H. reflexivity.
  - cbn. split; [| split];
      destruct (FieldType_EvalType (GetType arg));
      (match goal with
       | |- exists sig, inr (?s, _) = _ /\ _ =>
           exists s; repeat split; reflexivity
       end).
  - intros arg' H. cbn. rewrite H.
    split; [| split];
      destruct (FieldType_EvalType (GetType arg)); reflexivity.
Qed.

End DispatchProperties.

Lemma dispatch_special_casing_witness :
  castAsIntFunctionClass_getFunction (castClass bigintType) [enumColumn]
  = inr (builtinCastIntAsIntSig (newBaseBuiltinFunc [enumColumn] bigintType),
         ScalarFuncSig_CastIntAsInt)
  /\ castAsDecimalFunctionClass_getFunction (castClass (decimalType 10 2))
       [binaryLiteral]
     = inr (builtinCastDecimalAsDecimalSig
              (newBaseBuiltinFunc [binaryLiteral] (decimalType 10 2)),
            ScalarFuncSig_CastDecimalAsDecimal)
  /\ castAsRealFunctionClass_getFunction (castClass bigintType) [enumColumn]
     = inr (builtinCastIntAsRealSig (newBaseBuiltinFunc [enumColumn] bigintType),
            ScalarFuncSig_CastIntAsReal)
  /\ castAsStringFunctionClass_getFunction (castClass (varcharType 5))
       [binaryLiteral]
     = inr (builtinCastStringAsStringSig
              (newBaseBuiltinFunc [binaryLiteral] (varcharType 5)),
            ScalarFuncSig_CastStringAsString)
  /\ routineOf (castAsTimeFunctionClass_getFunction (castClass dateType)
                  [enumColumn])
       ETString ETDatetime [enumColumn]
  /\ pbCodeOf (castAsTimeFunctionClass_getFunction (castClass dateType)
                 [binaryLiteral])
     = pbCodeOf (castAsTimeFunctionClass_getFunction (castClass dateType)
                   [enumColumn]).
Proof.
  split; [| split; [| split; [| split; [| split]]]].
  - apply (proj1 (dispatch_special_casing enumColumn bigintType)).
    reflexivity.
  - apply (proj1 (proj2 (dispatch_special_casing binaryLiteral (decimalType 10 2)))).
    reflexivity.
  - apply (proj1 (proj2 (proj2 (dispatch_special_casing enumColumn bigintType))));
      reflexivity.
  - apply (proj1 (proj2 (proj2 (proj2
             (dispatch_special_casing binaryLiteral (varcharType 5)))))).
    reflexivity.
  - apply (proj1 (proj1 (proj2 (proj2 (proj2 (proj2
             (dispatch_special_casing enumColumn dateType))))))).
  - apply (proj2 (proj2 (proj2 (proj2 (proj2
             (dispatch_special_casing enumColumn dateType)))))).
    reflexivity.
Defined.

(** ** The diagnostics sink *)

Lemma HandleTruncate_warn (e : error) (sc : StatementContext) :
  TruncateAsWarning sc = true ->
  HandleTruncate (Some e) sc = (None, snd (AppendWarning e sc)).
Proof.
  intros H. unfold HandleTruncate. run.
  destruct sc; simpl in *; subst; reflexivity.
Qed.

Lemma HandleTruncate_fatal (e : error) (sc : StatementContext) :
  TruncateAsWarning sc = false ->
  HandleTruncate (Some e) sc = (Some e, sc).
Proof.
  intros H. unfold HandleTruncate. run.
  destruct sc; simpl in *; subst; reflexivity.
Qed.

Lemma HandleOverflow_warn (e w : error) (sc : StatementContext) :
  OverflowAsWarning sc = true ->
  HandleOverflow (Some e) (Some w) sc = (None, snd (AppendWarning w sc)).
Proof.
  intros H. unfold HandleOverflow. run.
  destruct sc; simpl in *; subst; reflexivity.
Qed.

Lemma HandleOverflow_fatal (e : error) (w : option error) (sc : StatementContext) :
  OverflowAsWarning sc = false ->
  HandleOverflow (Some e) w sc = (Some e, sc).
Proof.
  intros H. unfold HandleOverflow. run.
  destruct sc; simpl in *; subst; reflexivity.
Qed.

Lemma asciiCode_eqb (c : ascii) (n : nat) :
  (n < 256)%nat -> (asciiCode c =? Z.of_nat n) = true -> c = ascii_of_nat n.
Proof.
  intros Hn H. apply Z.eqb_eq in H. unfold asciiCode in H.
  apply Nat2Z.inj in H. rewrite <- H. symmetry. apply ascii_nat_embedding.
Qed.

(** ** String to Integer *)

Section StringAsIntProperties.

Context {Row BinaryJSON : Type}.
Variable zeroJSON : BinaryJSON.
Variable row : Row.

Local Abbreviation Expr := (@Expression Row BinaryJSON).

Local Abbreviation castStr := (castStringToInt zeroJSON row).

(** C3.  A String-to-Integer parse that reports an overflow is clamped
    to the endpoint of the range ([MinInt64] for a negative text,
    [MaxUint64] for the others) with a warning exactly in a lenient
    context, the context of a SELECT statement; in a strict context the
    overflow error comes back and is fatal.  Casting
    "18446744073709551616" to an unsigned target gives [MaxUint64] and a
    warning in a lenient context, the overflow error in a strict one. *)
Theorem string_to_int_overflow (b : @baseBuiltinFunc Row BinaryJSON)
    (origRes : Z) (origStr : string) (e : error) (isNegative : bool)
    (sc : StatementContext) :
  errCode e = ErrOverflow ->
  let r := builtinCastStringAsIntSig_handleOverflow b origRes origStr (Some e)
             isNegative sc in
  let endpoint := if isNegative then MinInt64 else int64 MaxUint64 in
  let warn := GenByArgs ErrTruncatedWrongVal ["INTEGER"; origStr] in
  let big := "18446744073709551616" in
  ((fst (fst r) = endpoint /\ snd (fst r) = None
    /\ warnings (snd r) = (warnings sc ++ [warn])%list)
   <-> lenient sc = true)
  /\ (lenient sc = false -> snd (fst r) = Some e /\ warnings (snd r) = warnings sc)
  /\ uint64 (int64 MaxUint64) = MaxUint64
  /\ (lenient sc = true ->
      castStr big unsignedBigintType sc
      = ((int64 MaxUint64, false, None),
         snd (AppendWarning (GenByArgs ErrTruncatedWrongVal ["INTEGER"; big]) sc)))
  /\ (lenient sc = false ->
      snd (fst (castStr big unsignedBigintType sc))
      = Some (GenByArgs ErrOverflow ["BIGINT UNSIGNED"; big])
      /\ warnings (snd (castStr big unsignedBigintType sc)) = warnings sc).
Proof.
  intros He r endpoint warn big.
  assert (Heq : Equal ErrOverflow (Some e) = true)
    by (unfold Equal; rewrite He; reflexivity).
  assert (Hr : r = if lenient sc
                   then ((endpoint, None), snd (AppendWarning warn sc))
                   else ((if InSelectStmt sc then endpoint else origRes, Some e), sc)).
  { subst r. unfold builtinCastStringAsIntSig_handleOverflow, lenient. run.
    rewrite Heq. unfold HandleOverflow. run.
    destruct sc as [[] [] ? ?]; reflexivity. }
  repeat split.
  - intros (_ & Herr & _). rewrite Hr in Herr.
    destruct (lenient sc); [reflexivity | discriminate].
  - rewrite Hr, H. reflexivity.
  - rewrite Hr, H. reflexivity.
  - rewrite Hr, H. reflexivity.
  - rewrite Hr, H. reflexivity.
  - rewrite Hr, H. reflexivity.
  - intros H. unfold lenient in H. apply andb_true_iff in H. destruct H as [H1 H2].
    unfold castStringToInt, builtinCastStringAsIntSig_evalInt,
      builtinCastStringAsIntSig_handleOverflow. run.
    destruct sc; simpl in *; subst; reflexivity.
  - unfold castStr, builtinCastStringAsIntSig_evalInt,
      builtinCastStringAsIntSig_handleOverflow. run.
    unfold lenient in H. destruct sc as [[] ? ? ?]; simpl in *; subst; reflexivity.
  - unfold castStr, builtinCastStringAsIntSig_evalInt,
      builtinCastStringAsIntSig_handleOverflow. run.
    unfold lenient in H. destruct sc as [[] ? ? ?]; simpl in *; subst; reflexivity.
Qed.

Lemma negative_string_ignores_target (s : string) (tp1 tp2 : FieldType)
    (sc : StatementContext) :
  isNegativeStr (TrimSpace s) = true ->
  castStr s tp1 sc = castStr s tp2 sc.
Proof.
  intros H. unfold castStringToInt, builtinCastStringAsIntSig_evalInt,
    builtinCastStringAsIntSig_handleOverflow. run.
  rewrite H. reflexivity.
Qed.

(** C6.  The code at the input where it departs from the rule "a
    negative-cast warning is appended exactly when the target is
    unsigned": casting "-1" to a signed target appends the warning
    [ErrCastNegIntAsUnsigned] just as casting it to an unsigned target
    does.  For the unsigned target the 64 bits of the result read as
    unsigned are 18446744073709551615, and the warning is there. *)
Theorem negative_string_warns_for_signed_target (sc : StatementContext) :
  HasUnsignedFlag (Flag bigintType) = false
  /\ castStr "-1" bigintType sc
     = ((-1, false, None), snd (AppendWarning (Gen ErrCastNegIntAsUnsigned) sc))
  /\ HasUnsignedFlag (Flag unsignedBigintType) = true
  /\ castStr "-1" unsignedBigintType sc
     = ((-1, false, None), snd (AppendWarning (Gen ErrCastNegIntAsUnsigned) sc))
  /\ uint64 (-1) = 18446744073709551615.
Proof.
  repeat split.
Qed.

Lemma isNegativeStr_spec (val : string) :
  isNegativeStr val = true <-> exists c r, val = String "-" (String c r).
Proof.
  split.
  - destruct val as [| a [| c r]]; unfold isNegativeStr, len; simpl; try discriminate.
    intros H. assert (Ha : a = "-"%char).
    { apply (asciiCode_eqb a 45); [lia |].
      destruct (asciiCode a =? 45) eqn:E; [exact E |].
      rewrite andb_false_r in H. discriminate. }
    subst a. eauto.
  - intros (c & r & ->). unfold isNegativeStr, len. simpl String.length.
    rewrite andb_true_iff. split; [apply Z.ltb_lt; lia | reflexivity].
Qed.

(** C10.  Only a trimmed string of at least two bytes that starts with
    '-' is taken as negative.  The one-byte string "-" goes down the
    unsigned path: the result is that of the unsigned parse (zero, with
    the truncation handed to the sink) and no negative-cast warning is
    appended. *)
Theorem lone_minus_takes_unsigned_path (tp : FieldType) (sc : StatementContext) :
  (forall val : string,
      isNegativeStr val = true <-> exists c r, val = String "-" (String c r))
  /\ isNegativeStr (TrimSpace "-") = false
  /\ castStr "-" tp sc
     = (let '(res, sc') := (StrToUint "-") sc in
        ((int64 (fst res), false, snd res), sc'))
  /\ castStr "-" tp sc
     = (let '(err, sc') := HandleTruncate (Some (Gen ErrTruncated)) sc in
        ((0, false, err), sc'))
  /\ (forall w : error,
        In w (warnings (snd (castStr "-" tp sc))) ->
        In w (warnings sc) \/ errCode w <> ErrCastNegIntAsUnsigned).
Proof.
  assert (Hrun : castStr "-" tp sc
     = (let '(err, sc') := HandleTruncate (Some (Gen ErrTruncated)) sc in
        ((0, false, err), sc'))).
  { unfold castStringToInt, builtinCastStringAsIntSig_evalInt,
      builtinCastStringAsIntSig_handleOverflow. run.
    destruct (HasUnsignedFlag (Flag tp)); destruct sc as [[] ? [] ?];
      reflexivity. }
  split; [exact isNegativeStr_spec |].
  split; [reflexivity |].
  split.
  - rewrite Hrun. destruct sc as [? ? [] ?]; reflexivity.
  - split; [exact Hrun |].
    intros w. rewrite Hrun. destruct sc as [? ? [] ws]; simpl.
    + rewrite in_app_iff. simpl. intros [H | [H | []]]; [left; exact H |].
      right. subst w. discriminate.
    + intros H. left. exact H.
Qed.

Lemma getValidIntPrefix_warnings (str : string) (sc : StatementContext) :
  exists ws,
    warnings (snd (getValidIntPrefix str sc)) = (warnings sc ++ ws)%list
    /\ Forall (fun w => errCode w <> ErrCastNegIntAsUnsigned) ws.
Proof.
  assert (Hnone : exists ws, warnings sc = (warnings sc ++ ws)%list
      /\ Forall (fun w => errCode w <> ErrCastNegIntAsUnsigned) ws)
    by (exists []; rewrite app_nil_r; split; [reflexivity | constructor]).
  assert (Htrunc : exists ws,
      warnings (snd (HandleTruncate (Some (Gen ErrTruncated)) sc))
      = (warnings sc ++ ws)%list
      /\ Forall (fun w => errCode w <> ErrCastNegIntAsUnsigned) ws).
  { unfold HandleTruncate. run. destruct (TruncateAsWarning sc); simpl.
    - exists [Gen ErrTruncated]. split; [reflexivity |].
      constructor; [discriminate | constructor].
    - exact Hnone. }
  unfold getValidIntPrefix. run.
  destruct (list_ascii_of_string str) as [| c r].
  - simpl. destruct (HandleTruncate (Some (Gen ErrTruncated)) sc). exact Htrunc.
  - destruct ((asciiCode c =? 45) || (asciiCode c =? 43)).
    + destruct (takeDigits r).
      * destruct (HandleTruncate (Some (Gen ErrTruncated)) sc). exact Htrunc.
      * destruct (_ =? _); [exact Hnone |].
        destruct (HandleTruncate (Some (Gen ErrTruncated)) sc). exact Htrunc.
    + destruct (takeDigits (c :: r)).
      * destruct (HandleTruncate (Some (Gen ErrTruncated)) sc). exact Htrunc.
      * destruct (_ =? _); [exact Hnone |].
        destruct (HandleTruncate (Some (Gen ErrTruncated)) sc). exact Htrunc.
Qed.

Lemma StrToUint_warnings (str : string) (sc : StatementContext) :
  exists ws,
    warnings (snd (StrToUint str sc)) = (warnings sc ++ ws)%list
    /\ Forall (fun w => errCode w <> ErrCastNegIntAsUnsigned) ws.
Proof.
  unfold StrToUint. run.
  pose proof (getValidIntPrefix_warnings (TrimSpace str) sc) as H.
  destruct (getValidIntPrefix (TrimSpace str) sc) as [[vp err] sc1].
  destruct (ParseUint _) as [u [e |]]; exact H.
Qed.

(** Whatever the string, the path taken when it is not detected as
    negative appends no negative-cast warning. *)
Lemma nonnegative_path_never_warns_negative (s : string) (tp : FieldType)
    (sc : StatementContext) (w : error) :
  isNegativeStr (TrimSpace s) = false ->
  In w (warnings (snd (castStr s tp sc))) ->
  In w (warnings sc) \/ errCode w <> ErrCastNegIntAsUnsigned.
Proof.
  intros H. unfold castStringToInt, builtinCastStringAsIntSig_evalInt,
    builtinCastStringAsIntSig_handleOverflow. run. rewrite H.
  destruct (StrToUint_warnings (TrimSpace s) sc) as (ws & Hws & Hall).
  destruct (StrToUint (TrimSpace s) sc) as [[u err] sc1]. simpl in Hws.
  assert (Hgoal : forall ws', Forall (fun w => errCode w <> ErrCastNegIntAsUnsigned) ws' ->
            In w (warnings sc ++ ws')%list ->
            In w (warnings sc) \/ errCode w <> ErrCastNegIntAsUnsigned).
  { intros ws' Hf Hin. apply in_app_or in Hin. destruct Hin as [Hin | Hin];
      [left; exact Hin | right]. rewrite Forall_forall in Hf. exact (Hf _ Hin). }
  destruct sc1 as [sel ovf tr ws1]. simpl in Hws. subst ws1.
  unfold HandleOverflow, AppendWarning. run.
  destruct err as [[code eargs] |]; simpl;
    [destruct sel, ovf, code
    | destruct (negb (HasUnsignedFlag (Flag tp)) && (MaxInt64 <? u))];
    simpl;
    first [ apply Hgoal; exact Hall
          | rewrite <- app_assoc; apply Hgoal; apply Forall_app;
            split; [exact Hall | constructor; [discriminate | constructor]] ].
Qed.

Lemma ProduceStr_unchanged (s : string) (tp : FieldType) (sc : StatementContext) :
  displayLengthChanges tp s = false ->
  ProduceStrWithSpecifiedTp s tp sc = ((s, None), sc).
Proof.
  unfold displayLengthChanges, ProduceStrWithSpecifiedTp. intros H.
  destruct (0 <=? Flen tp); [| reflexivity].
  simpl in H. apply orb_false_iff in H. destruct H as [H1 H2]. rewrite H1.
  destruct (String.eqb (Charset tp) CharsetUTF8 || String.eqb (Charset tp) CharsetUTF8MB4);
    [reflexivity |].
  simpl in H2. rewrite H2. reflexivity.
Qed.

(** C8, as amended.  The integer 123 cast to a String target whose
    display length leaves the text "123" as it is (neither cut nor
    padded), and that string cast to an Integer target, is 123 again:
    not null, no error, and no diagnostic on the way. *)
Theorem int_string_int_roundtrip (ift tp itp : FieldType) (sc : StatementContext) :
  Hybrid tp = false ->
  displayLengthChanges tp "123" = false ->
  castIntToString zeroJSON ift tp 123 row sc = (("123", false, None), sc)
  /\ castIntToStringToInt zeroJSON ift tp itp 123 row sc = ((123, false, None), sc).
Proof.
  intros Hhyb Hlen.
  assert (H1 : castIntToString zeroJSON ift tp 123 row sc = (("123", false, None), sc)).
  { unfold castIntToString, builtinCastIntAsStringSig_evalString. run.
    destruct (HasUnsignedFlag (Flag ift)); simpl.
    - change (FormatUint (uint64 123)) with "123".
      rewrite (ProduceStr_unchanged _ _ _ Hlen). reflexivity.
    - change (FormatInt 123) with "123".
      rewrite (ProduceStr_unchanged _ _ _ Hlen). reflexivity. }
  split; [exact H1 |].
  unfold castIntToStringToInt, builtinCastStringAsIntSig_evalInt,
    builtinCastStringAsIntSig_handleOverflow. run.
  rewrite Hhyb. simpl. rewrite H1.
  change (TrimSpace "123") with "123".
  change (isNegativeStr "123") with false. cbv iota.
  change (StrToUint "123" sc) with ((123, @None error), sc).
  destruct (HasUnsignedFlag (Flag itp)); reflexivity.
Qed.

End StringAsIntProperties.

Lemma string_to_int_overflow_witness :
  castStringToInt JSONNull tt "18446744073709551616" unsignedBigintType selectCtx
  = ((int64 MaxUint64, false, None),
     snd (AppendWarning
            (GenByArgs ErrTruncatedWrongVal ["INTEGER"; "18446744073709551616"])
            selectCtx))
  /\ snd (fst (castStringToInt JSONNull tt "18446744073709551616"
                 unsignedBigintType strictCtx))
     = Some (GenByArgs ErrOverflow ["BIGINT UNSIGNED"; "18446744073709551616"]).
Proof.
  pose (e := GenByArgs ErrOverflow ["BIGINT UNSIGNED"; "18446744073709551616"]).
  split.
  - apply (proj1 (proj2 (proj2 (proj2
      (string_to_int_overflow (Row := unit) JSONNull tt
         (newBaseBuiltinFunc [] unsignedBigintType) MaxUint64
         "18446744073709551616" e false selectCtx eq_refl))))).
    reflexivity.
  - apply (proj2 (proj2 (proj2 (proj2
      (string_to_int_overflow (Row := unit) JSONNull tt
         (newBaseBuiltinFunc [] unsignedBigintType) MaxUint64
         "18446744073709551616" e false strictCtx eq_refl))))).
    reflexivity.
Defined.

Lemma int_string_int_roundtrip_witness :
  castIntToString (Row := unit) JSONNull bigintType (varcharType 20) 123 tt selectCtx
  = (("123", false, None), selectCtx)
  /\ castIntToStringToInt (Row := unit) JSONNull bigintType (varcharType 20)
       bigintType 123 tt selectCtx
     = ((123, false, None), selectCtx).
Proof.
  apply (int_string_int_roundtrip (Row := unit) JSONNull tt bigintType
           (varcharType 20) bigintType selectCtx); reflexivity.
Defined.

(** C8, as stated, fails: BINARY(5) does not truncate the text "123", it
    pads it with two zero bytes to the declared length.  The padded
    string cast to an Integer target is 123 together with the truncation
    error in a strict context; in the context of a SELECT statement it
    is 123 without error, the truncation recorded as a warning. *)
Lemma int_string_int_roundtrip_fails_when_padded :
  (Flen (binaryType 5) <? len "123") = false
  /\ castIntToString (Row := unit) JSONNull bigintType (binaryType 5) 123 tt
       strictCtx
     = (("123" ++ padding 2, false, None), strictCtx)
  /\ castIntToStringToInt (Row := unit) JSONNull bigintType (binaryType 5)
       bigintType 123 tt strictCtx
     = ((123, false, Some (Gen ErrTruncated)), strictCtx)
  /\ castIntToStringToInt (Row := unit) JSONNull bigintType (binaryType 5)
       bigintType 123 tt selectCtx
     = ((123, false, None), snd (AppendWarning (Gen ErrTruncated) selectCtx)).
Proof. repeat split. Qed.

(** ** Decimal sources *)

Lemma roundQuot_half_even (c p : Z) :
  0 < p ->
  let q := roundQuot ModeHalfEven c p in
  2 * Z.abs (q * p - c) <= p
  /\ (2 * Z.abs (q * p - c) = p -> Z.even q = true).
Proof.
  intros Hp. unfold roundQuot.
  pose proof (Z.div_mod (Z.abs c) p ltac:(lia)) as Hdm.
  pose proof (Z.mod_pos_bound (Z.abs c) p Hp) as Hr.
  set (q0 := Z.abs c / p) in *. set (r := Z.abs c mod p) in *.
  clearbody q0 r.
  assert (Hev : Z.even q0 = false -> Z.even (q0 + 1) = true).
  { intros H. rewrite Z.add_1_r, Z.even_succ, <- Z.negb_even, H. reflexivity. }
  destruct (c <? 0) eqn:Hc; [apply Z.ltb_lt in Hc | apply Z.ltb_ge in Hc];
    destruct (p <? 2 * r) eqn:H1; [apply Z.ltb_lt in H1 | apply Z.ltb_ge in H1
                                 | apply Z.ltb_lt in H1 | apply Z.ltb_ge in H1];
    try (destruct (2 * r =? p) eqn:H2; [apply Z.eqb_eq in H2 | apply Z.eqb_neq in H2];
         try destruct (Z.even q0) eqn:H3);
    cbv zeta; try rewrite Z.even_opp;
    (split; [lia | intros Ht; first [assumption | apply Hev; reflexivity | lia]]).
Qed.

Section DecimalProperties.

Context {Row BinaryJSON : Type}.
Variable zeroJSON : BinaryJSON.
Variable row : Row.

Local Abbreviation toInt := (castDecimalToInt zeroJSON row).
Local Abbreviation toDecimal := (castDecimalToDecimal zeroJSON row).


(** Decimal-to-Decimal always goes through the precision adjustment. *)
Lemma decimal_to_decimal_adjusts (d : MyDecimal) (tp : FieldType)
    (sc : StatementContext) :
  toDecimal d tp sc
  = (let '((res, err), sc') := ProduceDecWithSpecifiedTp d tp sc in
     ((res, false, err), sc')).
Proof.
  unfold castDecimalToDecimal, builtinCastDecimalAsDecimalSig_evalDecimal. run.
  destruct (ProduceDecWithSpecifiedTp d tp sc) as [[res err] sc']. reflexivity.
Qed.

(** C9.  Casting the Decimal(10,2) value 12.34 to Decimal(10,2) gives
    12.34 back, unchanged and without a diagnostic.  The value does go
    through the precision adjustment of the target: the result of the
    routine is the result of that step for every value and target, and
    the same 12.34 cast to Decimal(10,1) comes back as 12.3 with the
    dropped digit reported as a truncation. *)
Theorem decimal_to_decimal_same_shape (sc : StatementContext) :
  toDecimal {| coef := 1234; frac := 2 |} (decimalType 10 2) sc
  = ((Some {| coef := 1234; frac := 2 |}, false, None), sc)
  /\ (forall (d : MyDecimal) (tp : FieldType),
        toDecimal d tp sc
        = (let '((res, err), sc') := ProduceDecWithSpecifiedTp d tp sc in
           ((res, false, err), sc')))
  /\ toDecimal {| coef := 1234; frac := 2 |} (decimalType 10 1) sc
     = (let '(err, sc') := HandleTruncate (Some (Gen ErrTruncated)) sc in
        ((Some {| coef := 123; frac := 1 |}, false, err), sc')).
Proof.
  split; [reflexivity |].
  split; [intros d tp; apply decimal_to_decimal_adjusts |].
  rewrite decimal_to_decimal_adjusts.
  unfold ProduceDecWithSpecifiedTp. run.
  destruct (HandleTruncate (Some (Gen ErrTruncated)) sc). reflexivity.
Qed.

End DecimalProperties.


(** ** Duration targets *)

Section DurationProperties.

Context {Row BinaryJSON : Type}.
Variable ParseDuration : string -> Z -> Duration * option error.
Variable BinaryJSON_Unquote : BinaryJSON -> string * option error.

Local Abbreviation Expr := (@Expression Row BinaryJSON).

(** The String and Decimal routines turn a zero duration that comes with
    the truncation diagnostic into NULL. *)
Lemma string_truncated_zero_duration_is_null (arg : Expr) (tp : FieldType)
    (row : Row) (sc sc1 : StatementContext) (s : string) (e : error) :
  EvalString arg row sc = ((s, false, None), sc1) ->
  ParseDuration s (Decimal tp) = (ZeroDuration, Some e) ->
  errCode e = ErrTruncatedWrongVal ->
  builtinCastStringAsDurationSig_evalDuration ParseDuration
    (newBaseBuiltinFunc [arg] tp) row sc
  = (let '(err, sc2) := HandleTruncate (Some e) sc1 in
     ((ZeroDuration, true, err), sc2)).
Proof.
  intros Harg Hparse He.
  unfold builtinCastStringAsDurationSig_evalDuration. run.
  rewrite Harg. simpl. rewrite Hparse. unfold Equal. rewrite He. simpl.
  destruct (HandleTruncate (Some e) sc1). reflexivity.
Qed.

Lemma decimal_truncated_zero_duration_is_null (arg : Expr) (tp : FieldType)
    (row : Row) (sc sc1 : StatementContext) (d : MyDecimal) (e : error) :
  EvalDecimal arg row sc = ((Some d, false, None), sc1) ->
  ParseDuration (MyDecimal_ToString d) (Decimal tp) = (ZeroDuration, Some e) ->
  errCode e = ErrTruncatedWrongVal ->
  builtinCastDecimalAsDurationSig_evalDuration ParseDuration
    (newBaseBuiltinFunc [arg] tp) row sc
  = (let '(err, sc2) := HandleTruncate (Some e) sc1 in
     ((ZeroDuration, true, err), sc2)).
Proof.
  intros Harg Hparse He.
  unfold builtinCastDecimalAsDurationSig_evalDuration. run.
  rewrite Harg. simpl. rewrite Hparse. unfold Equal. rewrite He. simpl.
  destruct (HandleTruncate (Some e) sc1). reflexivity.
Qed.

(** C1.  The code at the input where it departs from the rule "a zero
    duration that comes with a truncation diagnostic is SQL NULL, for
    Decimal, String and Json sources alike": for a Json source whose
    unquoted text parses to the zero duration with the truncation
    diagnostic, the routine hands the truncation to the sink and returns
    the zero duration with the null flag off. *)
Theorem json_truncated_zero_duration_is_not_null (arg : Expr) (tp : FieldType)
    (row : Row) (sc sc1 : StatementContext) (j : BinaryJSON) (s : string)
    (e : error) :
  EvalJSON arg row sc = ((j, false, None), sc1) ->
  BinaryJSON_Unquote j = (s, None) ->
  ParseDuration s (Decimal tp) = (ZeroDuration, Some e) ->
  errCode e = ErrTruncatedWrongVal ->
  builtinCastJSONAsDurationSig_evalDuration ParseDuration BinaryJSON_Unquote
    (newBaseBuiltinFunc [arg] tp) row sc
  = (let '(err, sc2) := HandleTruncate (Some e) sc1 in
     ((ZeroDuration, false, err), sc2)).
Proof.
  intros Harg Hunq Hparse He.
  unfold builtinCastJSONAsDurationSig_evalDuration. run.
  rewrite Harg. simpl. rewrite Hunq. simpl. rewrite Hparse.
  unfold Equal. rewrite He. simpl.
  destruct (HandleTruncate (Some e) sc1). reflexivity.
Qed.

End DurationProperties.

Lemma json_truncated_zero_duration_is_not_null_witness :
  castJSONToDuration (JSONString "abc") (durationType 0) selectCtx
  = ((ZeroDuration, false, None),
     snd (AppendWarning (GenByArgs ErrTruncatedWrongVal ["time"; "abc"]) selectCtx))
  /\ castStringToDuration "abc" (durationType 0) selectCtx
     = ((ZeroDuration, true, None),
        snd (AppendWarning (GenByArgs ErrTruncatedWrongVal ["time"; "abc"]) selectCtx)).
Proof.
  split.
  - exact (json_truncated_zero_duration_is_not_null refParseDuration
             JSONValue_Unquote (jsonExpr (Row := unit) jsonType (value (JSONString "abc")))
             (durationType 0) tt selectCtx selectCtx (JSONString "abc") "abc"
             (GenByArgs ErrTruncatedWrongVal ["time"; "abc"])
             eq_refl eq_refl eq_refl eq_refl).
  - reflexivity.
Defined.

(** ** DateTime targets *)

Section DateTimeProperties.

Context {Row BinaryJSON : Type}.
Variable FormatFloat : float64 -> string.
Variable ParseTime : string -> Z -> Z -> Stmt (Time * option error).
Variable ParseTimeFromNum : Z -> Z -> Z -> Stmt (Time * option error).
Variable Time_Convert : Time -> Z -> Stmt (Time * option error).
Variable Time_RoundFrac : Time -> Z -> Stmt (Time * option error).
Variable Duration_ConvertToTime : Duration -> Z -> Stmt (Time * option error).
Variable BinaryJSON_Unquote : BinaryJSON -> string * option error.

Local Abbreviation Expr := (@Expression Row BinaryJSON).

(** For a DATE target the Integer, Real, Decimal, String, DateTime and
    Json routines return a value without time of day. *)
Lemma date_target_zeroes_time_of_day (b : @baseBuiltinFunc Row BinaryJSON)
    (row : Row) (sc : StatementContext) :
  Tp (tp b) = TypeDate ->
  meetsDate (builtinCastIntAsTimeSig_evalTime ParseTimeFromNum b row sc) = true
  /\ meetsDate (builtinCastRealAsTimeSig_evalTime FormatFloat ParseTime b row sc)
     = true
  /\ meetsDate (builtinCastDecimalAsTimeSig_evalTime ParseTime b row sc) = true
  /\ meetsDate (builtinCastStringAsTimeSig_evalTime ParseTime b row sc) = true
  /\ meetsDate (builtinCastTimeAsTimeSig_evalTime Time_Convert Time_RoundFrac
                  b row sc) = true
  /\ meetsDate (builtinCastJSONAsTimeSig_evalTime ParseTime BinaryJSON_Unquote
                  b row sc) = true.
Proof.
  intros H.
  unfold builtinCastIntAsTimeSig_evalTime, builtinCastRealAsTimeSig_evalTime,
    builtinCastDecimalAsTimeSig_evalTime, builtinCastStringAsTimeSig_evalTime,
    builtinCastTimeAsTimeSig_evalTime, builtinCastJSONAsTimeSig_evalTime, meetsDate.
  run. rewrite H. simpl.
  repeat split; repeat step; finish.
Qed.

(** C2.  The code at the input where it departs from the rule "for a
    DATE target the time of day of the result is zero, for every source
    class": the Duration routine returns the value that anchoring the
    duration to the current date and rounding it gave, as it is; its
    time of day is not touched, whatever the type tag of the target. *)
Theorem duration_to_date_keeps_time_of_day (arg : Expr) (tp : FieldType)
    (row : Row) (sc sc1 sc2 sc3 : StatementContext) (d : Duration)
    (t t' : Time) (e : option error) :
  EvalDuration arg row sc = ((d, false, None), sc1) ->
  Duration_ConvertToTime d (Tp tp) sc1 = ((t, None), sc2) ->
  Time_RoundFrac t (Decimal tp) sc2 = ((t', e), sc3) ->
  builtinCastDurationAsTimeSig_evalTime Time_RoundFrac Duration_ConvertToTime
    (newBaseBuiltinFunc [arg] tp) row sc
  = ((t', false, e), sc3).
Proof.
  intros Harg Hconv Hround.
  unfold builtinCastDurationAsTimeSig_evalTime. run.
  rewrite Harg. simpl. rewrite Hconv. simpl. rewrite Hround. reflexivity.
Qed.

End DateTimeProperties.

Lemma duration_to_date_keeps_time_of_day_witness :
  castDurationToTime (2023, 6, 15)
    {| Duration_Duration := 45000 * 10 ^ 9; Duration_Fsp := 0 |}
    dateType selectCtx
  = (({| Time_Time := FromDate 2023 6 15 12 30 0 0;
         Time_Type := TypeDate; Time_Fsp := 0 |}, false, None), selectCtx)
  /\ meetsDate (castDurationToTime (2023, 6, 15)
                  {| Duration_Duration := 45000 * 10 ^ 9; Duration_Fsp := 0 |}
                  dateType selectCtx) = false.
Proof.
  assert (H : castDurationToTime (2023, 6, 15)
    {| Duration_Duration := 45000 * 10 ^ 9; Duration_Fsp := 0 |}
    dateType selectCtx
  = (({| Time_Time := FromDate 2023 6 15 12 30 0 0;
         Time_Type := TypeDate; Time_Fsp := 0 |}, false, None), selectCtx)).
  { exact (duration_to_date_keeps_time_of_day refTimeRoundFrac
             (refConvertToTime (2023, 6, 15))
             (durationExpr (Row := unit) JSONNull (durationType 0)
                (value {| Duration_Duration := 45000 * 10 ^ 9; Duration_Fsp := 0 |}))
             dateType tt selectCtx selectCtx selectCtx selectCtx
             {| Duration_Duration := 45000 * 10 ^ 9; Duration_Fsp := 0 |}
             {| Time_Time := FromDate 2023 6 15 12 30 0 0;
                Time_Type := TypeDate; Time_Fsp := 0 |}
             {| Time_Time := FromDate 2023 6 15 12 30 0 0;
                Time_Type := TypeDate; Time_Fsp := 0 |}
             None eq_refl eq_refl eq_refl). }
  split; [exact H |]. rewrite H. reflexivity.
Defined.

(** ** Meeting the target type *)

Lemma length_substring0 (s : string) (n : nat) :
  (String.length (substring 0 n s) <= n)%nat.
Proof.
  revert n. induction s as [| c s IH]; intros [| n]; simpl; try lia.
  specialize (IH n). lia.
Qed.

Lemma length_append (s1 s2 : string) :
  String.length (s1 ++ s2) = (String.length s1 + String.length s2)%nat.
Proof. induction s1 as [| c s1 IH]; simpl; [reflexivity | now rewrite IH]. Qed.

Lemma length_string_of_list_ascii (l : list ascii) :
  String.length (string_of_list_ascii l) = List.length l.
Proof. induction l as [| c l IH]; simpl; [reflexivity | now rewrite IH]. Qed.

(** The display-length step leaves a text that fits the declared length,
    whatever the sink makes of a cut. *)
Lemma ProduceStr_fits (s : string) (tp : FieldType) (sc : StatementContext) :
  fitsLength tp (fst (fst (ProduceStrWithSpecifiedTp s tp sc))) = true.
Proof.
  unfold ProduceStrWithSpecifiedTp, fitsLength.
  assert (Hcut : forall e, (0 <=? Flen tp) = true ->
     (Flen tp <? 0)
     || (len (fst (fst ((err' <- HandleTruncate e ;;
                         ret (truncateStr s (Flen tp), err')) sc))) <=? Flen tp)
     = true).
  { intros e H0. run. destruct (HandleTruncate e sc). simpl.
    apply orb_true_iff. right. apply Z.leb_le. apply Z.leb_le in H0.
    unfold len, truncateStr.
    pose proof (length_substring0 s (Z.to_nat (Flen tp))). lia. }
  assert (Hsame : forall s', ((Flen tp <? 0) || (len s' <=? Flen tp)) = true ->
     (Flen tp <? 0)
     || (len (fst (fst ((err' <- HandleTruncate None ;; ret (s', err')) sc)))
         <=? Flen tp) = true).
  { intros s' H. exact H. }
  destruct (0 <=? Flen tp) eqn:H0.
  - destruct (String.eqb (Charset tp) CharsetUTF8
              || String.eqb (Charset tp) CharsetUTF8MB4).
    + destruct (Flen tp <? len s) eqn:H1; [apply Hcut; reflexivity |].
      apply Hsame. apply orb_true_iff. right.
      apply Z.leb_le. apply Z.ltb_ge in H1. exact H1.
    + destruct (Flen tp <? len s) eqn:H1; [apply Hcut; reflexivity |].
      destruct ((Tp tp =? TypeString) && IsBinaryStr tp && (len s <? Flen tp))
        eqn:H2.
      * apply Hsame. apply orb_true_iff. right. apply Z.leb_le.
        apply andb_true_iff in H2. destruct H2 as [_ H2]. apply Z.ltb_lt in H2.
        unfold len, padding in *. rewrite length_append,
          length_string_of_list_ascii, repeat_length. lia.
      * apply Hsame. apply orb_true_iff. right.
        apply Z.leb_le. apply Z.ltb_ge in H1. exact H1.
  - apply Hsame. apply orb_true_iff. left. apply Z.ltb_lt.
    apply Z.leb_gt in H0. exact H0.
Qed.

(** The precision adjustment leaves a decimal of the declared scale,
    unless it reports an error. *)
Lemma ProduceDec_fits (d : MyDecimal) (tp : FieldType) (sc : StatementContext) :
  isErr (snd (fst (ProduceDecWithSpecifiedTp d tp sc)))
  || fitsScale tp (fst (fst (ProduceDecWithSpecifiedTp d tp sc))) = true.
Proof.
  unfold ProduceDecWithSpecifiedTp, fitsScale, UnspecifiedLength. run.
  destruct (Flen tp =? -1) eqn:E1; [simpl; rewrite ?orb_true_r; reflexivity |].
  destruct (Decimal tp =? -1) eqn:E2.
  { apply Z.eqb_eq in E2. rewrite E2. simpl. rewrite ?orb_true_r. reflexivity. }
  simpl. destruct (Flen tp <? Decimal tp); [reflexivity |].
  destruct (negb (MyDecimal_IsZero d) && _); [reflexivity |].
  destruct (frac d =? Decimal tp) eqn:E3; simpl.
  - rewrite E3. rewrite ?orb_true_r. reflexivity.
  - unfold MyDecimal_Round.
    destruct (Decimal tp <? 0) eqn:E4; simpl.
    + destruct (_ && _); [destruct (HandleTruncate _ sc) |]; simpl;
        rewrite ?E4; rewrite ?orb_true_r; reflexivity.
    + destruct (frac d <=? Decimal tp); simpl;
        (destruct (_ && _); [destruct (HandleTruncate _ sc) |]); simpl;
        rewrite Z.eqb_refl; rewrite ?orb_true_r; reflexivity.
Qed.

Ltac use_fits :=
  repeat match goal with
         | H : ProduceStrWithSpecifiedTp ?s ?tp ?sc = _ |- _ =>
             let F := fresh "F" in
             pose proof (ProduceStr_fits s tp sc) as F;
             rewrite H in F; simpl in F; clear H
         | H : ProduceDecWithSpecifiedTp ?d ?tp ?sc = _ |- _ =>
             let F := fresh "F" in
             pose proof (ProduceDec_fits d tp sc) as F;
             rewrite H in F; simpl in F; clear H
         end;
  repeat match goal with
         | H : _ || _ = false |- _ =>
             apply orb_false_iff in H; destruct H as [? ?]
         end;
  subst; simpl;
  try match goal with
      | F : ?c = true |- context [?c] => rewrite F
      end;
  rewrite ?orb_true_r; try reflexivity; try assumption.

Section PostProcessingProperties.

Context {Row BinaryJSON : Type}.
Variable zeroJSON : BinaryJSON.
Variable FormatFloat : float64 -> string.
Variable MyDecimal_FromFloat64 : float64 -> MyDecimal * option error.
Variable MyDecimal_FromString : string -> MyDecimal * option error.
Variable Time_ToNumber : Time -> MyDecimal.
Variable Duration_ToNumber : Duration -> MyDecimal.
Variable Time_String : Time -> string.
Variable Duration_String : Duration -> string.
Variable Time_RoundFrac : Time -> Z -> Stmt (Time * option error).
Variable Duration_RoundFrac : Duration -> Z -> Duration * option error.
Variable Time_ConvertToDuration : Time -> Duration * option error.
Variable Duration_ConvertToTime : Duration -> Z -> Stmt (Time * option error).
Variable BinaryJSON_String : BinaryJSON -> string.
Variable ConvertJSONToFloat : BinaryJSON -> Stmt (float64 * option error).

Local Abbreviation Expr := (@Expression Row BinaryJSON).

Lemma string_targets_fit (b : @baseBuiltinFunc Row BinaryJSON) (row : Row)
    (sc : StatementContext) :
  meetsLength (tp b) (builtinCastIntAsStringSig_evalString b row sc) = true
  /\ meetsLength (tp b) (builtinCastRealAsStringSig_evalString FormatFloat b row sc)
     = true
  /\ meetsLength (tp b) (builtinCastDecimalAsStringSig_evalString b row sc) = true
  /\ meetsLength (tp b) (builtinCastStringAsStringSig_evalString b row sc) = true
  /\ meetsLength (tp b) (builtinCastTimeAsStringSig_evalString Time_String b row sc)
     = true
  /\ meetsLength (tp b)
       (builtinCastDurationAsStringSig_evalString Duration_String b row sc) = true.
Proof.
  unfold builtinCastIntAsStringSig_evalString, builtinCastRealAsStringSig_evalString,
    builtinCastDecimalAsStringSig_evalString, builtinCastStringAsStringSig_evalString,
    builtinCastTimeAsStringSig_evalString, builtinCastDurationAsStringSig_evalString,
    meetsLength.
  run. repeat split; repeat step; finish; use_fits.
Qed.

Lemma decimal_targets_fit (b : @baseBuiltinFunc Row BinaryJSON) (row : Row)
    (sc : StatementContext) :
  meetsScale (tp b) (builtinCastIntAsDecimalSig_evalDecimal b row sc) = true
  /\ meetsScale (tp b)
       (builtinCastRealAsDecimalSig_evalDecimal MyDecimal_FromFloat64 b row sc)
     = true
  /\ meetsScale (tp b) (builtinCastDecimalAsDecimalSig_evalDecimal b row sc) = true
  /\ meetsScale (tp b)
       (builtinCastTimeAsDecimalSig_evalDecimal Time_ToNumber b row sc) = true
  /\ meetsScale (tp b)
       (builtinCastDurationAsDecimalSig_evalDecimal Duration_ToNumber b row sc)
     = true
  /\ arg0IsBinaryLiteral b
     || meetsScale (tp b)
          (builtinCastStringAsDecimalSig_evalDecimal MyDecimal_FromString b row sc)
     = true.
Proof.
  unfold builtinCastIntAsDecimalSig_evalDecimal,
    builtinCastRealAsDecimalSig_evalDecimal,
    builtinCastDecimalAsDecimalSig_evalDecimal,
    builtinCastTimeAsDecimalSig_evalDecimal,
    builtinCastDurationAsDecimalSig_evalDecimal,
    builtinCastStringAsDecimalSig_evalDecimal, meetsScale, arg0IsBinaryLiteral.
  run. repeat split; repeat step; finish; use_fits.
Qed.

Lemma temporal_targets_rounded (b : @baseBuiltinFunc Row BinaryJSON) (row : Row)
    (sc : StatementContext) (Time_Convert : Time -> Z -> Stmt (Time * option error)) :
  roundedDuration Duration_RoundFrac (Decimal (tp b))
    (builtinCastDurationAsDurationSig_evalDuration Duration_RoundFrac b row sc)
  /\ roundedDuration Duration_RoundFrac (Decimal (tp b))
       (builtinCastTimeAsDurationSig_evalDuration Duration_RoundFrac
          Time_ConvertToDuration b row sc)
  /\ roundedTime Time_RoundFrac (tp b)
       (builtinCastTimeAsTimeSig_evalTime Time_Convert Time_RoundFrac b row sc)
  /\ roundedTime Time_RoundFrac (tp b)
       (builtinCastDurationAsTimeSig_evalTime Time_RoundFrac
          Duration_ConvertToTime b row sc).
Proof.
  unfold builtinCastDurationAsDurationSig_evalDuration,
    builtinCastTimeAsDurationSig_evalDuration,
    builtinCastTimeAsTimeSig_evalTime, builtinCastDurationAsTimeSig_evalTime,
    roundedDuration, roundedTime.
  run. repeat split; repeat step;
    repeat match goal with o : option error |- _ => destruct o end;
    simpl in *;
    first
      [ left; reflexivity
      | right; left; reflexivity
      | match goal with
        | H : ?a || ?c = true |- ?a = true \/ ?c = true \/ _ =>
            apply orb_true_iff in H; destruct H as [H | H];
            [left; exact H | right; left; exact H]
        end
      | discriminate
      | right; right; eexists; eassumption
      | right; right; do 4 eexists; split; [eassumption | left; reflexivity]
      | right; right; do 4 eexists; split; [eassumption | right; reflexivity] ].
Qed.

(** Json-to-String returns the serialisation as it is, and Json-to-Decimal
    the decimal made from the float: neither goes through the step of
    the target type. *)
Lemma json_to_string_skips_display_length (arg : Expr) (tp : FieldType)
    (row : Row) (sc sc1 : StatementContext) (j : BinaryJSON) :
  EvalJSON arg row sc = ((j, false, None), sc1) ->
  builtinCastJSONAsStringSig_evalString BinaryJSON_String
    (newBaseBuiltinFunc [arg] tp) row sc
  = ((BinaryJSON_String j, false, None), sc1).
Proof.
  intros H. unfold builtinCastJSONAsStringSig_evalString. run.
  rewrite H. reflexivity.
Qed.

Lemma json_to_decimal_skips_adjustment (arg : Expr) (tp : FieldType)
    (row : Row) (sc sc1 sc2 : StatementContext) (j : BinaryJSON) (f : float64) :
  EvalJSON arg row sc = ((j, false, None), sc1) ->
  ConvertJSONToFloat j sc1 = ((f, None), sc2) ->
  builtinCastJSONAsDecimalSig_evalDecimal MyDecimal_FromFloat64 ConvertJSONToFloat
    (newBaseBuiltinFunc [arg] tp) row sc
  = ((Some (fst (MyDecimal_FromFloat64 f)), false,
      snd (MyDecimal_FromFloat64 f)), sc2).
Proof.
  intros H1 H2. unfold builtinCastJSONAsDecimalSig_evalDecimal. run.
  rewrite H1. simpl. rewrite H2. simpl.
  destruct (MyDecimal_FromFloat64 f). reflexivity.
Qed.

(** The routines that post-process do so for every input: a
    String-target routine with an Integer, Real, Decimal,
    String, DateTime or Duration source returns a text that fits a
    declared display length; a Decimal-target routine with an Integer,
    Real, Decimal, DateTime or Duration source, and String-to-Decimal
    for a source that is no binary literal, returns a decimal of the
    declared scale; DateTime-to-DateTime, Duration-to-DateTime,
    DateTime-to-Duration and Duration-to-Duration return what rounding
    to the target's fractional-second precision gave.  The
    identity-shaped routines Int-to-Int and Json-to-Json return the
    outcome of the source as it is, with no post-processing. *)
Theorem post_processing_where_applied (b : @baseBuiltinFunc Row BinaryJSON)
    (row : Row) (sc : StatementContext)
    (Time_Convert : Time -> Z -> Stmt (Time * option error)) :
  (meetsLength (tp b) (builtinCastIntAsStringSig_evalString b row sc) = true
   /\ meetsLength (tp b)
        (builtinCastRealAsStringSig_evalString FormatFloat b row sc) = true
   /\ meetsLength (tp b) (builtinCastDecimalAsStringSig_evalString b row sc) = true
   /\ meetsLength (tp b) (builtinCastStringAsStringSig_evalString b row sc) = true
   /\ meetsLength (tp b)
        (builtinCastTimeAsStringSig_evalString Time_String b row sc) = true
   /\ meetsLength (tp b)
        (builtinCastDurationAsStringSig_evalString Duration_String b row sc) = true)
  /\ (meetsScale (tp b) (builtinCastIntAsDecimalSig_evalDecimal b row sc) = true
      /\ meetsScale (tp b)
           (builtinCastRealAsDecimalSig_evalDecimal MyDecimal_FromFloat64 b row sc)
         = true
      /\ meetsScale (tp b) (builtinCastDecimalAsDecimalSig_evalDecimal b row sc)
         = true
      /\ meetsScale (tp b)
           (builtinCastTimeAsDecimalSig_evalDecimal Time_ToNumber b row sc) = true
      /\ meetsScale (tp b)
           (builtinCastDurationAsDecimalSig_evalDecimal Duration_ToNumber b row sc)
         = true
      /\ arg0IsBinaryLiteral b
         || meetsScale (tp b)
              (builtinCastStringAsDecimalSig_evalDecimal MyDecimal_FromString
                 b row sc)
         = true)
  /\ (roundedDuration Duration_RoundFrac (Decimal (tp b))
        (builtinCastDurationAsDurationSig_evalDuration Duration_RoundFrac b row sc)
      /\ roundedDuration Duration_RoundFrac (Decimal (tp b))
           (builtinCastTimeAsDurationSig_evalDuration Duration_RoundFrac
              Time_ConvertToDuration b row sc)
      /\ roundedTime Time_RoundFrac (tp b)
           (builtinCastTimeAsTimeSig_evalTime Time_Convert Time_RoundFrac b row sc)
      /\ roundedTime Time_RoundFrac (tp b)
           (builtinCastDurationAsTimeSig_evalTime Time_RoundFrac
              Duration_ConvertToTime b row sc))
  /\ (forall arg : Expr,
        builtinCastIntAsIntSig_evalInt (newBaseBuiltinFunc [arg] (tp b)) row sc
        = EvalInt arg row sc
        /\ builtinCastJSONAsJSONSig_evalJSON zeroJSON
             (newBaseBuiltinFunc [arg] (tp b)) row sc
           = EvalJSON arg row sc).
Proof.
  split; [exact (string_targets_fit b row sc) |].
  split; [exact (decimal_targets_fit b row sc) |].
  split; [exact (temporal_targets_rounded b row sc Time_Convert) |].
  intros arg. split; reflexivity.
Qed.

End PostProcessingProperties.

(** ** Json sources and the post-processing *)

Section JsonSourceProperties.

Context {Row BinaryJSON : Type}.
Variable MyDecimal_FromFloat64 : float64 -> MyDecimal * option error.
Variable BinaryJSON_String : BinaryJSON -> string.
Variable ConvertJSONToFloat : BinaryJSON -> Stmt (float64 * option error).

(** C4.  The code at the inputs where it departs from the rule "every
    conversion routine post-processes its result to satisfy the target's
    length or precision".  For a Json source that is there, Json-to-String
    returns the serialisation of the value as it is, so a serialisation
    longer than the declared display length comes back not null, without
    error and without warning, longer than declared; and Json-to-Decimal
    returns the decimal made from the float as it is, so a decimal of
    another scale than the declared one comes back with that scale.  The
    sibling routines of the same targets, String-to-String and
    Real-to-Decimal among them, never return such a result, whatever
    their argument. *)
Theorem json_source_skips_post_processing
    (arg sibling : @Expression Row BinaryJSON)
    (tp : FieldType) (row : Row) (sc sc1 : StatementContext) (j : BinaryJSON) :
  EvalJSON arg row sc = ((j, false, None), sc1) ->
  let toString :=
    builtinCastJSONAsStringSig_evalString BinaryJSON_String
      (newBaseBuiltinFunc [arg] tp) row sc in
  let toDecimal :=
    builtinCastJSONAsDecimalSig_evalDecimal MyDecimal_FromFloat64
      ConvertJSONToFloat (newBaseBuiltinFunc [arg] tp) row sc in
  (fitsLength tp (BinaryJSON_String j) = false ->
   toString = ((BinaryJSON_String j, false, None), sc1)
   /\ meetsLength tp toString = false)
  /\ (forall (f : float64) (d : MyDecimal) (sc2 : StatementContext),
        ConvertJSONToFloat j sc1 = ((f, None), sc2) ->
        MyDecimal_FromFloat64 f = (d, None) ->
        fitsScale tp (Some d) = false ->
        toDecimal = ((Some d, false, None), sc2)
        /\ meetsScale tp toDecimal = false)
  /\ meetsLength tp
       (builtinCastStringAsStringSig_evalString
          (newBaseBuiltinFunc [sibling] tp) row sc) = true
  /\ meetsScale tp
       (builtinCastRealAsDecimalSig_evalDecimal MyDecimal_FromFloat64
          (newBaseBuiltinFunc [sibling] tp) row sc) = true.
Proof.
  intros Hsrc toString toDecimal. subst toString toDecimal.
  split; [| split; [| split]].
  - intros Hlong.
    rewrite (json_to_string_skips_display_length BinaryJSON_String
               arg tp row sc sc1 j Hsrc).
    split; [reflexivity |]. unfold meetsLength. simpl. exact Hlong.
  - intros f d sc2 Hf Hd Hscale.
    rewrite (json_to_decimal_skips_adjustment MyDecimal_FromFloat64
               ConvertJSONToFloat arg tp row sc sc1 sc2 j f Hsrc Hf).
    rewrite Hd. split; [reflexivity |]. unfold meetsScale. simpl. exact Hscale.
  - exact (proj1 (proj2 (proj2 (proj2
             (string_targets_fit (fun _ => "") (fun _ => "") (fun _ => "")
                (newBaseBuiltinFunc [sibling] tp) row sc))))).
  - exact (proj1 (proj2
             (decimal_targets_fit MyDecimal_FromFloat64
                (fun _ => ({| coef := 0; frac := 0 |}, None))
                (fun _ => {| coef := 0; frac := 0 |})
                (fun _ => {| coef := 0; frac := 0 |})
                (newBaseBuiltinFunc [sibling] tp) row sc))).
Qed.

End JsonSourceProperties.

(** The Json string "abc" cast to a String target of display length 2
    comes back as its five-character serialisation, where the String
    source "abc" is cut to "ab" with the cut reported; and the Json
    number 5, read as the float of that value and made a decimal of
    scale 0, cast to DECIMAL(10,2) comes back with scale 0.  (Floats are
    not modelled: the two float helpers of this run read a float of
    integral value as that integer.) *)
Lemma json_source_skips_post_processing_witness :
  let toFloat (j : JSONValue) : Stmt (float64 * option error) :=
    ret (match j with JSONInt64 i => i | _ => 0 end, None) in
  let fromFloat (f : float64) : MyDecimal * option error :=
    ({| coef := f; frac := 0 |}, None) in
  (castJSONToString (JSONString "abc") (varcharType 2) selectCtx
   = ((quoteJSON "abc", false, None), selectCtx)
   /\ meetsLength (varcharType 2)
        (castJSONToString (JSONString "abc") (varcharType 2) selectCtx) = false)
  /\ len (quoteJSON "abc") = 5
  /\ castStringToString "abc" (varcharType 2) selectCtx
     = (("ab", false, None),
        snd (AppendWarning (GenByArgs ErrDataTooLong ["2"; "3"]) selectCtx))
  /\ (builtinCastJSONAsDecimalSig_evalDecimal fromFloat toFloat
        (newBaseBuiltinFunc
           [jsonExpr (Row := unit) jsonType (value (JSONInt64 5))]
           (decimalType 10 2)) tt selectCtx
      = ((Some {| coef := 5; frac := 0 |}, false, None), selectCtx)
      /\ meetsScale (decimalType 10 2)
           (builtinCastJSONAsDecimalSig_evalDecimal fromFloat toFloat
              (newBaseBuiltinFunc
                 [jsonExpr (Row := unit) jsonType (value (JSONInt64 5))]
                 (decimalType 10 2)) tt selectCtx) = false).
Proof.
  intros toFloat fromFloat.
  split; [| split; [reflexivity | split; [reflexivity |]]].
  - apply (proj1 (json_source_skips_post_processing fromFloat
                    JSONValue_String toFloat
                    (jsonExpr (Row := unit) jsonType (value (JSONString "abc")))
                    enumColumn (varcharType 2) tt selectCtx selectCtx
                    (JSONString "abc") eq_refl)).
    reflexivity.
  - apply (proj1 (proj2 (json_source_skips_post_processing fromFloat
                           JSONValue_String toFloat
                           (jsonExpr (Row := unit) jsonType (value (JSONInt64 5)))
                           enumColumn (decimalType 10 2) tt selectCtx selectCtx
                           (JSONInt64 5) eq_refl))
             5 {| coef := 5; frac := 0 |} selectCtx eq_refl eq_refl eq_refl).
Defined.

(** ** Overflow of the string parse, through [evalInt] *)

Lemma HandleTruncate_lenient (e : option error) (sc : StatementContext) :
  lenient (snd (HandleTruncate e sc)) = lenient sc.
Proof.
  unfold HandleTruncate. run. destruct e as [e |]; [| reflexivity].
  destruct (TruncateAsWarning sc); reflexivity.
Qed.

Lemma getValidIntPrefix_lenient (str : string) (sc : StatementContext) :
  lenient (snd (getValidIntPrefix str sc)) = lenient sc.
Proof.
  pose proof (HandleTruncate_lenient (Some (Gen ErrTruncated)) sc) as Ht.
  unfold getValidIntPrefix. run.
  destruct (list_ascii_of_string str) as [| c r].
  - simpl. destruct (HandleTruncate (Some (Gen ErrTruncated)) sc). exact Ht.
  - destruct ((asciiCode c =? 45) || (asciiCode c =? 43)).
    + destruct (takeDigits r).
      * destruct (HandleTruncate (Some (Gen ErrTruncated)) sc). exact Ht.
      * destruct (_ =? _); [reflexivity |].
        destruct (HandleTruncate (Some (Gen ErrTruncated)) sc). exact Ht.
    + destruct (takeDigits (c :: r)).
      * destruct (HandleTruncate (Some (Gen ErrTruncated)) sc). exact Ht.
      * destruct (_ =? _); [reflexivity |].
        destruct (HandleTruncate (Some (Gen ErrTruncated)) sc). exact Ht.
Qed.

Lemma StrToUint_lenient (str : string) (sc : StatementContext) :
  lenient (snd (StrToUint str sc)) = lenient sc.
Proof.
  unfold StrToUint. run.
  pose proof (getValidIntPrefix_lenient (TrimSpace str) sc) as H.
  destruct (getValidIntPrefix (TrimSpace str) sc) as [[vp err] sc1].
  destruct (ParseUint _) as [u [e |]]; exact H.
Qed.

Lemma StrToInt_lenient (str : string) (sc : StatementContext) :
  lenient (snd (StrToInt str sc)) = lenient sc.
Proof.
  unfold StrToInt. run.
  pose proof (getValidIntPrefix_lenient (TrimSpace str) sc) as H.
  destruct (getValidIntPrefix (TrimSpace str) sc) as [[vp err] sc1].
  destruct (ParseInt _) as [u [e |]]; exact H.
Qed.

(** Whatever the text and the target: when the parse of the trimmed text
    (signed for a negative text, unsigned otherwise) reports an
    overflow, the cast gives the endpoint with a warning in a lenient
    context and the overflow error in a strict one. *)
Lemma string_cast_overflow_by_context {Row BinaryJSON : Type}
    (zeroJSON : BinaryJSON) (row : Row) (s : string) (tp : FieldType)
    (sc sc1 : StatementContext) (r : Z) (e : error) :
  let val := TrimSpace s in
  (if isNegativeStr val then StrToInt val else StrToUint val) sc
  = ((r, Some e), sc1) ->
  errCode e = ErrOverflow ->
  (lenient sc = true ->
   castStringToInt zeroJSON row s tp sc
   = ((if isNegativeStr val then MinInt64 else int64 MaxUint64, false, None),
      snd (AppendWarning (GenByArgs ErrTruncatedWrongVal ["INTEGER"; val]) sc1)))
  /\ (lenient sc = false ->
      snd (fst (castStringToInt zeroJSON row s tp sc)) = Some e
      /\ snd (castStringToInt zeroJSON row s tp sc) = sc1).
Proof.
  intros val Hparse He.
  assert (Hl : lenient sc1 = lenient sc).
  { destruct (isNegativeStr val).
    - rewrite <- (StrToInt_lenient val sc), Hparse. reflexivity.
    - rewrite <- (StrToUint_lenient val sc), Hparse. reflexivity. }
  assert (Heq : Equal ErrOverflow (Some e) = true)
    by (unfold Equal; rewrite He; reflexivity).
  unfold castStringToInt, builtinCastStringAsIntSig_evalInt,
    builtinCastStringAsIntSig_handleOverflow. run. fold val.
  unfold lenient in *.
  destruct (isNegativeStr val); rewrite Hparse; simpl; rewrite Heq;
    unfold HandleOverflow; run;
    destruct sc1 as [sel ovf tr ws]; simpl in *;
    (split; intros H; rewrite H in Hl; destruct sel, ovf;
     try discriminate Hl; try split; reflexivity).
Qed.

(** * The dispatchers, the routines and the wrappers as a whole *)

(** ** Dispatch: the signature is of the class asked for *)

Lemma land_lor_absorb (f p : Z) : Z.land (Z.lor f p) p = p.
Proof.
  apply Z.bits_inj'. intros n Hn.
  rewrite Z.land_spec, Z.lor_spec.
  destruct (Z.testbit f n), (Z.testbit p n); reflexivity.
Qed.

Lemma HasParseToJSONFlag_set (f : Z) :
  HasParseToJSONFlag (Z.lor f ParseToJSONFlag) = true.
Proof.
  unfold HasParseToJSONFlag. rewrite land_lor_absorb. reflexivity.
Qed.

Section DispatchCoherence.

Context {Row BinaryJSON : Type}.

Ltac pick_signature :=
  repeat match goal with
         | |- context [if ?b then _ else _] => destruct b
         | |- context [match FieldType_EvalType ?t with _ => _ end] =>
             destruct (FieldType_EvalType t)
         end;
  match goal with
  | |- exists sig, inr (?s, _) = _ /\ _ => exists s; repeat split; reflexivity
  end.

Ltac dispatch :=
  unfold castAsIntFunctionClass_getFunction, castAsRealFunctionClass_getFunction,
    castAsDecimalFunctionClass_getFunction, castAsStringFunctionClass_getFunction,
    castAsTimeFunctionClass_getFunction, castAsDurationFunctionClass_getFunction,
    castAsJSONFunctionClass_getFunction, getFunctionWith.

(** X1.  Once the arity check has passed, each of the seven dispatchers
    returns a signature of its own target class, whatever the argument
    is; the code it reports is the code of that very signature, and the
    signature holds the arguments it was asked for. *)
Theorem getFunction_signature_of_class (c : castFunctionClass)
    (arg : @Expression Row BinaryJSON) (rest : list (@Expression Row BinaryJSON)) :
  verifyArgs (base c) (arg :: rest) = None ->
  let l := arg :: rest in
  signatureOfClass (castAsIntFunctionClass_getFunction c l) ETInt l
  /\ signatureOfClass (castAsRealFunctionClass_getFunction c l) ETReal l
  /\ signatureOfClass (castAsDecimalFunctionClass_getFunction c l) ETDecimal l
  /\ signatureOfClass (castAsStringFunctionClass_getFunction c l) ETString l
  /\ signatureOfClass (castAsTimeFunctionClass_getFunction c l) ETDatetime l
  /\ signatureOfClass (castAsDurationFunctionClass_getFunction c l) ETDuration l
  /\ signatureOfClass (castAsJSONFunctionClass_getFunction c l) ETJson l.
Proof.
  intros Hv l. subst l. unfold signatureOfClass. dispatch. rewrite Hv.
  repeat split; pick_signature.
Qed.

(** X2.  [BuildCastFunction] always finds a signature: the arity check
    cannot fail for its one argument, and the signature is of the
    evaluation class of the target type (TIMESTAMP targets use the
    DATETIME routines), carries the code that names it and holds the
    expression as its only argument. *)
Theorem BuildCastFunction_getFunction_total
    (expr : @Expression Row BinaryJSON) (tp : FieldType) :
  signatureOfClass (BuildCastFunction_getFunction expr tp)
    (dispatchClass (FieldType_EvalType tp)) [expr].
Proof.
  unfold BuildCastFunction_getFunction, signatureOfClass.
  destruct (FieldType_EvalType tp); dispatch;
    change (verifyArgs (base (castClass tp)) [expr]) with (@None error);
    cbv iota beta; pick_signature.
Qed.

(** X3.  The signature [BuildCastFunction] builds for a String-class
    source and a JSON target carries the target type with the
    parse-to-JSON flag set: such a cast always parses the string as JSON
    text and never wraps it as a JSON string scalar, whatever flags the
    target type had. *)
Theorem BuildCastFunction_string_to_json_parses
    (expr : @Expression Row BinaryJSON) (target : FieldType) :
  FieldType_EvalType target = ETJson ->
  FieldType_EvalType (GetType expr) = ETString ->
  exists bf,
    BuildCastFunction_getFunction expr target
    = inr (builtinCastStringAsJSONSig bf, ScalarFuncSig_CastStringAsJson)
    /\ args bf = [expr]
    /\ HasParseToJSONFlag (Flag (tp bf)) = true
    /\ forall zeroJSON CreateBinary_string ParseBinaryFromString row sc v sc1,
         EvalString expr row sc = ((v, false, None), sc1) ->
         builtinCastStringAsJSONSig_evalJSON zeroJSON CreateBinary_string
           ParseBinaryFromString bf row sc
         = ((fst (ParseBinaryFromString v), false,
             snd (ParseBinaryFromString v)), sc1).
Proof.
  intros Ht Hs. unfold BuildCastFunction_getFunction. rewrite Ht.
  unfold castAsJSONFunctionClass_getFunction, getFunctionWith.
  change (verifyArgs (base (castClass target)) [expr]) with (@None error).
  cbv iota beta. rewrite Hs.
  eexists; split; [reflexivity |]. split; [reflexivity |].
  split; [apply HasParseToJSONFlag_set |].
  intros zeroJSON CB PB row sc v sc1 Hev.
  unfold builtinCastStringAsJSONSig_evalJSON. run. rewrite Hev. simpl.
  rewrite HasParseToJSONFlag_set. destruct (PB v); reflexivity.
Qed.

(** X4.  The routines of a String source guard against arguments that
    are to be read through another accessor (a hybrid argument or a
    binary literal).  No dispatcher ever hands such an argument to such a
    routine: for every signature a dispatcher chooses, the routine reads
    the accessor of the signature's source class. *)
Theorem dispatched_signature_reads_own_accessor (c : castFunctionClass)
    (arg : @Expression Row BinaryJSON) (rest : list (@Expression Row BinaryJSON))
    (sig : @builtinFunc Row BinaryJSON) (code : ScalarFuncSig) :
  In (inr (sig, code))
     [castAsIntFunctionClass_getFunction c (arg :: rest);
      castAsRealFunctionClass_getFunction c (arg :: rest);
      castAsDecimalFunctionClass_getFunction c (arg :: rest);
      castAsStringFunctionClass_getFunction c (arg :: rest);
      castAsTimeFunctionClass_getFunction c (arg :: rest);
      castAsDurationFunctionClass_getFunction c (arg :: rest);
      castAsJSONFunctionClass_getFunction c (arg :: rest)] ->
  readsOtherAccessor sig arg = false.
Proof.
  dispatch. intros Hin. simpl in Hin.
  destruct (verifyArgs (base c) (arg :: rest)).
  - repeat (destruct Hin as [Hin | Hin]; [discriminate Hin |]). contradiction.
  - destruct (Hybrid (GetType arg)) eqn:Hh, (IsBinaryLiteral arg) eqn:Hb,
      (FieldType_EvalType (GetType arg));
      simpl in Hin;
      repeat (destruct Hin as [Hin | Hin];
              [injection Hin as <- _; simpl; rewrite ?Hh, ?Hb; reflexivity |]);
      contradiction.
Qed.

(** X5.  Every dispatcher chooses by the evaluation class of the
    argument: for an argument that is neither hybrid nor a binary
    literal the source class of the signature is the class of the
    argument (TIMESTAMP arguments take the DATETIME routines), and the
    dispatchers to DateTime, Duration and Json do so for every
    argument. *)
Theorem dispatch_by_source_class (c : castFunctionClass)
    (arg : @Expression Row BinaryJSON) (rest : list (@Expression Row BinaryJSON))
    (sig : @builtinFunc Row BinaryJSON) (code : ScalarFuncSig) :
  let cls := dispatchClass (FieldType_EvalType (GetType arg)) in
  (In (inr (sig, code))
      [castAsTimeFunctionClass_getFunction c (arg :: rest);
       castAsDurationFunctionClass_getFunction c (arg :: rest);
       castAsJSONFunctionClass_getFunction c (arg :: rest)] ->
   sigSource sig = cls)
  /\ (Hybrid (GetType arg) || IsBinaryLiteral arg = false ->
      In (inr (sig, code))
         [castAsIntFunctionClass_getFunction c (arg :: rest);
          castAsRealFunctionClass_getFunction c (arg :: rest);
          castAsDecimalFunctionClass_getFunction c (arg :: rest);
          castAsStringFunctionClass_getFunction c (arg :: rest)] ->
      sigSource sig = cls).
Proof.
  intros cls; subst cls. dispatch.
  split; [| intros Hhb; apply orb_false_iff in Hhb; destruct Hhb as [Hh Hb];
            rewrite ?Hh, ?Hb ];
    intros Hin; simpl in Hin;
    (destruct (verifyArgs (base c) (arg :: rest));
     [ repeat (destruct Hin as [Hin | Hin]; [discriminate Hin |]); contradiction
     | destruct (FieldType_EvalType (GetType arg));
       simpl in Hin;
       repeat (destruct Hin as [Hin | Hin];
               [injection Hin as <- _; reflexivity |]);
       contradiction ]).
Qed.

End DispatchCoherence.

(** An ENUM column cast by a class of one to one argument. *)
Lemma getFunction_signature_of_class_witness :
  signatureOfClass
    (castAsTimeFunctionClass_getFunction (castClass dateType)
       [enumColumn])
    ETDatetime [enumColumn].
Proof.
  apply (getFunction_signature_of_class (castClass dateType) enumColumn []
           eq_refl).
Defined.

(** The VARCHAR value [true] cast to JSON is the JSON literal, not the
    JSON string. *)
Lemma BuildCastFunction_string_to_json_parses_witness :
  exists bf,
    BuildCastFunction_getFunction
      (stringExpr JSONNull (varcharType UnspecifiedLength) (value "true"))
      jsonType
    = inr (builtinCastStringAsJSONSig bf, ScalarFuncSig_CastStringAsJson)
    /\ builtinCastStringAsJSONSig_evalJSON JSONNull JSONString refParseJSON
         bf tt strictCtx
       = ((JSONBool true, false, None), strictCtx).
Proof.
  destruct (BuildCastFunction_string_to_json_parses
              (stringExpr (Row := unit) JSONNull (varcharType UnspecifiedLength)
                 (value "true"))
              jsonType eq_refl eq_refl) as [bf [H1 [_ [_ H2]]]].
  exists bf. split; [exact H1 |].
  exact (H2 JSONNull JSONString refParseJSON tt strictCtx "true" strictCtx
           eq_refl).
Defined.

(** The integer dispatcher on an ENUM column: Int-to-Int, which reads
    [EvalInt]. *)
Lemma dispatched_signature_reads_own_accessor_witness :
  readsOtherAccessor
    (builtinCastIntAsIntSig (newBaseBuiltinFunc [enumColumn] bigintType))
    enumColumn = false.
Proof.
  apply (dispatched_signature_reads_own_accessor (castClass bigintType)
           enumColumn [] _ ScalarFuncSig_CastIntAsInt).
  left. reflexivity.
Defined.

(** The ENUM column is hybrid; to JSON it is cast as the string it is
    declared as. *)
Lemma dispatch_by_source_class_witness :
  sigSource
    (builtinCastStringAsJSONSig
       (newBaseBuiltinFunc [enumColumn] (orFlag jsonType ParseToJSONFlag)))
  = ETString.
Proof.
  apply (proj1 (dispatch_by_source_class (castClass jsonType) enumColumn []
                  _ ScalarFuncSig_CastStringAsJson)).
  right. right. left. reflexivity.
Defined.

(** ** What every routine does with its source *)

Section RoutineOutcomes.

Context {Row BinaryJSON : Type}.

Variable h : Helpers BinaryJSON.

Ltac unfold_routines :=
  unfold builtinFunc_eval, Expression_eval, outcome,
    builtinCastIntAsIntSig_evalInt, builtinCastIntAsRealSig_evalReal,
    builtinCastIntAsStringSig_evalString, builtinCastIntAsDecimalSig_evalDecimal,
    builtinCastIntAsTimeSig_evalTime, builtinCastIntAsDurationSig_evalDuration,
    builtinCastIntAsJSONSig_evalJSON,
    builtinCastRealAsIntSig_evalInt, builtinCastRealAsRealSig_evalReal,
    builtinCastRealAsStringSig_evalString, builtinCastRealAsDecimalSig_evalDecimal,
    builtinCastRealAsTimeSig_evalTime, builtinCastRealAsDurationSig_evalDuration,
    builtinCastRealAsJSONSig_evalJSON,
    builtinCastDecimalAsIntSig_evalInt, builtinCastDecimalAsRealSig_evalReal,
    builtinCastDecimalAsStringSig_evalString,
    builtinCastDecimalAsDecimalSig_evalDecimal,
    builtinCastDecimalAsTimeSig_evalTime,
    builtinCastDecimalAsDurationSig_evalDuration,
    builtinCastDecimalAsJSONSig_evalJSON,
    builtinCastStringAsIntSig_evalInt, builtinCastStringAsRealSig_evalReal,
    builtinCastStringAsStringSig_evalString,
    builtinCastStringAsDecimalSig_evalDecimal,
    builtinCastStringAsTimeSig_evalTime,
    builtinCastStringAsDurationSig_evalDuration,
    builtinCastStringAsJSONSig_evalJSON,
    builtinCastTimeAsIntSig_evalInt, builtinCastTimeAsRealSig_evalReal,
    builtinCastTimeAsStringSig_evalString, builtinCastTimeAsDecimalSig_evalDecimal,
    builtinCastTimeAsTimeSig_evalTime, builtinCastTimeAsDurationSig_evalDuration,
    builtinCastTimeAsJSONSig_evalJSON,
    builtinCastDurationAsIntSig_evalInt, builtinCastDurationAsRealSig_evalReal,
    builtinCastDurationAsStringSig_evalString,
    builtinCastDurationAsDecimalSig_evalDecimal,
    builtinCastDurationAsTimeSig_evalTime,
    builtinCastDurationAsDurationSig_evalDuration,
    builtinCastDurationAsJSONSig_evalJSON,
    builtinCastJSONAsIntSig_evalInt, builtinCastJSONAsRealSig_evalReal,
    builtinCastJSONAsStringSig_evalString, builtinCastJSONAsDecimalSig_evalDecimal,
    builtinCastJSONAsTimeSig_evalTime, builtinCastJSONAsDurationSig_evalDuration,
    builtinCastJSONAsJSONSig_evalJSON in *.

(** Names the result of the accessor the hypothesis [H] speaks of. *)
Ltac name_result H t :=
  let E := fresh "E" in
  destruct t as [[[? ?] ?] ?] eqn:E;
  cbn [fst snd] in H; injection H as -> -> ->.

Ltac source_result H :=
  match type of H with
  | context [EvalInt ?arg ?row ?sc] => name_result H (EvalInt arg row sc)
  | context [EvalReal ?arg ?row ?sc] => name_result H (EvalReal arg row sc)
  | context [EvalDecimal ?arg ?row ?sc] =>
      name_result H (EvalDecimal arg row sc)
  | context [EvalString ?arg ?row ?sc] => name_result H (EvalString arg row sc)
  | context [EvalTime ?arg ?row ?sc] => name_result H (EvalTime arg row sc)
  | context [EvalDuration ?arg ?row ?sc] =>
      name_result H (EvalDuration arg row sc)
  | context [EvalJSON ?arg ?row ?sc] => name_result H (EvalJSON arg row sc)
  end.

(** X6.  A source that is NULL or failed ends the routine at once: no
    warning is recorded, the error of the source is the error of the
    cast, and the null flag of the source is the null flag of the cast.
    Three routines set the flag themselves: Real-to-DateTime and
    Decimal-to-Json report NULL also for a source that failed without
    being NULL, and Decimal-to-Duration reports a value that is there
    also for a NULL source. *)
Theorem null_or_failed_source_ends_routine
    (sig : @builtinFunc Row BinaryJSON) (arg : @Expression Row BinaryJSON)
    (rest : list (@Expression Row BinaryJSON)) (row : Row)
    (sc sc1 : StatementContext) (n : bool) (e : option error) :
  args (sigBase sig) = arg :: rest ->
  readsOtherAccessor sig arg = false ->
  Expression_eval arg (sigSource sig) row sc = ((n, e), sc1) ->
  n || isErr e = true ->
  builtinFunc_eval h sig row sc
  = ((match sig with
      | builtinCastRealAsTimeSig _ | builtinCastDecimalAsJSONSig _ => true
      | builtinCastDecimalAsDurationSig _ => false
      | _ => n
      end, e), sc1).
Proof.
  intros Hargs Hacc Hsrc Hne.
  destruct sig as
    [b|b|b|b|b|b|b|b|b|b|b|b|b|b|b|b|b|b|b|b|b|b|b|b|b|b|b|b|b|b|b|b|b|b|b|b|b
    |b|b|b|b|b|b|b|b|b|b|b|b];
    cbn [sigBase sigSource readsOtherAccessor] in *;
    unfold_routines; unfold onArg0, bind, ret; rewrite Hargs;
    try rewrite Hacc;
    source_result Hsrc; try rewrite E; cbn [fst snd];
    try rewrite Hne; try reflexivity.
Qed.

(** X7.  For a source value that is there, no routine reports NULL
    without an error, apart from the three routines to Duration that
    consult the statement policy (Int, Decimal and String sources),
    where the policy may have turned the error into a warning. *)
Theorem no_null_without_error
    (sig : @builtinFunc Row BinaryJSON) (arg : @Expression Row BinaryJSON)
    (rest : list (@Expression Row BinaryJSON)) (row : Row)
    (sc sc1 : StatementContext) :
  args (sigBase sig) = arg :: rest ->
  readsOtherAccessor sig arg = false ->
  Expression_eval arg (sigSource sig) row sc = ((false, None), sc1) ->
  match sig with
  | builtinCastIntAsDurationSig _ | builtinCastDecimalAsDurationSig _
  | builtinCastStringAsDurationSig _ => True
  | _ =>
      fst (fst (builtinFunc_eval h sig row sc)) = true ->
      isErr (snd (fst (builtinFunc_eval h sig row sc))) = true
  end.
Proof.
  intros Hargs Hacc Hsrc.
  destruct sig as
    [b|b|b|b|b|b|b|b|b|b|b|b|b|b|b|b|b|b|b|b|b|b|b|b|b|b|b|b|b|b|b|b|b|b|b|b|b
    |b|b|b|b|b|b|b|b|b|b|b|b];
    try exact I;
    cbn [sigBase sigSource readsOtherAccessor] in *;
    unfold_routines; unfold onArg0, onDec, bind, ret; rewrite Hargs;
    try rewrite Hacc;
    source_result Hsrc; try rewrite E; cbn [fst snd orb isErr];
    repeat step;
    cbn [fst snd]; intros Hn; first [discriminate Hn | assumption | reflexivity].
Qed.

(** X8.  The routines that hand the statement context to no helper
    leave it as the source left it: they consult no policy and record no
    warning, so an error of theirs (the overflow of a real cast to an
    integer, say) is never turned into a warning. *)
Theorem routines_without_policy
    (sig : @builtinFunc Row BinaryJSON) (arg : @Expression Row BinaryJSON)
    (rest : list (@Expression Row BinaryJSON)) (row : Row)
    (sc : StatementContext) :
  args (sigBase sig) = arg :: rest ->
  match sig with
  | builtinCastIntAsIntSig _ | builtinCastIntAsRealSig _
  | builtinCastIntAsJSONSig _
  | builtinCastRealAsIntSig _ | builtinCastRealAsRealSig _
  | builtinCastRealAsDurationSig _ | builtinCastRealAsJSONSig _
  | builtinCastDecimalAsRealSig _ | builtinCastDecimalAsJSONSig _
  | builtinCastStringAsJSONSig _
  | builtinCastTimeAsRealSig _ | builtinCastTimeAsDurationSig _
  | builtinCastTimeAsJSONSig _
  | builtinCastDurationAsIntSig _ | builtinCastDurationAsRealSig _
  | builtinCastDurationAsDurationSig _ | builtinCastDurationAsJSONSig _
  | builtinCastJSONAsStringSig _ | builtinCastJSONAsJSONSig _ =>
      snd (builtinFunc_eval h sig row sc)
      = snd (Expression_eval arg (sigSource sig) row sc)
  | _ => True
  end.
Proof.
  intros Hargs.
  destruct sig as
    [b|b|b|b|b|b|b|b|b|b|b|b|b|b|b|b|b|b|b|b|b|b|b|b|b|b|b|b|b|b|b|b|b|b|b|b|b
    |b|b|b|b|b|b|b|b|b|b|b|b];
    try exact I;
    cbn [sigBase sigSource] in *;
    unfold_routines; unfold onArg0, onDec, bind, ret; rewrite Hargs;
    cbn [fst snd];
    repeat step; reflexivity.
Qed.

End RoutineOutcomes.

(** A NULL decimal cast to a Duration: the routine reports a value that
    is there. *)
Lemma null_or_failed_source_ends_routine_witness :
  builtinFunc_eval refHelpers
    (builtinCastDecimalAsDurationSig
       (newBaseBuiltinFunc
          [decimalExpr (Row := unit) JSONNull (decimalType 65 30)
             (fun _ => ret (None, true, None))]
          (durationType 0))) tt strictCtx
  = ((false, None), strictCtx).
Proof.
  apply (null_or_failed_source_ends_routine refHelpers
           (builtinCastDecimalAsDurationSig
              (newBaseBuiltinFunc
                 [decimalExpr (Row := unit) JSONNull (decimalType 65 30)
                    (fun _ => ret (None, true, None))]
                 (durationType 0)))
           (decimalExpr (Row := unit) JSONNull (decimalType 65 30)
              (fun _ => ret (None, true, None)))
           [] tt strictCtx strictCtx true None);
    reflexivity.
Defined.

(** An integer the helper cannot read as a DateTime: NULL, with the
    error. *)
Lemma no_null_without_error_witness :
  let r := builtinFunc_eval refHelpers
             (builtinCastIntAsTimeSig
                (newBaseBuiltinFunc
                   [intExpr (Row := unit) JSONNull bigintType (value 1)]
                   dateType)) tt strictCtx in
  fst (fst r) = true /\ isErr (snd (fst r)) = true.
Proof.
  split; [reflexivity |].
  apply (no_null_without_error refHelpers
           (builtinCastIntAsTimeSig
              (newBaseBuiltinFunc
                 [intExpr (Row := unit) JSONNull bigintType (value 1)]
                 dateType))
           (intExpr (Row := unit) JSONNull bigintType (value 1))
           [] tt strictCtx strictCtx);
    reflexivity.
Defined.

(** A real that does not fit an integer, under the warning policy: the
    context stays as it was. *)
Lemma routines_without_policy_witness :
  snd (builtinFunc_eval refHelpers
         (builtinCastRealAsIntSig
            (newBaseBuiltinFunc
               [realExpr (Row := unit) JSONNull bigintType (value 1)]
               bigintType)) tt selectCtx)
  = selectCtx.
Proof.
  apply (routines_without_policy refHelpers
           (builtinCastRealAsIntSig
              (newBaseBuiltinFunc
                 [realExpr (Row := unit) JSONNull bigintType (value 1)]
                 bigintType))
           (realExpr (Row := unit) JSONNull bigintType (value 1))
           [] tt selectCtx).
  reflexivity.
Defined.

(** ** Casts that go through a text *)

Section ThroughText.

Context {Row BinaryJSON : Type}.

Variable zeroJSON : BinaryJSON.
Variable FormatFloat : float64 -> string.
Variable ParseTime : string -> Z -> Z -> Stmt (Time * option error).
Variable ParseDuration : string -> Z -> Duration * option error.
Variable Time_String : Time -> string.
Variable Duration_String : Duration -> string.
Variable CreateBinary_string : string -> BinaryJSON.

(** X9.  A cast to a string, a DateTime or a Duration that first writes
    its source as a text treats that text as the cast of a String source
    does: a signed integer, a real, a decimal, a DateTime and a Duration
    cast to a string type give what their text cast to that type gives,
    and a decimal cast to a DateTime or a Duration gives what its text
    gives, value, null flag, error and warnings alike. *)
Theorem casts_through_text (ft sft tp : FieldType) (row : Row)
    (sc : StatementContext) :
  let str s := newBaseBuiltinFunc [stringExpr zeroJSON sft (value s)] tp in
  let on (e : @Expression Row BinaryJSON) := newBaseBuiltinFunc [e] tp in
  (forall v, HasUnsignedFlag (Flag ft) = false ->
     builtinCastIntAsStringSig_evalString
       (on (intExpr zeroJSON ft (value v))) row sc
     = builtinCastStringAsStringSig_evalString (str (FormatInt v)) row sc)
  /\ (forall f,
        builtinCastRealAsStringSig_evalString FormatFloat
          (on (realExpr zeroJSON ft (value f))) row sc
        = builtinCastStringAsStringSig_evalString (str (FormatFloat f)) row sc)
  /\ (forall d,
        builtinCastDecimalAsStringSig_evalString
          (on (decimalExpr zeroJSON ft (value (Some d)))) row sc
        = builtinCastStringAsStringSig_evalString
            (str (MyDecimal_ToString d)) row sc)
  /\ (forall t,
        builtinCastTimeAsStringSig_evalString Time_String
          (on (timeExpr zeroJSON ft (value t))) row sc
        = builtinCastStringAsStringSig_evalString (str (Time_String t)) row sc)
  /\ (forall d,
        builtinCastDurationAsStringSig_evalString Duration_String
          (on (durationExpr zeroJSON ft (value d))) row sc
        = builtinCastStringAsStringSig_evalString
            (str (Duration_String d)) row sc)
  /\ (forall d,
        builtinCastDecimalAsTimeSig_evalTime ParseTime
          (on (decimalExpr zeroJSON ft (value (Some d)))) row sc
        = builtinCastStringAsTimeSig_evalTime ParseTime
            (str (MyDecimal_ToString d)) row sc)
  /\ (forall d,
        builtinCastDecimalAsDurationSig_evalDuration ParseDuration
          (on (decimalExpr zeroJSON ft (value (Some d)))) row sc
        = builtinCastStringAsDurationSig_evalDuration ParseDuration
            (str (MyDecimal_ToString d)) row sc).
Proof.
  intros str on; subst str on.
  repeat split; intros;
    unfold builtinCastIntAsStringSig_evalString,
      builtinCastRealAsStringSig_evalString,
      builtinCastDecimalAsStringSig_evalString,
      builtinCastTimeAsStringSig_evalString,
      builtinCastDurationAsStringSig_evalString,
      builtinCastStringAsStringSig_evalString,
      builtinCastDecimalAsTimeSig_evalTime, builtinCastStringAsTimeSig_evalTime,
      builtinCastDecimalAsDurationSig_evalDuration,
      builtinCastStringAsDurationSig_evalDuration;
    run; try reflexivity.
  rewrite H. reflexivity.
Qed.

End ThroughText.

(** The integer 42 cast to VARCHAR(1) and its text cast to VARCHAR(1). *)
Lemma casts_through_text_witness :
  builtinCastIntAsStringSig_evalString
    (newBaseBuiltinFunc
       [intExpr (Row := unit) JSONNull bigintType (value 42)] (varcharType 1))
    tt strictCtx
  = builtinCastStringAsStringSig_evalString
      (newBaseBuiltinFunc
         [stringExpr JSONNull (varcharType UnspecifiedLength)
            (value (FormatInt 42))] (varcharType 1))
      tt strictCtx.
Proof.
  apply (proj1 (casts_through_text JSONNull (h_FormatFloat refHelpers)
                  (h_ParseTime refHelpers) refParseDuration
                  (h_Time_String refHelpers) (h_Duration_String refHelpers)
                  bigintType (varcharType UnspecifiedLength) (varcharType 1)
                  tt strictCtx) 42).
  reflexivity.
Defined.

(** ** Casts to JSON *)

Section ToJSON.

Context {Row BinaryJSON : Type}.

Variable zeroJSON : BinaryJSON.
Variable Time_String : Time -> string.
Variable Duration_String : Duration -> string.
Variable CreateBinary_bool : bool -> BinaryJSON.
Variable CreateBinary_int64 : Z -> BinaryJSON.
Variable CreateBinary_uint64 : Z -> BinaryJSON.
Variable CreateBinary_string : string -> BinaryJSON.

(** X10.  The JSON string of a Duration, and of a DATETIME or TIMESTAMP
    value, does not depend on the fractional-second precision the value
    carries: the value is written at the widest precision. *)
Theorem temporal_to_json_ignores_precision (ft tp : FieldType) (row : Row)
    (sc : StatementContext) (fsp : Z) :
  (forall d,
     builtinCastDurationAsJSONSig_evalJSON zeroJSON Duration_String
       CreateBinary_string
       (newBaseBuiltinFunc
          [durationExpr zeroJSON ft (value (Duration_withFsp d fsp))] tp) row sc
     = builtinCastDurationAsJSONSig_evalJSON zeroJSON Duration_String
         CreateBinary_string
         (newBaseBuiltinFunc [durationExpr zeroJSON ft (value d)] tp) row sc)
  /\ (forall t,
        Time_Type t = TypeDatetime \/ Time_Type t = TypeTimestamp ->
        builtinCastTimeAsJSONSig_evalJSON zeroJSON Time_String
          CreateBinary_string
          (newBaseBuiltinFunc
             [timeExpr zeroJSON ft (value (Time_withFsp t fsp))] tp) row sc
        = builtinCastTimeAsJSONSig_evalJSON zeroJSON Time_String
            CreateBinary_string
            (newBaseBuiltinFunc [timeExpr zeroJSON ft (value t)] tp) row sc).
Proof.
  split; intros;
    unfold builtinCastDurationAsJSONSig_evalJSON,
      builtinCastTimeAsJSONSig_evalJSON; run.
  - reflexivity.
  - destruct H as [H | H]; rewrite H; reflexivity.
Qed.

(** X11.  An unsigned integer is carried in the signed 64-bit result of
    a cast to an integer type.  A string of digits cast to an unsigned
    integer type and that result cast to JSON under the unsigned flag
    gives the number the string denotes, also above the largest signed
    integer. *)
Theorem unsigned_survives_signed_result (s : string) (sft ift itp jtp : FieldType)
    (row : Row) (sc sc1 : StatementContext) (u : Z) :
  Hybrid sft = false ->
  isNegativeStr (TrimSpace s) = false ->
  StrToUint (TrimSpace s) sc = ((u, None), sc1) ->
  0 <= u <= MaxUint64 ->
  HasUnsignedFlag (Flag itp) = true ->
  HasUnsignedFlag (Flag ift) = true ->
  HasIsBooleanFlag (Flag ift) = false ->
  builtinCastIntAsJSONSig_evalJSON zeroJSON CreateBinary_bool
    CreateBinary_int64 CreateBinary_uint64
    (newBaseBuiltinFunc
       [intExpr zeroJSON ift
          (builtinCastStringAsIntSig_evalInt
             (newBaseBuiltinFunc [stringExpr zeroJSON sft (value s)] itp))]
       jtp) row sc
  = ((CreateBinary_uint64 u, false, None), sc1).
Proof.
  intros Hh Hneg Hparse Hu Hitp Hift Hbool.
  unfold builtinCastIntAsJSONSig_evalJSON, builtinCastStringAsIntSig_evalInt,
    builtinCastStringAsIntSig_handleOverflow.
  run. rewrite Hh. simpl. rewrite Hneg. rewrite Hparse. simpl.
  rewrite Hitp. simpl. rewrite Hbool, Hift.
  f_equal. f_equal. f_equal. f_equal.
  unfold uint64, int64, MaxUint64 in *.
  destruct (Z_lt_le_dec u (2 ^ 63)).
  - rewrite (Z.mod_small (u + 2 ^ 63)) by lia.
    replace (u + 2 ^ 63 - 2 ^ 63) with u by lia. apply Z.mod_small. lia.
  - replace (u + 2 ^ 63) with (u - 2 ^ 63 + 1 * 2 ^ 64) by lia.
    rewrite Z.mod_add by lia. rewrite (Z.mod_small (u - 2 ^ 63)) by lia.
    replace (u - 2 ^ 63 - 2 ^ 63) with (u + (-1) * 2 ^ 64) by lia.
    rewrite Z.mod_add by lia. apply Z.mod_small. lia.
Qed.

End ToJSON.

(** The largest unsigned integer, written out. *)
Lemma unsigned_survives_signed_result_witness :
  builtinCastIntAsJSONSig_evalJSON JSONNull JSONBool JSONInt64 JSONUint64
    (newBaseBuiltinFunc
       [intExpr JSONNull unsignedBigintType
          (builtinCastStringAsIntSig_evalInt
             (newBaseBuiltinFunc
                [stringExpr JSONNull (varcharType UnspecifiedLength)
                   (value "18446744073709551615")] unsignedBigintType))]
       jsonType) tt strictCtx
  = ((JSONUint64 18446744073709551615, false, None), strictCtx).
Proof.
  apply (unsigned_survives_signed_result JSONNull JSONBool JSONInt64 JSONUint64
           "18446744073709551615" (varcharType UnspecifiedLength)
           unsignedBigintType unsignedBigintType jsonType tt strictCtx
           strictCtx 18446744073709551615);
    first [reflexivity | vm_compute; split; discriminate].
Defined.

(** A DATETIME value at precision 0 and at precision 3. *)
Lemma temporal_to_json_ignores_precision_witness :
  let t := {| Time_Time := FromDate 2018 1 1 12 0 0 0;
              Time_Type := TypeDatetime; Time_Fsp := 0 |} in
  let cast t :=
    builtinCastTimeAsJSONSig_evalJSON JSONNull (h_Time_String refHelpers)
      JSONString
      (newBaseBuiltinFunc
         [timeExpr (Row := unit) JSONNull bigintType (value t)] jsonType)
      tt strictCtx in
  cast (Time_withFsp t 3) = cast t.
Proof.
  intros t cast.
  apply (proj2 (temporal_to_json_ignores_precision JSONNull
                  (h_Time_String refHelpers) (h_Duration_String refHelpers)
                  JSONString bigintType jsonType tt strictCtx 3) t).
  left. reflexivity.
Defined.

(** ** An integer that is no duration *)

Section IntToDuration.

Context {Row BinaryJSON : Type}.

Variable NumberToDuration : Z -> Z -> Duration * option error.

(** X12.  An integer that cannot be read as a duration is NULL, whatever
    the error and the policy.  Only an overflow is handed to the
    overflow policy, with the error itself as its warning form: under
    the warning policy the cast is NULL without error and the overflow
    is recorded as a warning; any other error, and an overflow under the
    strict policy, is returned and nothing is recorded. *)
Theorem int_to_duration_failure_is_null (arg : @Expression Row BinaryJSON)
    (tp : FieldType) (row : Row) (sc sc1 : StatementContext) (v : Z)
    (dur : Duration) (e : error) :
  EvalInt arg row sc = ((v, false, None), sc1) ->
  NumberToDuration v (Decimal tp) = (dur, Some e) ->
  let r := builtinCastIntAsDurationSig_evalDuration NumberToDuration
             (newBaseBuiltinFunc [arg] tp) row sc in
  snd (fst (fst r)) = true
  /\ (Equal ErrOverflow (Some e) && OverflowAsWarning sc1 = true ->
      snd (fst r) = None /\ snd r = snd (AppendWarning e sc1))
  /\ (Equal ErrOverflow (Some e) && OverflowAsWarning sc1 = false ->
      snd (fst r) = Some e /\ snd r = sc1).
Proof.
  intros Hsrc Hnum r. subst r.
  unfold builtinCastIntAsDurationSig_evalDuration. run.
  rewrite Hsrc. simpl. rewrite Hnum. simpl.
  destruct e as [code eargs]. unfold Equal, errCode.
  destruct code; cbn [ErrCode_eqb andb];
    try (repeat split; intros; try discriminate; reflexivity).
  destruct sc1 as [sel ovf tr ws]. unfold HandleOverflow. run.
  destruct ovf; cbn [fst snd andb];
    repeat split; intros; try discriminate; reflexivity.
Qed.

End IntToDuration.

(** An integer the helper refuses, under the warning policy of a SELECT
    statement: NULL, and the error is the error of the cast. *)
Lemma int_to_duration_failure_is_null_witness :
  let r := builtinCastIntAsDurationSig_evalDuration
             (h_NumberToDuration refHelpers)
             (newBaseBuiltinFunc
                [intExpr (Row := unit) JSONNull bigintType (value 1)]
                (durationType 0)) tt selectCtx in
  snd (fst (fst r)) = true /\ snd (fst r) = Some (Gen ErrUnknown)
  /\ snd r = selectCtx.
Proof.
  intros r.
  destruct (int_to_duration_failure_is_null (h_NumberToDuration refHelpers)
              (intExpr (Row := unit) JSONNull bigintType (value 1))
              (durationType 0) tt selectCtx selectCtx 1 zeroDurationValue
              (Gen ErrUnknown) eq_refl eq_refl) as [H1 [_ H3]].
  split; [exact H1 | exact (H3 eq_refl)].
Defined.

(** ** The wrappers *)

Section WrapperProperties.

Context {Row BinaryJSON : Type}.

Variable ScalarFunction :
  FieldType -> @sigResult Row BinaryJSON -> @Expression Row BinaryJSON.
Variable FoldConstant : @Expression Row BinaryJSON -> @Expression Row BinaryJSON.

(** A scalar function reports the type tag it was built with
    ([RetType: tp]), and folding keeps the type tag of what it folds. *)
Hypothesis ScalarFunction_Tp :
  forall tp f, Tp (GetType (ScalarFunction tp f)) = Tp tp.
Hypothesis FoldConstant_Tp :
  forall e, Tp (GetType (FoldConstant e)) = Tp (GetType e).

Local Abbreviation Build := (BuildCastFunction ScalarFunction FoldConstant).

Lemma FieldType_EvalType_Tp (a b : FieldType) :
  Tp a = Tp b -> FieldType_EvalType a = FieldType_EvalType b.
Proof. unfold FieldType_EvalType. intros ->. reflexivity. Qed.

Lemma BuildCastFunction_RetType_Tp (expr : @Expression Row BinaryJSON)
    (tp : FieldType) :
  Tp (BuildCastFunction_RetType (BuildCastFunction_getFunction expr tp) tp)
  = Tp tp.
Proof.
  unfold BuildCastFunction_getFunction,
    castAsIntFunctionClass_getFunction, castAsRealFunctionClass_getFunction,
    castAsDecimalFunctionClass_getFunction, castAsStringFunctionClass_getFunction,
    castAsTimeFunctionClass_getFunction, castAsDurationFunctionClass_getFunction,
    castAsJSONFunctionClass_getFunction, getFunctionWith.
  change (verifyArgs (base (castClass tp)) [expr]) with (@None error).
  cbv iota beta.
  destruct (FieldType_EvalType tp);
    repeat match goal with
           | |- context [if ?b then _ else _] => destruct b
           | |- context [match FieldType_EvalType ?t with _ => _ end] =>
               destruct (FieldType_EvalType t)
           end;
    reflexivity.
Qed.

Lemma BuildCastFunction_Tp (expr : @Expression Row BinaryJSON) (tp : FieldType) :
  Tp (GetType (Build expr tp)) = Tp tp.
Proof.
  unfold BuildCastFunction.
  destruct (FieldType_EvalType tp);
    rewrite ?FoldConstant_Tp; rewrite ScalarFunction_Tp;
    apply BuildCastFunction_RetType_Tp.
Qed.

(** X13.  What comes out of a wrapper is of the class asked for: the
    four wrappers by evaluation class give an expression of that class,
    the wrappers to Duration and Json one of that type, and the wrapper
    to a temporal type one of the type asked for, unless a DATE or
    TIMESTAMP expression is asked as DATETIME, which is left as it is. *)
Theorem wrappers_give_the_class (expr : @Expression Row BinaryJSON)
    (tp : FieldType) :
  FieldType_EvalType
    (GetType (WrapWithCastAsInt ScalarFunction FoldConstant expr)) = ETInt
  /\ FieldType_EvalType
       (GetType (WrapWithCastAsReal ScalarFunction FoldConstant expr)) = ETReal
  /\ FieldType_EvalType
       (GetType (WrapWithCastAsDecimal ScalarFunction FoldConstant expr))
     = ETDecimal
  /\ FieldType_EvalType
       (GetType (WrapWithCastAsString ScalarFunction FoldConstant expr))
     = ETString
  /\ Tp (GetType (WrapWithCastAsDuration ScalarFunction FoldConstant expr))
     = TypeDuration
  /\ Tp (GetType (WrapWithCastAsJSON ScalarFunction FoldConstant expr))
     = TypeJSON
  /\ (Tp (GetType (WrapWithCastAsTime ScalarFunction FoldConstant expr tp))
      = Tp tp
      \/ (Tp tp = TypeDatetime
          /\ (Tp (GetType expr) = TypeDate \/ Tp (GetType expr) = TypeTimestamp)
          /\ WrapWithCastAsTime ScalarFunction FoldConstant expr tp = expr)).
Proof.
  unfold WrapWithCastAsInt, WrapWithCastAsReal, WrapWithCastAsDecimal,
    WrapWithCastAsString, WrapWithCastAsDuration, WrapWithCastAsJSON,
    WrapWithCastAsTime.
  repeat split.
  - destruct (FieldType_EvalType (GetType expr)) eqn:E; try exact E;
      (erewrite FieldType_EvalType_Tp; [| apply BuildCastFunction_Tp]);
      reflexivity.
  - destruct (FieldType_EvalType (GetType expr)) eqn:E; try exact E;
      (erewrite FieldType_EvalType_Tp; [| apply BuildCastFunction_Tp]);
      reflexivity.
  - destruct (FieldType_EvalType (GetType expr)) eqn:E; try exact E;
      (erewrite FieldType_EvalType_Tp; [| apply BuildCastFunction_Tp]);
      reflexivity.
  - destruct (FieldType_EvalType (GetType expr)) eqn:E; try exact E;
      (erewrite FieldType_EvalType_Tp; [| apply BuildCastFunction_Tp]);
      reflexivity.
  - destruct (Tp (GetType expr) =? TypeDuration) eqn:E.
    + apply Z.eqb_eq. exact E.
    + apply BuildCastFunction_Tp.
  - destruct ((Tp (GetType expr) =? TypeJSON)
              && negb (HasParseToJSONFlag (Flag (GetType expr)))) eqn:E.
    + apply andb_true_iff in E. apply Z.eqb_eq. apply E.
    + apply BuildCastFunction_Tp.
  - destruct (Tp tp =? Tp (GetType expr)) eqn:E.
    + left. symmetry. apply Z.eqb_eq. exact E.
    + destruct (((Tp (GetType expr) =? TypeDate)
                 || (Tp (GetType expr) =? TypeTimestamp))
                && (Tp tp =? TypeDatetime)) eqn:E2.
      * right. apply andb_true_iff in E2. destruct E2 as [E2 E3].
        apply orb_true_iff in E2.
        split; [apply Z.eqb_eq; exact E3 |].
        split; [| reflexivity].
        destruct E2 as [E2 | E2]; [left | right]; apply Z.eqb_eq; exact E2.
      * left. rewrite BuildCastFunction_Tp. reflexivity.
Qed.

(** X14.  Wrapping twice is wrapping once: what a wrapper by evaluation
    class, to Duration or to a temporal type has produced, the same
    wrapper returns as it is. *)
Theorem wrappers_are_idempotent (expr : @Expression Row BinaryJSON)
    (tp : FieldType) :
  let wInt := WrapWithCastAsInt ScalarFunction FoldConstant in
  let wReal := WrapWithCastAsReal ScalarFunction FoldConstant in
  let wDecimal := WrapWithCastAsDecimal ScalarFunction FoldConstant in
  let wString := WrapWithCastAsString ScalarFunction FoldConstant in
  let wDuration := WrapWithCastAsDuration ScalarFunction FoldConstant in
  let wTime e := WrapWithCastAsTime ScalarFunction FoldConstant e tp in
  wInt (wInt expr) = wInt expr
  /\ wReal (wReal expr) = wReal expr
  /\ wDecimal (wDecimal expr) = wDecimal expr
  /\ wString (wString expr) = wString expr
  /\ wDuration (wDuration expr) = wDuration expr
  /\ wTime (wTime expr) = wTime expr.
Proof.
  cbv zeta.
  repeat split.
  - unfold WrapWithCastAsInt at 1.
    destruct (FieldType_EvalType
                (GetType (WrapWithCastAsInt ScalarFunction FoldConstant expr)))
      eqn:E; try reflexivity;
      unfold WrapWithCastAsInt in E;
      destruct (FieldType_EvalType (GetType expr)) eqn:E0; try congruence;
      (erewrite FieldType_EvalType_Tp in E; [| apply BuildCastFunction_Tp]);
      discriminate E.
  - unfold WrapWithCastAsReal at 1.
    destruct (FieldType_EvalType
                (GetType (WrapWithCastAsReal ScalarFunction FoldConstant expr)))
      eqn:E; try reflexivity;
      unfold WrapWithCastAsReal in E;
      destruct (FieldType_EvalType (GetType expr)) eqn:E0; try congruence;
      (erewrite FieldType_EvalType_Tp in E; [| apply BuildCastFunction_Tp]);
      discriminate E.
  - unfold WrapWithCastAsDecimal at 1.
    destruct (FieldType_EvalType
                (GetType (WrapWithCastAsDecimal ScalarFunction FoldConstant expr)))
      eqn:E; try reflexivity;
      unfold WrapWithCastAsDecimal in E;
      destruct (FieldType_EvalType (GetType expr)) eqn:E0; try congruence;
      (erewrite FieldType_EvalType_Tp in E; [| apply BuildCastFunction_Tp]);
      discriminate E.
  - unfold WrapWithCastAsString at 1.
    destruct (FieldType_EvalType
                (GetType (WrapWithCastAsString ScalarFunction FoldConstant expr)))
      eqn:E; try reflexivity;
      unfold WrapWithCastAsString in E;
      destruct (FieldType_EvalType (GetType expr)) eqn:E0; try congruence;
      (erewrite FieldType_EvalType_Tp in E; [| apply BuildCastFunction_Tp]);
      discriminate E.
  - unfold WrapWithCastAsDuration at 1.
    destruct (Tp (GetType
                    (WrapWithCastAsDuration ScalarFunction FoldConstant expr))
              =? TypeDuration) eqn:E; try reflexivity.
    unfold WrapWithCastAsDuration in E.
    destruct (Tp (GetType expr) =? TypeDuration) eqn:E0; try congruence.
    rewrite BuildCastFunction_Tp in E. discriminate E.
  - unfold WrapWithCastAsTime at 1.
    destruct (Tp tp =? Tp (GetType
                (WrapWithCastAsTime ScalarFunction FoldConstant expr tp)))
      eqn:E; try reflexivity.
    unfold WrapWithCastAsTime in *.
    destruct (Tp tp =? Tp (GetType expr)) eqn:E0; try congruence.
    destruct (((Tp (GetType expr) =? TypeDate)
               || (Tp (GetType expr) =? TypeTimestamp))
              && (Tp tp =? TypeDatetime)) eqn:E1.
    + rewrite E1. reflexivity.
    + rewrite BuildCastFunction_Tp in E. simpl in E.
      rewrite Z.eqb_refl in E. discriminate E.
Qed.

End WrapperProperties.

(** The wrappers over a scalar function that reports its type and no
    folding, on an ENUM column. *)
Lemma wrappers_give_the_class_witness :
  FieldType_EvalType
    (GetType
       (WrapWithCastAsInt (fun tp _ => noAccessor JSONNull tp false)
          (fun e => e) enumColumn)) = ETInt.
Proof.
  apply (wrappers_give_the_class (fun tp _ => noAccessor JSONNull tp false)
           (fun e => e) (fun _ _ => eq_refl) (fun _ => eq_refl)
           enumColumn dateType).
Defined.

Lemma wrappers_are_idempotent_witness :
  let w := WrapWithCastAsTime (fun tp _ => noAccessor JSONNull tp false)
             (fun e => e) in
  w (w enumColumn dateType) dateType = w enumColumn dateType.
Proof.
  apply (wrappers_are_idempotent (fun tp _ => noAccessor JSONNull tp false)
           (fun e => e) (fun _ _ => eq_refl) (fun _ => eq_refl)
           enumColumn dateType).
Defined.
